(** * Schema layer of SimpleMicroservices: Coursework and Assignment models

    The repository declares its data contracts as pydantic models
    ([models/coursework.py], [models/assignment.py]).  A model is a list of
    field declarations (name, annotation, default); constructing a model from
    a request body walks the fields in declaration order, validates every
    supplied value against the annotation and fills an absent field from its
    default or default factory.

    This file embeds
    - the lexical forms of the scalar types (UUID, date, datetime),
    - the ambient effects used by the default factories ([uuid4], [utcnow])
      as an explicit [World] threaded through validation,
    - field declarations and the model classes exactly as the sources declare
      them, with subclassing as field-table extension,
    - validate-and-construct and serialisation, for any validation engine as
      far as its behaviour is not fixed by the sources (the e-mail check,
      the reading of timestamps, the string forms it reads beyond those the
      layer emits),
    and proves the properties of the specification about them. *)

From Stdlib Require Import ZArith List String Ascii Bool Lia Permutation.
Import ListNotations.

Local Open Scope Z_scope.

#[local] Set Warnings "-register-all".


(** ** Lexical layer: fixed-width numerals *)

Module Lex.

Definition chars := list ascii.

(** Value of a character read as a digit (decimal digits, then [a-f], then
    [A-F]). *)
Definition digit_value (c : ascii) : option Z :=
  let n := Z.of_N (N_of_ascii c) in
  if (48 <=? n) && (n <=? 57) then Some (n - 48)
  else if (97 <=? n) && (n <=? 102) then Some (n - 87)
  else if (65 <=? n) && (n <=? 70) then Some (n - 55)
  else None.

Definition digit_in (b : Z) (c : ascii) : option Z :=
  match digit_value c with
  | Some d => if d <? b then Some d else None
  | None => None
  end.

Definition is_digit (c : ascii) : bool :=
  match digit_in 10 c with Some _ => true | None => false end.

(** Lower-case digit character of a value below 16. *)
Definition digit_char (d : Z) : ascii :=
  if d <? 10 then ascii_of_N (Z.to_N (48 + d)) else ascii_of_N (Z.to_N (87 + d)).

Definition number_step (b : Z) (acc : option Z) (c : ascii) : option Z :=
  match acc, digit_in b c with
  | Some a, Some d => Some (a * b + d)
  | _, _ => None
  end.

(** Reads a digit string in base [b], most significant digit first. *)
Definition number_of (b : Z) (l : chars) : option Z :=
  fold_left (number_step b) l (Some 0).

(** The [n] low digits of [z] in base [b], most significant first. *)
Fixpoint digits_of (b : Z) (n : nat) (z : Z) : chars :=
  match n with
  | O => []
  | S k => digits_of b k (z / b) ++ [digit_char (z mod b)]
  end.

End Lex.


(** ** UUIDs

    A [uuid.UUID] is its 128-bit integer; [str] prints it as 32 lower-case
    hexadecimal digits grouped 8-4-4-4-12. *)

Module Uuid.
Import Lex.

Definition in_range (u : Z) : bool := (0 <=? u) && (u <? 2 ^ 128).

Definition hyphen : ascii := "-"%char.

Definition is_hyphen (c : ascii) : bool := Ascii.eqb c hyphen.

Definition group (h : chars) : chars :=
  firstn 8 h ++ hyphen :: firstn 4 (skipn 8 h) ++ hyphen :: firstn 4 (skipn 12 h)
    ++ hyphen :: firstn 4 (skipn 16 h) ++ hyphen :: skipn 20 h.

Definition ungroup (l : chars) : option chars :=
  if (List.length l =? 36)%nat
     && is_hyphen (nth 8 l zero) && is_hyphen (nth 13 l zero)
     && is_hyphen (nth 18 l zero) && is_hyphen (nth 23 l zero)
  then Some (firstn 8 l ++ firstn 4 (skipn 9 l) ++ firstn 4 (skipn 14 l)
               ++ firstn 4 (skipn 19 l) ++ skipn 24 l)
  else None.

(** [str(u)] *)
Definition to_str (u : Z) : string :=
  string_of_list_ascii (group (digits_of 16 32 u)).

(** Reading the hyphenated form, hexadecimal digits of either case.  This
    is the reader of the emitted form only; validation reads a UUID through
    [str_as_uuid], which also takes the other forms of the engine. *)
Definition of_str (s : string) : option Z :=
  match ungroup (list_ascii_of_string s) with
  | Some h => number_of 16 h
  | None => None
  end.

(** [UUID(bytes=os.urandom(16), version=4)]: the 16 random bytes read as a
    big-endian integer, with the variant and version bits forced as
    [uuid.UUID.__init__] does. *)
Definition uuid4_of_int (int : Z) : Z :=
  let int := Z.land int (Z.lnot (Z.shiftl 0xc000 48)) in
  let int := Z.lor int (Z.shiftl 0x8000 48) in
  let int := Z.land int (Z.lnot (Z.shiftl 0xf000 64)) in
  Z.lor int (Z.shiftl 4 76).

Definition version (u : Z) : Z := Z.land (Z.shiftr u 76) 0xf.
Definition variant_bits (u : Z) : Z := Z.land (Z.shiftr u 62) 0x3.

End Uuid.


(** ** Calendar dates and timestamps

    [datetime.date] and [datetime.datetime] as records of their fields, with
    the ISO 8601 extended form the layer emits for them ([YYYY-MM-DD] and
    [YYYY-MM-DDTHH:MM:SS[.ffffff][Z|+HH:MM]]) and a reader of that form. *)

Module Iso.
Import Lex.

Record date := mkdate { year : Z; month : Z; day : Z }.

Record datetime := mkdatetime {
  dt_date : date;
  hour : Z;
  minute : Z;
  second : Z;
  microsecond : Z;
  tzinfo : option Z  (* utcoffset in minutes; [None] for a naive datetime *)
}.

Definition is_leap (y : Z) : bool :=
  (y mod 4 =? 0) && (negb (y mod 100 =? 0) || (y mod 400 =? 0)).

Definition days_in_month (y m : Z) : Z :=
  if m =? 2 then (if is_leap y then 29 else 28)
  else if (m =? 4) || (m =? 6) || (m =? 9) || (m =? 11) then 30
  else 31.

Definition date_ok (d : date) : bool :=
  (1 <=? year d) && (year d <=? 9999)
  && (1 <=? month d) && (month d <=? 12)
  && (1 <=? day d) && (day d <=? days_in_month (year d) (month d)).

Definition time_ok (h m s us : Z) : bool :=
  (0 <=? h) && (h <? 24) && (0 <=? m) && (m <? 60)
  && (0 <=? s) && (s <? 60) && (0 <=? us) && (us <? 1000000).

Definition tz_ok (tz : option Z) : bool :=
  match tz with
  | None => true
  | Some off => (-1440 <? off) && (off <? 1440)
  end.

Definition datetime_ok (t : datetime) : bool :=
  date_ok (dt_date t)
  && time_ok (hour t) (minute t) (second t) (microsecond t)
  && tz_ok (tzinfo t).

(** *** Writers *)

Definition two (z : Z) : chars := digits_of 10 2 z.

Definition date_chars (d : date) : chars :=
  digits_of 10 4 (year d) ++ "-"%char :: two (month d) ++ "-"%char :: two (day d).

Definition frac_chars (us : Z) : chars :=
  if us =? 0 then [] else "."%char :: digits_of 10 6 us.

Definition tz_chars (tz : option Z) : chars :=
  match tz with
  | None => []
  | Some off =>
      if off =? 0 then ["Z"%char]
      else (if off <? 0 then "-"%char else "+"%char)
             :: two (Z.abs off / 60) ++ ":"%char :: two (Z.abs off mod 60)
  end.

Definition datetime_chars (t : datetime) : chars :=
  date_chars (dt_date t) ++ "T"%char
    :: two (hour t) ++ ":"%char :: two (minute t) ++ ":"%char :: two (second t)
    ++ frac_chars (microsecond t) ++ tz_chars (tzinfo t).

(** [date.isoformat()] *)
Definition date_str (d : date) : string := string_of_list_ascii (date_chars d).

(** The JSON form of a datetime. *)
Definition datetime_str (t : datetime) : string :=
  string_of_list_ascii (datetime_chars t).

(** *** Readers, as prefix parsers returning the unread rest *)

Definition parser (A : Type) := chars -> option (A * chars).

Definition pbind {A B} (p : parser A) (f : A -> parser B) : parser B :=
  fun l => match p l with
           | Some (a, r) => f a r
           | None => None
           end.

Definition pret {A} (a : A) : parser A := fun l => Some (a, l).

Definition pguard (b : bool) : parser unit :=
  fun l => if b then Some (tt, l) else None.

Notation "x <- p ;; q" := (pbind p (fun x => q))
  (at level 61, p at next level, right associativity).
Notation "p ;;; q" := (pbind p (fun _ => q))
  (at level 61, right associativity).

Definition expect (ok : ascii -> bool) : parser unit :=
  fun l => match l with
           | c :: r => if ok c then Some (tt, r) else None
           | [] => None
           end.

Definition lit (c : ascii) : parser unit := expect (Ascii.eqb c).

(** Exactly [n] decimal digits. *)
Definition read_digits (n : nat) : parser Z :=
  fun l => if (n <=? List.length l)%nat
           then match number_of 10 (firstn n l) with
                | Some z => Some (z, skipn n l)
                | None => None
                end
           else None.

Fixpoint digit_run (l : chars) : chars * chars :=
  match l with
  | c :: r => if is_digit c then let (ds, rest) := digit_run r in (c :: ds, rest)
              else ([], l)
  | [] => ([], [])
  end.

(** Optional fraction of a second: a dot and one to six digits. *)
Definition read_frac : parser Z :=
  fun l => match l with
           | c :: r =>
               if Ascii.eqb c "."%char then
                 let (ds, rest) := digit_run r in
                 let n := List.length ds in
                 if (1 <=? n)%nat && (n <=? 6)%nat then
                   match number_of 10 ds with
                   | Some z => Some (z * 10 ^ Z.of_nat (6 - n), rest)
                   | None => None
                   end
                 else None
               else Some (0, l)
           | [] => Some (0, [])
           end.

Definition is_sign (c : ascii) : bool :=
  Ascii.eqb c "+"%char || Ascii.eqb c "-"%char.

(** Optional zone designator: nothing, [Z], or a signed [HH:MM] offset. *)
Definition read_tz : parser (option Z) :=
  fun l => match l with
           | [] => Some (None, [])
           | c :: r =>
               if Ascii.eqb c "Z"%char || Ascii.eqb c "z"%char then Some (Some 0, r)
               else if is_sign c then
                 (h <- read_digits 2 ;; lit ":" ;;; m <- read_digits 2 ;;
                  pguard ((h <? 24) && (m <? 60)) ;;;
                  pret (Some (if Ascii.eqb c "-"%char then - (h * 60 + m)
                              else h * 60 + m))) r
               else None
           end.

Definition read_date : parser date :=
  y <- read_digits 4 ;; lit "-" ;;; m <- read_digits 2 ;; lit "-" ;;;
  d <- read_digits 2 ;;
  pguard (date_ok (mkdate y m d)) ;;; pret (mkdate y m d).

Definition is_sep (c : ascii) : bool :=
  Ascii.eqb c "T"%char || Ascii.eqb c "t"%char || Ascii.eqb c " "%char.

Definition read_datetime : parser datetime :=
  d <- read_date ;; expect is_sep ;;;
  h <- read_digits 2 ;; lit ":" ;;; m <- read_digits 2 ;; lit ":" ;;;
  s <- read_digits 2 ;; us <- read_frac ;; tz <- read_tz ;;
  pguard (time_ok h m s us) ;;; pret (mkdatetime d h m s us tz).

(** A reader applied to a whole string: nothing may be left over. *)
Definition whole {A} (p : parser A) (s : string) : option A :=
  match p (list_ascii_of_string s) with
  | Some (a, []) => Some a
  | _ => None
  end.

(** The readers of the emitted forms.  Validation reads through
    [str_as_date] and [str_as_datetime], which also take the other forms of
    the engine. *)
Definition date_of_str : string -> option date := whole read_date.
Definition datetime_of_str : string -> option datetime := whole read_datetime.

End Iso.


(** ** Documents, constructed values and validation errors *)

(** A request body: the JSON-like document handed to validate-and-construct.
    A number is its decimal literal, [mantissa] times ten to the [exponent].
    An object is its member list; [lookup] takes the first member of a
    key. *)
Inductive json :=
| JNull
| JBool (b : bool)
| JNum (mantissa exponent : Z)
| JStr (s : string)
| JArr (items : list json)
| JObj (members : list (string * json)).

(** A constructed Python value: a scalar, a list, or a model instance with
    its class name and its fields in declaration order.  This is what
    attribute access and the dump of all fields show; the record that an
    instance keeps of the fields given to it explicitly stands beside it, see
    [instance] below. *)
Inductive value :=
| VNone
| VStr (s : string)
| VUuid (u : Z)
| VDate (d : Iso.date)
| VDatetime (t : Iso.datetime)
| VList (items : list value)
| VModel (cls : string) (fields : list (string * value)).

Fixpoint lookup {A : Type} (k : string) (kvs : list (string * A)) : option A :=
  match kvs with
  | [] => None
  | (k', v) :: rest => if String.eqb k k' then Some v else lookup k rest
  end.

Inductive loc_item := Key (k : string) | Index (i : nat).

Inductive err_type :=
| missing
| string_type
| string_too_short
| value_error
| uuid_type
| uuid_parsing
| date_type
| date_from_datetime_parsing
| date_from_datetime_inexact
| datetime_type
| datetime_parsing
| datetime_from_date_parsing
| list_type
| model_type.

(** One entry of a ValidationError: where, and what was wrong. *)
Record error := mkerror { loc : list loc_item; type : err_type }.

Inductive res (A : Type) :=
| Ok (a : A)
| Err (es : list error).
Arguments Ok {A} a.
Arguments Err {A} es.

Definition is_ok {A} (r : res A) : bool :=
  match r with Ok _ => true | Err _ => false end.

Definition errors {A} (r : res A) : list error :=
  match r with Ok _ => [] | Err es => es end.

Definition fail {A} (t : err_type) : res A := Err [mkerror [] t].

Definition res_map {A B} (f : A -> B) (r : res A) : res B :=
  match r with Ok a => Ok (f a) | Err es => Err es end.

Definition under (i : loc_item) (e : error) : error :=
  mkerror (i :: loc e) (type e).

(** Errors of a nested value are reported below the place it sits at. *)
Definition at_loc {A} (i : loc_item) (r : res A) : res A :=
  match r with Ok a => Ok a | Err es => Err (map (under i) es) end.

(** All errors of a document are collected, in field order. *)
Definition cons_res {A} (r : res A) (rs : res (list A)) : res (list A) :=
  match r, rs with
  | Ok a, Ok l => Ok (a :: l)
  | Ok _, Err es => Err es
  | Err es, Ok _ => Err es
  | Err es, Err es' => Err (es ++ es')
  end.

(** The dotted/bracketed rendering of an error location. *)
Fixpoint nat_digits (fuel n : nat) : Lex.chars :=
  match fuel with
  | O => []
  | S k => (if (n <? 10)%nat then [] else nat_digits k (n / 10))
             ++ [Lex.digit_char (Z.of_nat (n mod 10))]
  end.

Fixpoint dotted_from (first : bool) (p : list loc_item) : string :=
  match p with
  | [] => EmptyString
  | Key k :: rest =>
      ((if first then EmptyString else ".") ++ k ++ dotted_from false rest)%string
  | Index i :: rest =>
      ("[" ++ string_of_list_ascii (nat_digits (S i) i) ++ "]"
         ++ dotted_from false rest)%string
  end.

Definition dotted (p : list loc_item) : string := dotted_from true p.

(** ** Ambient effects of the default factories

    [uuid4] draws 16 bytes from the operating system's entropy source and
    [datetime.utcnow] reads the clock.  The world holds both sources and the
    number of draws made so far. *)

Record World := mkWorld {
  entropy : nat -> Z;
  clock : nat -> Iso.datetime;
  ticks : nat
}.

Definition advance (w : World) : World :=
  mkWorld (entropy w) (clock w) (S (ticks w)).

(** [int.from_bytes(os.urandom(16), "big")] *)
Definition os_urandom16 (w : World) : Z * World :=
  (entropy w (ticks w) mod 2 ^ 128, advance w).

Definition uuid4 (w : World) : Z * World :=
  let (r, w') := os_urandom16 w in (Uuid.uuid4_of_int r, w').

(** [datetime.utcnow()] returns a naive datetime. *)
Definition utcnow (w : World) : Iso.datetime * World :=
  let t := clock w (ticks w) in
  (Iso.mkdatetime (Iso.dt_date t) (Iso.hour t) (Iso.minute t) (Iso.second t)
     (Iso.microsecond t) None,
   advance w).

(** The clock shows a real time of day on a real calendar day. *)
Definition clock_ok (w : World) : Prop :=
  forall n, Iso.datetime_ok (clock w n) = true.

(** ** Field declarations *)

Inductive factory := F_uuid4 | F_utcnow | F_list.

(** [Field(...)], [Field(None)] or [Field(default_factory=f)]. *)
Inductive dflt :=
| Required
| Default (v : value)
| DefaultFactory (f : factory).

Inductive ty :=
| TStr                       (* str *)
| TStrMin (n : nat)          (* str of at least n characters *)
| TEmail                     (* a syntactically checked e-mail address *)
| TUuid                      (* UUID *)
| TDate                      (* date *)
| TDatetime                  (* datetime *)
| TOptional (t : ty)         (* Optional[t] *)
| TList (t : ty)             (* List[t] *)
| TModel (cls : string) (fs : list field)   (* a BaseModel subclass *)
with field :=
| Field (name : string) (annotation : ty) (default : dflt).

Definition field_name (f : field) : string :=
  match f with Field n _ _ => n end.

Definition field_annotation (f : field) : ty :=
  match f with Field _ a _ => a end.

Definition field_default (f : field) : dflt :=
  match f with Field _ _ d => d end.

Definition call_factory (f : factory) (w : World) : value * World :=
  match f with
  | F_uuid4 => let (u, w') := uuid4 w in (VUuid u, w')
  | F_utcnow => let (t, w') := utcnow w in (VDatetime t, w')
  | F_list => (VList [], w)
  end.

(** The value of a field the document does not mention. *)
Definition get_default (n : string) (d : dflt) (w : World)
  : res (string * value) * World :=
  match d with
  | Required => (Err [mkerror [Key n] missing], w)
  | Default v => (Ok (n, v), w)
  | DefaultFactory f => let (v, w') := call_factory f w in (Ok (n, v), w')
  end.

(** ** Validate-and-construct *)

(** Some behaviours of the validation engine are fixed outside these
    sources: the syntax check it applies to an e-mail address, the datetime
    it reads from a number given where a date or a time is expected (an
    epoch timestamp), and the strings it reads as a UUID, a date or a
    datetime beyond the forms this layer emits (a UUID without hyphens, in
    braces or as a URN; a date or a time given as a numeric string, a time
    without seconds, other offset notations).  Validation is stated for any
    such engine: which documents are accepted is decided by the engine, not
    by the readers of the emitted forms above. *)
Record Engine := mkEngine {
  email_ok : string -> bool;
  timestamp : Z -> Z -> option Iso.datetime;
  uuid_forms : string -> option Z;
  date_forms : string -> option Iso.date;
  datetime_forms : string -> option Iso.datetime
}.

Definition midnight (t : Iso.datetime) : bool :=
  (Iso.hour t =? 0) && (Iso.minute t =? 0) && (Iso.second t =? 0)
  && (Iso.microsecond t =? 0).

(** The datetime of a date: that day at 00:00:00, without zone. *)
Definition at_midnight (d : Iso.date) : Iso.datetime :=
  Iso.mkdatetime d 0 0 0 0 None.

(** A value the engine read is kept only if it is one of its type. *)
Definition checked {A} (ok : A -> bool) (x : option A) : option A :=
  match x with
  | Some a => if ok a then Some a else None
  | None => None
  end.

(** A reader tried first, then another. *)
Definition or_else {A} (x y : option A) : option A :=
  match x with
  | Some a => Some a
  | None => y
  end.

Section Validation.

Variable eng : Engine.

Definition validator := json -> World -> res value * World.

(** *** Scalars given as strings or numbers

    A string is read in the emitted form or in another form of the
    engine's. *)

Definition str_as_uuid (s : string) : option Z :=
  or_else (Uuid.of_str s) (checked Uuid.in_range (uuid_forms eng s)).

Definition str_as_date (s : string) : option Iso.date :=
  or_else (Iso.date_of_str s) (checked Iso.date_ok (date_forms eng s)).

Definition str_as_datetime (s : string) : option Iso.datetime :=
  or_else (Iso.datetime_of_str s) (checked Iso.datetime_ok (datetime_forms eng s)).

Definition num_as_datetime (m e : Z) : option Iso.datetime :=
  checked Iso.datetime_ok (timestamp eng m e).

(** What is not a date is tried as a datetime, and taken if it falls on
    midnight. *)
Definition date_from_datetime (t : option Iso.datetime) : res value :=
  match t with
  | Some t => if midnight t then Ok (VDate (Iso.dt_date t))
              else fail date_from_datetime_inexact
  | None => fail date_from_datetime_parsing
  end.

(** What is not a datetime is tried as a date, and taken at midnight. *)
Definition datetime_from_date (d : option Iso.date) : res value :=
  match d with
  | Some d => Ok (VDatetime (at_midnight d))
  | None => fail datetime_from_date_parsing
  end.

Definition validate_uuid (j : json) : res value :=
  match j with
  | JStr s => match str_as_uuid s with
              | Some u => Ok (VUuid u)
              | None => fail uuid_parsing
              end
  | _ => fail uuid_type
  end.

Definition validate_date (j : json) : res value :=
  match j with
  | JStr s => match str_as_date s with
              | Some d => Ok (VDate d)
              | None => date_from_datetime (str_as_datetime s)
              end
  | JNum m e => date_from_datetime (num_as_datetime m e)
  | _ => fail date_type
  end.

Definition validate_datetime (j : json) : res value :=
  match j with
  | JStr s => match str_as_datetime s with
              | Some t => Ok (VDatetime t)
              | None => datetime_from_date (str_as_date s)
              end
  | JNum m e => match num_as_datetime m e with
                | Some t => Ok (VDatetime t)
                | None => fail datetime_parsing
                end
  | _ => fail datetime_type
  end.

Fixpoint validate_items (v : validator) (i : nat) (items : list json) (w : World)
  : res (list value) * World :=
  match items with
  | [] => (Ok [], w)
  | j :: rest =>
      let (r, w1) := v j w in
      let (rs, w2) := validate_items v (S i) rest w1 in
      (cons_res (at_loc (Index i) r) rs, w2)
  end.

Definition validate_field (v : ty -> validator) (kvs : list (string * json))
  (f : field) (w : World) : res (string * value) * World :=
  match f with
  | Field n a d =>
      match lookup n kvs with
      | Some j => let (r, w') := v a j w in (at_loc (Key n) (res_map (pair n) r), w')
      | None => get_default n d w
      end
  end.

(** The fields of a model are built in declaration order. *)
Fixpoint validate_fields (v : ty -> validator) (kvs : list (string * json))
  (fs : list field) (w : World) : res (list (string * value)) * World :=
  match fs with
  | [] => (Ok [], w)
  | f :: rest =>
      let (r, w1) := validate_field v kvs f w in
      let (rs, w2) := validate_fields v kvs rest w1 in
      (cons_res r rs, w2)
  end.

Definition validate_str (ok : string -> res value) (j : json) : res value :=
  match j with
  | JStr s => ok s
  | _ => fail string_type
  end.

Fixpoint validate (t : ty) (j : json) (w : World) {struct t} : res value * World :=
  match t with
  | TStr => (validate_str (fun s => Ok (VStr s)) j, w)
  | TStrMin n =>
      (validate_str (fun s => if (n <=? String.length s)%nat then Ok (VStr s)
                              else fail string_too_short) j, w)
  | TEmail =>
      (validate_str (fun s => if email_ok eng s then Ok (VStr s) else fail value_error) j, w)
  | TUuid => (validate_uuid j, w)
  | TDate => (validate_date j, w)
  | TDatetime => (validate_datetime j, w)
  | TOptional t' =>
      match j with
      | JNull => (Ok VNone, w)
      | _ => validate t' j w
      end
  | TList t' =>
      match j with
      | JArr items =>
          let (r, w') := validate_items (validate t') 0 items w in
          (res_map VList r, w')
      | _ => (fail list_type, w)
      end
  | TModel cls fs =>
      match j with
      | JObj kvs =>
          let (r, w') := validate_fields validate kvs fs w in
          (res_map (VModel cls) r, w')
      | _ => (fail model_type, w)
      end
  end.

End Validation.

(** ** Serialisation *)

(** The JSON-mode dump of a constructed value: every field is emitted, an
    unset optional as null. *)
Fixpoint serialize (v : value) : json :=
  match v with
  | VNone => JNull
  | VStr s => JStr s
  | VUuid u => JStr (Uuid.to_str u)
  | VDate d => JStr (Iso.date_str d)
  | VDatetime t => JStr (Iso.datetime_str t)
  | VList items => JArr (map serialize items)
  | VModel _ fields => JObj (map (fun kv => (fst kv, serialize (snd kv))) fields)
  end.

(** Attribute access on a model instance. *)
Definition getattr (v : value) (k : string) : option value :=
  match v with
  | VModel _ fields => lookup k fields
  | _ => None
  end.

(** ** Class declarations

    A class is its name and its field table.  The [description] and
    [json_schema_extra] of a field and the [model_config] of a class (which
    holds examples only) play no part in validation and are left out. *)

Definition model_fields (t : ty) : list field :=
  match t with
  | TModel _ fs => fs
  | _ => []
  end.

Definition field_names (t : ty) : list string := map field_name (model_fields t).

Definition find_field (t : ty) (k : string) : option field :=
  find (fun f => String.eqb k (field_name f)) (model_fields t).

Definition carries (t : ty) (k : string) : bool :=
  match find_field t k with Some _ => true | None => false end.

(** A declaration in a class body: a redeclared field replaces the inherited
    declaration where it stands, a new field is appended. *)
Definition declare (fs : list field) (f : field) : list field :=
  if existsb (fun g => String.eqb (field_name f) (field_name g)) fs
  then map (fun g => if String.eqb (field_name f) (field_name g) then f else g) fs
  else fs ++ [f].

(** [class cls(base): own] *)
Definition class (cls : string) (base : ty) (own : list field) : ty :=
  TModel cls (fold_left declare own (model_fields base)).

Definition BaseModel : ty := TModel "BaseModel" [].

(** Modelled from the spec: [models/address.py] is not among the sources.
    Section 4.1 gives an Address the fields [id] (UUID, server-assigned
    default), [street], [city], [state] (nullable), [postal_code] and
    [country], says that a field, if provided, must be of the declared type,
    and that no field is required.  A field that the document leaves out is
    [None], as [state] is. *)
Definition AddressBase : ty :=
  class "AddressBase" BaseModel
    [ Field "id" TUuid (DefaultFactory F_uuid4);
      Field "street" (TOptional TStr) (Default VNone);
      Field "city" (TOptional TStr) (Default VNone);
      Field "state" (TOptional TStr) (Default VNone);
      Field "postal_code" (TOptional TStr) (Default VNone);
      Field "country" (TOptional TStr) (Default VNone) ].

(** Modelled from the spec: [models/person.py] is not among the sources.
    Section 4.2 gives [PersonBase] the fields [uni] (required, non-empty
    string), [first_name], [last_name], [email] (required, checked as an
    e-mail address) and [addresses] (defaults to the empty list).  A field
    for which the spec names no default is declared without one. *)
Definition PersonBase : ty :=
  class "PersonBase" BaseModel
    [ Field "uni" (TStrMin 1) Required;
      Field "first_name" TStr Required;
      Field "last_name" TStr Required;
      Field "email" TEmail Required;
      Field "addresses" (TList AddressBase) (DefaultFactory F_list) ].

(** *** models/coursework.py *)

Definition CourseworkBase : ty :=
  class "CourseworkBase" BaseModel
    [ Field "id" TUuid (DefaultFactory F_uuid4);
      Field "title" TStr Required;
      Field "semester" TStr Required;
      Field "professor" PersonBase Required;
      Field "people" (TList PersonBase) (DefaultFactory F_list) ].

Definition CourseworkCreate : ty :=
  class "CourseworkCreate" CourseworkBase [].

Definition CourseworkUpdate : ty :=
  class "CourseworkUpdate" BaseModel
    [ Field "title" (TOptional TStr) (Default VNone);
      Field "semester" (TOptional TStr) (Default VNone);
      Field "professor" (TOptional PersonBase) (Default VNone);
      Field "people" (TOptional (TList PersonBase)) (Default VNone);
      Field "created_at" TDatetime (DefaultFactory F_utcnow) ].

Definition CourseworkRead : ty :=
  class "CourseworkRead" CourseworkBase
    [ Field "id" TUuid (DefaultFactory F_uuid4);
      Field "updated_at" TDatetime (DefaultFactory F_utcnow) ].

(** *** models/assignment.py *)

Definition AssignmentBase : ty :=
  class "AssignmentBase" BaseModel
    [ Field "id" TUuid (DefaultFactory F_uuid4);
      Field "title" TStr Required;
      Field "description" TStr Required;
      Field "due_date" TDate Required;
      Field "coursework" CourseworkBase Required;
      Field "created_at" TDatetime (DefaultFactory F_utcnow) ].

Definition AssignmentCreate : ty :=
  class "AssignmentCreate" AssignmentBase [].

Definition AssignmentUpdate : ty :=
  class "AssignmentUpdate" BaseModel
    [ Field "id" (TOptional TUuid) (DefaultFactory F_uuid4);
      Field "title" (TOptional TStr) (Default VNone);
      Field "description" (TOptional TStr) (Default VNone);
      Field "due_date" (TOptional TDate) (Default VNone);
      Field "coursework" (TOptional CourseworkBase) (Default VNone);
      Field "created_at" (TOptional TDatetime) (Default VNone) ].

Definition AssignmentRead : ty :=
  class "AssignmentRead" AssignmentBase
    [ Field "id" TUuid (DefaultFactory F_uuid4);
      Field "created_at" TDatetime (DefaultFactory F_utcnow);
      Field "updated_at" TDatetime (DefaultFactory F_utcnow) ].

(** ** Instances and the fields set

    Besides its attributes, a model instance records which of its fields
    were given to it explicitly rather than filled from a default
    ([model_fields_set]): the declared fields that the document has, an
    explicit null included.  Attribute access and the dump of all fields do
    not show this record; [model_dump(exclude_unset=True)] and whoever
    applies a patch consult it.  An instance nested in the attributes has
    its own record, got in the same way from the nested document. *)

Record instance := mkinstance {
  attributes : value;
  fields_set : list string
}.

Definition has_member (j : json) (k : string) : bool :=
  match j with
  | JObj kvs => match lookup k kvs with Some _ => true | None => false end
  | _ => false
  end.

(** The declared fields that a document gives, in declaration order. *)
Definition given (t : ty) (j : json) : list string :=
  filter (has_member j) (field_names t).

(** [cls.model_validate(j)]: the attributes, with the fields set. *)
Definition model_validate (eng : Engine) (t : ty) (j : json) (w : World)
  : res instance * World :=
  let (r, w') := validate eng t j w in
  (res_map (fun v => mkinstance v (given t j)) r, w').

(** ** Typing of constructed values and well-formed declarations *)

Section Typing.

Variable eng : Engine.

Fixpoint strip_optional (t : ty) : ty :=
  match t with
  | TOptional t' => strip_optional t'
  | _ => t
  end.

(** A default factory is declared on a field whose annotation admits what
    it makes. *)
Definition factory_fits (f : factory) (a : ty) : bool :=
  match f, strip_optional a with
  | F_uuid4, TUuid => true
  | F_utcnow, TDatetime => true
  | F_list, TList _ => true
  | _, _ => false
  end.

Fixpoint check_fields (c : ty -> value -> bool) (fs : list field)
  (kvs : list (string * value)) : bool :=
  match fs, kvs with
  | [], [] => true
  | f :: fs', (k, x) :: kvs' =>
      String.eqb (field_name f) k && c (field_annotation f) x && check_fields c fs' kvs'
  | _, _ => false
  end.

(** [check t v]: the value [v] is an instance of the annotation [t]. *)
Fixpoint check (t : ty) (v : value) {struct t} : bool :=
  match t with
  | TStr => match v with VStr _ => true | _ => false end
  | TStrMin n => match v with VStr s => (n <=? String.length s)%nat | _ => false end
  | TEmail => match v with VStr s => email_ok eng s | _ => false end
  | TUuid => match v with VUuid u => Uuid.in_range u | _ => false end
  | TDate => match v with VDate d => Iso.date_ok d | _ => false end
  | TDatetime => match v with VDatetime d => Iso.datetime_ok d | _ => false end
  | TOptional t' => match v with VNone => true | _ => check t' v end
  | TList t' => match v with VList items => forallb (check t') items | _ => false end
  | TModel cls fs =>
      match v with
      | VModel cls' kvs => String.eqb cls cls' && check_fields check fs kvs
      | _ => false
      end
  end.

Definition default_ok (a : ty) (d : dflt) : bool :=
  match d with
  | Required => true
  | Default v => check a v
  | DefaultFactory f => factory_fits f a
  end.

Fixpoint nodupb (l : list string) : bool :=
  match l with
  | [] => true
  | x :: r => negb (existsb (String.eqb x) r) && nodupb r
  end.

(** Field names of a class are distinct and every default is of its field's
    annotation, at every level of nesting. *)
Fixpoint schema_ok (t : ty) : bool :=
  match t with
  | TOptional t' => schema_ok t'
  | TList t' => schema_ok t'
  | TModel _ fs =>
      nodupb (map field_name fs)
      && forallb (fun f => schema_ok (field_annotation f)
                           && default_ok (field_annotation f) (field_default f)) fs
  | _ => true
  end.

End Typing.

(** ** Notions used by the results *)

(** What validation leaves of the world: the same sources, read further. *)
Definition later (w w' : World) : Prop :=
  entropy w' = entropy w /\ clock w' = clock w /\ (ticks w <= ticks w')%nat.

(** What the caller sees of a rejection: acceptance and the error list. *)
Definition verdict {A} (r : res A) : bool * list error := (is_ok r, errors r).

(** A validator is steady when its verdict does not depend on the world. *)
Definition steady (v : validator) : Prop :=
  forall j w1 w2, verdict (fst (v j w1)) = verdict (fst (v j w2)).

Definition serialize_member (kv : string * value) : string * json :=
  (fst kv, serialize (snd kv)).

(** The attribute names of an instance. *)
Definition attrs (v : value) : list string :=
  match v with
  | VModel _ kvs => map fst kvs
  | _ => []
  end.

Definition generated (d : dflt) : bool :=
  match d with
  | DefaultFactory F_uuid4 => true
  | DefaultFactory F_utcnow => true
  | _ => false
  end.

(** [supplied t j]: wherever a field's default would be generated from the
    entropy source or the clock, the document [j] gives the field itself. *)
Fixpoint supplied (t : ty) (j : json) {struct t} : bool :=
  match t with
  | TOptional t' => match j with JNull => true | _ => supplied t' j end
  | TList t' => match j with JArr items => forallb (supplied t') items | _ => true end
  | TModel _ fs =>
      match j with
      | JObj kvs =>
          forallb (fun f => match lookup (field_name f) kvs with
                            | Some j' => supplied (field_annotation f) j'
                            | None => negb (generated (field_default f))
                            end) fs
      | _ => true
      end
  | _ => true
  end.

(** ** Judgements about validation at an annotation *)

Section Judgements.

Variable eng : Engine.

(** Whatever is constructed at [t] is an instance of [t]. *)
Definition sound_at (t : ty) : Prop :=
  forall j w v w', clock_ok w -> validate eng t j w = (Ok v, w') -> check eng t v = true.

(** The serialised form of an instance of [t] is read back as it. *)
Definition reads_back (t : ty) : Prop :=
  forall v w, check eng t v = true -> validate eng t (serialize v) w = (Ok v, w).

(** On a document that supplies every generated field, validation at [t]
    does not depend on the world and leaves it as it was. *)
Definition pure_at (t : ty) : Prop :=
  forall j w1 w2,
    supplied t j = true ->
    fst (validate eng t j w1) = fst (validate eng t j w2) /\ snd (validate eng t j w1) = w1.

(** Verdict of one field of a model on a document. *)
Definition field_ok (kvs : list (string * json)) (w : World) (f : field) : bool :=
  is_ok (fst (validate_field (validate eng) kvs f w)).

Definition field_errors (kvs : list (string * json)) (w : World) (f : field)
  : list error :=
  errors (fst (validate_field (validate eng) kvs f w)).

End Judgements.

(** ** Notions used by the claims *)

Section ClaimNotions.

Local Open Scope string_scope.

(** Reading of the clock by [datetime.utcnow] in the world [w]. *)
Definition now (w : World) : Iso.datetime := fst (utcnow w).

(** What [uuid4] returns when called in the world [w]. *)
Definition fresh_uuid (w : World) : Z := fst (uuid4 w).

(** Member access on a serialised document. *)
Definition member (j : json) (k : string) : option json :=
  match j with
  | JObj kvs => lookup k kvs
  | _ => None
  end.

(** The variants declared in [models/coursework.py] and
    [models/assignment.py]. *)
Definition variants : list ty :=
  [ CourseworkBase; CourseworkCreate; CourseworkUpdate; CourseworkRead;
    AssignmentBase; AssignmentCreate; AssignmentUpdate; AssignmentRead ].

(** The timestamp fields section 3 ascribes to the variants of an entity:
    [Read] carries both, [Base] and [Create] only [created_at]. *)
Definition timestamp_contract (Base Create Read : ty) : Prop :=
  carries Read "created_at" = true /\ carries Read "updated_at" = true
  /\ carries Base "created_at" = true /\ carries Base "updated_at" = false
  /\ carries Create "created_at" = true /\ carries Create "updated_at" = false.

(** The optional counterpart, in a patch model, of a declared field. *)
Definition as_optional (f : field) : field :=
  Field (field_name f) (TOptional (field_annotation f)) (Default VNone).

(** Every field of [Base] appears on [Update] as an optional field. *)
Definition mirrors_as_optional (Base Update : ty) : Prop :=
  forall f, In f (model_fields Base) ->
            find_field Update (field_name f) = Some (as_optional f).

(** An e-mail value is malformed when it is not a string that passes the
    syntax check. *)
Definition malformed_email (eng : Engine) (e : json) : Prop :=
  forall s, e = JStr s -> email_ok eng s = false.

(** Two invocations on the same input yield equal results, whatever the
    entropy source and the clock give. *)
Definition invocation_independent (v : validator) : Prop :=
  forall j w1 w2, fst (v j w1) = fst (v j w2).

(** *** Sample data *)

(** A sample e-mail check: the address contains an at sign. *)
Definition has_at (s : string) : bool :=
  existsb (Ascii.eqb "@") (list_ascii_of_string s).

(** A sample engine: that check, no number read as a timestamp, and no
    string read beyond the emitted forms. *)
Definition engine0 : Engine :=
  mkEngine has_at (fun _ _ => None) (fun _ => None) (fun _ => None) (fun _ => None).

(** A UUID given as 32 hexadecimal digits without hyphens. *)
Definition uuid_compact (s : string) : option Z :=
  if (String.length s =? 32)%nat then Lex.number_of 16 (list_ascii_of_string s)
  else None.

(** A sample engine that also reads that form. *)
Definition engine1 : Engine :=
  mkEngine has_at (fun _ _ => None) uuid_compact (fun _ => None) (fun _ => None).

(** A sample world: the n-th entropy draw is n, and the clock stands at
    2025-01-15 10:20:30 UTC. *)
Definition world0 : World :=
  mkWorld (fun n => Z.of_nat n)
          (fun n => Iso.mkdatetime (Iso.mkdate 2025 1 15) 10 20 30 0 (Some 0))
          0.

(** The end-to-end example of section 8. *)
Definition example_8 : json :=
  JObj [ ("title", JStr "HW1");
         ("description", JStr "...");
         ("due_date", JStr "2025-12-31");
         ("coursework",
          JObj [ ("title", JStr "CC");
                 ("semester", JStr "Fall 2025");
                 ("professor",
                  JObj [ ("uni", JStr "df123");
                         ("first_name", JStr "Donald");
                         ("last_name", JStr "Ferguson");
                         ("email", JStr "d@f.edu") ]) ]) ].

(** The AssignmentCreate instance built from that example in [world0]. *)
Definition example_8_object : value :=
  Eval vm_compute in
    match fst (validate engine0 AssignmentCreate example_8 world0) with
    | Ok v => v
    | Err _ => VNone
    end.

(** The patch built from the empty document in [world0]. *)
Definition sample_empty_patch : value :=
  Eval vm_compute in
    match fst (validate engine0 AssignmentUpdate (JObj []) world0) with
    | Ok v => v
    | Err _ => VNone
    end.

End ClaimNotions.

(** ** Notions used by the further results *)

(** The attribute list of an instance. *)
Definition instance_fields (v : value) : list (string * value) :=
  match v with
  | VModel _ kvs => kvs
  | _ => []
  end.

(** The same attributes under another class. *)
Definition with_class (cls : string) (v : value) : value :=
  match v with
  | VModel _ kvs => VModel cls kvs
  | _ => v
  end.

(** Results of two runs of fields, joined. *)
Definition app_res {A} (r1 r2 : res (list A)) : res (list A) :=
  match r1, r2 with
  | Ok l1, Ok l2 => Ok (l1 ++ l2)
  | Ok _, Err es => Err es
  | Err es, Ok _ => Err es
  | Err es, Err es' => Err (es ++ es')
  end.

Definition is_required (d : dflt) : bool :=
  match d with Required => true | _ => false end.

Section FurtherNotions.

Local Open Scope string_scope.

(** An instance reshaped into a Read instance: its attributes, then
    [updated_at]. *)
Definition stamp (cls : string) (t : Iso.datetime) (v : value) : value :=
  VModel cls (instance_fields v ++ [("updated_at", VDatetime t)]).

Definition class_name (t : ty) : string :=
  match t with
  | TModel cls _ => cls
  | _ => EmptyString
  end.

(** The fields a class declares with [Field(...)]. *)
Definition required_names (t : ty) : list string :=
  map field_name (filter (fun f => is_required (field_default f)) (model_fields t)).

(** Base (or Create) classes with the Read class of the same entity. *)
Definition read_of : list (ty * ty) :=
  [ (AssignmentBase, AssignmentRead); (AssignmentCreate, AssignmentRead);
    (CourseworkBase, CourseworkRead); (CourseworkCreate, CourseworkRead) ].

(** *** Sample data *)

Definition members (j : json) : list (string * json) :=
  match j with
  | JObj kvs => kvs
  | _ => []
  end.

(** The example of [CourseworkCreate]'s [model_config]. *)
Definition sample_course : list (string * json) :=
  [ ("title", JStr "Cloud Computing");
    ("semester", JStr "Fall 2025");
    ("professor",
     JObj [ ("uni", JStr "df123");
            ("first_name", JStr "Donald");
            ("last_name", JStr "Ferguson");
            ("email", JStr "donald.ferguson@cs.columbia.edu") ]);
    ("people",
     JArr [ JObj [ ("uni", JStr "abc1234");
                   ("first_name", JStr "Ada");
                   ("last_name", JStr "Lovelace");
                   ("email", JStr "ada.lovelace@example.com");
                   ("addresses",
                    JArr [ JObj [ ("id", JStr "550e8400-e29b-41d4-a716-446655440000");
                                  ("street", JStr "123 Main St");
                                  ("city", JStr "London");
                                  ("state", JNull);
                                  ("postal_code", JStr "SW1A 1AA");
                                  ("country", JStr "UK") ] ]) ] ]) ].

(** What [validate] builds from a document in the sample world. *)
Definition built (t : ty) (j : json) : value :=
  match fst (validate engine0 t j world0) with
  | Ok v => v
  | Err _ => VNone
  end.

Definition sample_course_object : value :=
  Eval vm_compute in built CourseworkCreate (JObj sample_course).

Definition sample_assignment_read : value :=
  Eval vm_compute in built AssignmentRead example_8.

(** The coursework embedded in the sample assignment. *)
Definition sample_embedded_course : value :=
  Eval vm_compute in
    match getattr example_8_object "coursework" with
    | Some c => c
    | None => VNone
    end.

Definition sample_null_id_patch : value :=
  Eval vm_compute in built AssignmentUpdate (JObj [("id", JNull)]).

End FurtherNotions.

(** ** Facts about the lexical layer *)

Module LexFacts.
Import Lex.

Lemma digit_value_char (d : Z) :
  0 <= d < 16 -> digit_value (digit_char d) = Some d.
Proof.
  intros H.
  assert (E : d = 0 \/ d = 1 \/ d = 2 \/ d = 3 \/ d = 4 \/ d = 5 \/ d = 6 \/ d = 7 \/
              d = 8 \/ d = 9 \/ d = 10 \/ d = 11 \/ d = 12 \/ d = 13 \/ d = 14 \/ d = 15)
    by lia.
  repeat (destruct E as [E | E]; [subst d; reflexivity |]).
  subst d; reflexivity.
Qed.

Lemma digit_in_char (b d : Z) :
  0 <= d < b -> b <= 16 -> digit_in b (digit_char d) = Some d.
Proof.
  intros H Hb. unfold digit_in.
  rewrite digit_value_char by lia.
  destruct (Z.ltb_spec d b); [reflexivity | lia].
Qed.

Lemma is_digit_char (d : Z) : 0 <= d < 10 -> is_digit (digit_char d) = true.
Proof.
  intros H. unfold is_digit. now rewrite digit_in_char by lia.
Qed.

Lemma number_of_snoc (b : Z) (l : chars) (c : ascii) :
  number_of b (l ++ [c]) = number_step b (number_of b l) c.
Proof.
  unfold number_of. now rewrite fold_left_app.
Qed.

Lemma number_of_digits (b : Z) (n : nat) :
  2 <= b <= 16 ->
  forall z, number_of b (digits_of b n z) = Some (z mod b ^ Z.of_nat n).
Proof.
  intros Hb. induction n as [| k IH]; intros z.
  - simpl. now rewrite Z.mod_1_r.
  - cbn [digits_of]. rewrite number_of_snoc, IH.
    unfold number_step.
    rewrite digit_in_char by (try apply Z.mod_pos_bound; lia).
    f_equal.
    rewrite Nat2Z.inj_succ, Z.pow_succ_r by lia.
    rewrite Z.rem_mul_r by (try apply Z.pow_pos_nonneg; lia).
    lia.
Qed.

Lemma digits_of_length (b : Z) (n : nat) (z : Z) :
  List.length (digits_of b n z) = n.
Proof.
  revert z. induction n as [| k IH]; intros z; [reflexivity |].
  cbn [digits_of]. rewrite length_app, IH. simpl. lia.
Qed.

End LexFacts.

Module UuidFacts.
Import Lex LexFacts Uuid.

Lemma ungroup_group (h : chars) :
  List.length h = 32%nat -> ungroup (group h) = Some h.
Proof.
  intros H.
  do 32 (destruct h as [| ? h]; [discriminate H |]).
  destruct h; [reflexivity | discriminate H].
Qed.

Lemma of_str_to_str (u : Z) : in_range u = true -> of_str (to_str u) = Some u.
Proof.
  intros H. unfold of_str, to_str.
  rewrite list_ascii_of_string_of_list_ascii.
  rewrite ungroup_group by apply digits_of_length.
  rewrite number_of_digits by lia.
  f_equal. unfold in_range in H.
  apply andb_true_iff in H as [H1 H2].
  apply Z.mod_small. change (16 ^ Z.of_nat 32) with (2 ^ 128). lia.
Qed.

Lemma number_of_bound (b : Z) (l : chars) (z : Z) :
  2 <= b -> number_of b l = Some z -> 0 <= z < b ^ Z.of_nat (List.length l).
Proof.
  intros Hb. revert z. induction l as [| c l IH] using rev_ind; intros z.
  - intros [= <-]. simpl. lia.
  - rewrite number_of_snoc. unfold number_step.
    destruct (number_of b l) as [a |]; [| discriminate].
    unfold digit_in. destruct (digit_value c) as [d |] eqn:Ed; [| discriminate].
    destruct (Z.ltb_spec d b); [| discriminate].
    intros [= <-]. specialize (IH a eq_refl).
    assert (0 <= d).
    { unfold digit_value in Ed.
      repeat match type of Ed with
             | (if ?c then _ else _) = _ => destruct c eqn:?
             end; inversion Ed; lia. }
    rewrite length_app. simpl List.length.
    rewrite Nat2Z.inj_add, Z.pow_add_r by lia.
    change (Z.of_nat 1) with 1. rewrite Z.pow_1_r. nia.
Qed.

Lemma ungroup_length (l h : chars) :
  ungroup l = Some h -> List.length h = 32%nat.
Proof.
  unfold ungroup.
  destruct (List.length l =? 36)%nat eqn:E; [| discriminate].
  apply Nat.eqb_eq in E.
  do 36 (destruct l as [| ? l]; [discriminate E |]).
  destruct l; [| discriminate E].
  cbn [andb]. destruct (_ && _ && _ && _); [| discriminate].
  intros [= <-]. reflexivity.
Qed.

Lemma of_str_in_range (s : string) (u : Z) :
  of_str s = Some u -> in_range u = true.
Proof.
  unfold of_str. destruct (ungroup _) as [h |] eqn:E; [| discriminate].
  intros H. apply number_of_bound in H; [| lia].
  rewrite (ungroup_length _ _ E) in H.
  change (16 ^ Z.of_nat 32) with (2 ^ 128) in H.
  unfold in_range. apply andb_true_iff. split; [apply Z.leb_le | apply Z.ltb_lt]; lia.
Qed.

Lemma bits_bound (a n : Z) :
  0 <= n -> 0 <= a ->
  (forall k, n <= k -> Z.testbit a k = false) -> a < 2 ^ n.
Proof.
  intros Hn Ha H.
  assert (E : a mod 2 ^ n = a).
  { apply Z.bits_inj'. intros k Hk.
    destruct (Z.lt_ge_cases k n).
    - now rewrite Z.mod_pow2_bits_low.
    - rewrite Z.mod_pow2_bits_high by lia. symmetry. now apply H. }
  rewrite <- E. apply Z.mod_pos_bound. now apply Z.pow_pos_nonneg.
Qed.

Lemma bits_above (a n k : Z) :
  0 <= a < 2 ^ n -> n <= k -> Z.testbit a k = false.
Proof.
  intros Ha Hk.
  destruct (Z.eq_dec a 0) as [-> | Hz]; [apply Z.bits_0 |].
  apply Z.bits_above_log2; [lia |].
  assert (Z.log2 a < n) by (apply Z.log2_lt_pow2; lia). lia.
Qed.

Ltac prune_eqb :=
  repeat match goal with
         | |- context [?a =? ?b] => destruct (Z.eqb_spec a b); try lia
         end.

(** Bits of a constant below [2 ^ 16], by enumeration. *)
Ltac const_bits :=
  let i := fresh "i" in
  let E := fresh "E" in
  intros i;
  destruct (Z.lt_ge_cases i 0);
  [ rewrite Z.testbit_neg_r by lia; prune_eqb; reflexivity |];
  destruct (Z.lt_ge_cases i 16);
  [ assert (E : i = 0 \/ i = 1 \/ i = 2 \/ i = 3 \/ i = 4 \/ i = 5 \/ i = 6 \/
                i = 7 \/ i = 8 \/ i = 9 \/ i = 10 \/ i = 11 \/ i = 12 \/
                i = 13 \/ i = 14 \/ i = 15) by lia;
    repeat (destruct E as [E | E]; [subst i; reflexivity |]);
    subst i; reflexivity
  | rewrite (bits_above _ 16) by lia; prune_eqb; reflexivity ].

Lemma bits_0xc000 : forall i, Z.testbit 0xc000 i = (i =? 14) || (i =? 15).
Proof. const_bits. Qed.

Lemma bits_0x8000 : forall i, Z.testbit 0x8000 i = (i =? 15).
Proof. const_bits. Qed.

Lemma bits_0xf000 :
  forall i, Z.testbit 0xf000 i = (i =? 12) || (i =? 13) || (i =? 14) || (i =? 15).
Proof. const_bits. Qed.

Lemma bits_4 : forall i, Z.testbit 4 i = (i =? 2).
Proof. const_bits. Qed.

Lemma bits_0xf : forall i, Z.testbit 0xf i = (0 <=? i) && (i <? 4).
Proof.
  intros i. destruct (Z.lt_ge_cases i 0).
  - rewrite Z.testbit_neg_r by lia. destruct (Z.leb_spec 0 i); [lia | reflexivity].
  - destruct (Z.lt_ge_cases i 4).
    + assert (E : i = 0 \/ i = 1 \/ i = 2 \/ i = 3) by lia.
      repeat (destruct E as [E | E]; [subst i; reflexivity |]). subst i; reflexivity.
    + rewrite (bits_above _ 4) by lia.
      destruct (Z.ltb_spec i 4); [lia | now rewrite andb_false_r].
Qed.

Lemma bits_0x3 : forall i, Z.testbit 0x3 i = (0 <=? i) && (i <? 2).
Proof.
  intros i. destruct (Z.lt_ge_cases i 0).
  - rewrite Z.testbit_neg_r by lia. destruct (Z.leb_spec 0 i); [lia | reflexivity].
  - destruct (Z.lt_ge_cases i 2).
    + assert (E : i = 0 \/ i = 1) by lia.
      destruct E; subst i; reflexivity.
    + rewrite (bits_above _ 2) by lia.
      destruct (Z.ltb_spec i 2); [lia | now rewrite andb_false_r].
Qed.

(** Bit by bit, [uuid4_of_int] keeps the random bits except the six it
    forces: variant bits 63-62 to [10], version bits 79-76 to [0100]. *)
Lemma uuid4_of_int_testbit (x k : Z) :
  0 <= k ->
  Z.testbit (uuid4_of_int x) k =
    if (k =? 62) || (k =? 76) || (k =? 77) || (k =? 79) then false
    else if (k =? 63) || (k =? 78) then true
    else Z.testbit x k.
Proof.
  intros Hk. unfold uuid4_of_int.
  rewrite Z.lor_spec, Z.land_spec, Z.lor_spec, Z.land_spec.
  rewrite !Z.lnot_spec, !Z.shiftl_spec by lia.
  rewrite bits_0xc000, bits_0x8000, bits_0xf000, bits_4.
  prune_eqb; cbn; destruct (Z.testbit x k); reflexivity.
Qed.

Lemma uuid4_of_int_in_range (x : Z) :
  in_range x = true -> in_range (uuid4_of_int x) = true.
Proof.
  unfold in_range. intros H. apply andb_true_iff in H as [H1 H2].
  apply Z.leb_le in H1. apply Z.ltb_lt in H2.
  assert (N : 0 <= uuid4_of_int x).
  { unfold uuid4_of_int. apply Z.lor_nonneg. split; [| cbn; lia].
    apply Z.land_nonneg. left. apply Z.lor_nonneg. split; [| cbn; lia].
    apply Z.land_nonneg. now left. }
  apply andb_true_iff. split; [now apply Z.leb_le |].
  apply Z.ltb_lt. apply bits_bound; [lia | exact N |].
  intros k Hk. rewrite uuid4_of_int_testbit by lia.
  prune_eqb. cbn. apply (bits_above x 128); lia.
Qed.

Lemma uuid4_of_int_version (x : Z) : version (uuid4_of_int x) = 4.
Proof.
  unfold version. apply Z.bits_inj'. intros i Hi.
  rewrite Z.land_spec, Z.shiftr_spec, uuid4_of_int_testbit, bits_0xf, bits_4 by lia.
  destruct (Z.leb_spec 0 i); [| lia].
  destruct (Z.ltb_spec i 4); prune_eqb; cbn; try reflexivity; apply andb_false_r.
Qed.

Lemma uuid4_of_int_variant (x : Z) : variant_bits (uuid4_of_int x) = 2.
Proof.
  unfold variant_bits. apply Z.bits_inj'. intros i Hi.
  rewrite Z.land_spec, Z.shiftr_spec, uuid4_of_int_testbit, bits_0x3 by lia.
  destruct (Z.leb_spec 0 i); [| lia].
  destruct (Z.ltb_spec i 2).
  - assert (E : i = 0 \/ i = 1) by lia. destruct E; subst i; reflexivity.
  - rewrite (bits_above 2 2) by lia. prune_eqb; cbn; try reflexivity.
    all: symmetry; apply andb_false_r.
Qed.

End UuidFacts.

Module IsoFacts.
Import Lex LexFacts Iso.

(** *** Reading back what was written *)

Lemma firstn_exact {A} (n : nat) (l r : list A) :
  List.length l = n -> firstn n (l ++ r) = l.
Proof.
  intros <-. induction l as [| a l IH]; simpl; [now destruct r | now rewrite IH].
Qed.

Lemma skipn_exact {A} (n : nat) (l r : list A) :
  List.length l = n -> skipn n (l ++ r) = r.
Proof. intros <-. induction l as [| a l IH]; simpl; auto. Qed.

Lemma read_digits_written (n : nat) (z : Z) (r : chars) :
  0 <= z < 10 ^ Z.of_nat n ->
  read_digits n (digits_of 10 n z ++ r) = Some (z, r).
Proof.
  intros H. unfold read_digits.
  pose proof (digits_of_length 10 n z) as L.
  rewrite length_app, L.
  destruct (Nat.leb_spec n (n + List.length r)); [| lia].
  rewrite firstn_exact, skipn_exact by exact L.
  rewrite number_of_digits by lia.
  now rewrite Z.mod_small.
Qed.

Lemma lit_written (c : ascii) (r : chars) : lit c (c :: r) = Some (tt, r).
Proof. unfold lit, expect. now rewrite Ascii.eqb_refl. Qed.

Lemma date_ok_bounds (d : date) :
  date_ok d = true ->
  1 <= year d <= 9999 /\ 1 <= month d <= 12 /\ 1 <= day d <= 31.
Proof.
  unfold date_ok. rewrite !andb_true_iff, !Z.leb_le.
  intros [[[[[? ?] ?] ?] ?] D]. repeat split; try lia.
  unfold days_in_month in D.
  destruct (month d =? 2); [destruct (is_leap (year d)); lia |].
  destruct (_ || _); lia.
Qed.

Lemma read_date_written (d : date) (r : chars) :
  date_ok d = true -> read_date (date_chars d ++ r) = Some (d, r).
Proof.
  intros H. pose proof (date_ok_bounds d H) as (Hy & Hm & Hd).
  unfold read_date, date_chars, two, pbind.
  rewrite <- !app_assoc. rewrite read_digits_written by (cbn; lia).
  rewrite <- !app_comm_cons, lit_written.
  rewrite <- !app_assoc. rewrite read_digits_written by (cbn; lia).
  rewrite <- !app_comm_cons, lit_written.
  rewrite read_digits_written by (cbn; lia).
  destruct d as [y m dd]; simpl in *. unfold pguard. now rewrite H.
Qed.

Lemma date_of_str_written (d : date) :
  date_ok d = true -> date_of_str (date_str d) = Some d.
Proof.
  intros H. unfold date_of_str, whole, date_str.
  rewrite list_ascii_of_string_of_list_ascii.
  rewrite <- (app_nil_r (date_chars d)).
  now rewrite read_date_written.
Qed.

Lemma digits_are_digits (n : nat) (z : Z) :
  Forall (fun c => is_digit c = true) (digits_of 10 n z).
Proof.
  revert z. induction n as [| k IH]; intros z; cbn [digits_of]; [constructor |].
  apply Forall_app. split; [apply IH |].
  constructor; [| constructor].
  apply is_digit_char. apply Z.mod_pos_bound. lia.
Qed.

Lemma digit_run_written (ds r : chars) :
  Forall (fun c => is_digit c = true) ds ->
  match r with [] => True | c :: _ => is_digit c = false end ->
  digit_run (ds ++ r) = (ds, r).
Proof.
  intros F Hr. induction F as [| c ds Hc F IH]; cbn [app digit_run].
  - destruct r as [| c r]; [reflexivity |]. cbn [digit_run]. now rewrite Hr.
  - now rewrite Hc, IH.
Qed.

Lemma tz_chars_head (tz : option Z) :
  match tz_chars tz with
  | [] => True
  | c :: _ => is_digit c = false /\ Ascii.eqb c "."%char = false
  end.
Proof.
  destruct tz as [off |]; simpl; [| exact I].
  destruct (off =? 0); [split; reflexivity |].
  destruct (off <? 0); split; reflexivity.
Qed.

Lemma read_frac_written (us : Z) (tz : option Z) :
  0 <= us < 1000000 ->
  read_frac (frac_chars us ++ tz_chars tz) = Some (us, tz_chars tz).
Proof.
  intros H. unfold frac_chars. pose proof (tz_chars_head tz) as T.
  destruct (Z.eqb_spec us 0) as [-> | Hz].
  - simpl. unfold read_frac. destruct (tz_chars tz) as [| c r]; [reflexivity |].
    destruct T as [_ ->]. reflexivity.
  - rewrite <- app_comm_cons. unfold read_frac.
    rewrite Ascii.eqb_refl.
    rewrite digit_run_written.
    + rewrite digits_of_length. cbn [Nat.leb andb Nat.sub].
      rewrite number_of_digits by lia.
      rewrite Z.mod_small by (cbn; lia).
      f_equal. f_equal. cbn. lia.
    + apply digits_are_digits.
    + destruct (tz_chars tz); [exact I | apply T].
Qed.

Lemma read_tz_written (tz : option Z) :
  tz_ok tz = true -> read_tz (tz_chars tz) = Some (tz, []).
Proof.
  destruct tz as [off |]; [| reflexivity].
  unfold tz_ok. rewrite andb_true_iff, !Z.ltb_lt. intros [Hl Hu].
  unfold tz_chars.
  destruct (Z.eqb_spec off 0) as [-> | Hz]; [reflexivity |].
  assert (Ha : 0 <= Z.abs off < 1440) by lia.
  pose proof (Z.div_mod (Z.abs off) 60 ltac:(lia)) as Hdm.
  pose proof (Z.mod_pos_bound (Z.abs off) 60 ltac:(lia)) as Hmod.
  assert (Hq : 0 <= Z.abs off / 60 < 24).
  { split; [apply Z.div_pos; lia | apply Z.div_lt_upper_bound; lia]. }
  destruct (Z.ltb_spec off 0) as [Hneg | Hpos]; unfold read_tz, two, pbind;
    cbn [Ascii.eqb Bool.eqb orb andb is_sign];
    rewrite read_digits_written by (cbn; lia);
    rewrite lit_written;
    rewrite <- (app_nil_r (digits_of 10 2 (Z.abs off mod 60)));
    rewrite read_digits_written by (cbn; lia);
    unfold pguard, pret;
    (destruct (Z.ltb_spec (Z.abs off / 60) 24); [| lia]);
    (destruct (Z.ltb_spec (Z.abs off mod 60) 60); [| lia]);
    cbn [andb]; f_equal; f_equal; f_equal; lia.
Qed.

Lemma datetime_of_str_written (t : datetime) :
  datetime_ok t = true -> datetime_of_str (datetime_str t) = Some t.
Proof.
  unfold datetime_ok. rewrite !andb_true_iff. intros [[Hd Ht] Hz].
  unfold datetime_of_str, whole, datetime_str.
  rewrite list_ascii_of_string_of_list_ascii.
  unfold read_datetime, datetime_chars, two, pbind.
  rewrite read_date_written by exact Hd.
  cbn [expect is_sep Ascii.eqb Bool.eqb orb].
  pose proof Ht as Ht'. unfold time_ok in Ht'.
  rewrite !andb_true_iff, !Z.leb_le, !Z.ltb_lt in Ht'.
  rewrite <- ?app_assoc. rewrite read_digits_written by (cbn; lia).
  rewrite <- ?app_comm_cons, lit_written.
  rewrite <- ?app_assoc. rewrite read_digits_written by (cbn; lia).
  rewrite <- ?app_comm_cons, lit_written.
  rewrite read_digits_written by (cbn; lia).
  rewrite read_frac_written by lia.
  rewrite read_tz_written by exact Hz.
  unfold pguard, pret. rewrite Ht. now destruct t.
Qed.

Ltac parser_step :=
  match goal with
  | |- match pguard ?b ?l with _ => _ end = _ -> _ =>
      unfold pguard at 1; destruct b eqn:?; [| discriminate]
  | |- match ?p ?l with _ => _ end = _ -> _ =>
      destruct (p l) as [[? ?] |] eqn:?; [| discriminate]
  end.

Lemma read_date_ok (l r : chars) (d : date) :
  read_date l = Some (d, r) -> date_ok d = true.
Proof.
  unfold read_date, pbind, pret.
  repeat parser_step.
  now intros [= <- _].
Qed.

Lemma read_tz_ok (l r : chars) (tz : option Z) :
  read_tz l = Some (tz, r) -> tz_ok tz = true.
Proof.
  unfold read_tz. destruct l as [| c l]; [now intros [= <- _] |].
  destruct (_ || _); [now intros [= <- _] |].
  destruct (is_sign c); [| discriminate].
  unfold pbind, pret.
  destruct (read_digits 2 l) as [[h r1] |] eqn:Eh; [| discriminate].
  destruct (lit ":" r1) as [[? r2] |]; [| discriminate].
  destruct (read_digits 2 r2) as [[m r3] |] eqn:Em; [| discriminate].
  unfold pguard. destruct (_ && _) eqn:G; [| discriminate].
  apply andb_true_iff in G as [G1 G2]. apply Z.ltb_lt in G1, G2.
  assert (B : forall l' r' z, read_digits 2 l' = Some (z, r') -> 0 <= z).
  { unfold read_digits. intros l' r' z.
    destruct (_ <=? _)%nat; [| discriminate].
    destruct (number_of 10 _) as [z' |] eqn:N; [| discriminate].
    intros [= <- _]. apply UuidFacts.number_of_bound in N; lia. }
  apply B in Eh, Em.
  intros [= <- _]. unfold tz_ok.
  destruct (Ascii.eqb c "-");
    apply andb_true_iff; split; apply Z.ltb_lt; lia.
Qed.

Lemma datetime_of_str_ok (s : string) (t : datetime) :
  datetime_of_str s = Some t -> datetime_ok t = true.
Proof.
  unfold datetime_of_str, whole.
  destruct (read_datetime _) as [[t' [| ? ?]] |] eqn:E; try discriminate.
  intros [= <-]. revert E.
  unfold read_datetime, pbind, pret.
  destruct (read_date _) as [[d r0] |] eqn:Ed; [| discriminate].
  apply read_date_ok in Ed.
  destruct (expect is_sep r0) as [[? r1] |]; [| discriminate].
  destruct (read_digits 2 r1) as [[h r2] |]; [| discriminate].
  destruct (lit ":" r2) as [[? r3] |]; [| discriminate].
  destruct (read_digits 2 r3) as [[m r4] |]; [| discriminate].
  destruct (lit ":" r4) as [[? r5] |]; [| discriminate].
  destruct (read_digits 2 r5) as [[sec r6] |]; [| discriminate].
  destruct (read_frac r6) as [[us r7] |]; [| discriminate].
  destruct (read_tz r7) as [[tz r8] |] eqn:Ez; [| discriminate].
  apply read_tz_ok in Ez.
  unfold pguard. destruct (time_ok h m sec us) eqn:Et; [| discriminate].
  intros [= <-]. unfold datetime_ok. cbn. now rewrite Ed, Et, Ez.
Qed.

Lemma date_of_str_ok (s : string) (d : date) :
  date_of_str s = Some d -> date_ok d = true.
Proof.
  unfold date_of_str, whole.
  destruct (read_date _) as [[d' [| ? ?]] |] eqn:E; try discriminate.
  intros [= <-]. eapply read_date_ok, E.
Qed.

End IsoFacts.

(** Induction on annotations, through the field tables of nested models. *)
Lemma ty_induction (P : ty -> Prop) :
  P TStr -> (forall n, P (TStrMin n)) -> P TEmail -> P TUuid -> P TDate -> P TDatetime ->
  (forall t, P t -> P (TOptional t)) ->
  (forall t, P t -> P (TList t)) ->
  (forall cls fs, Forall (fun f => P (field_annotation f)) fs -> P (TModel cls fs)) ->
  forall t, P t.
Proof.
  intros HS HM HE HU HD HT HO HL HR.
  fix IH 1. intros [| n | | | | | t | t | cls fs].
  - exact HS.
  - apply HM.
  - exact HE.
  - exact HU.
  - exact HD.
  - exact HT.
  - apply HO, IH.
  - apply HL, IH.
  - apply HR. induction fs as [| [n a d] fs IHfs]; constructor.
    + apply IH.
    + exact IHfs.
Qed.

(** ** How results combine *)

Lemma is_ok_cons_res {A} (r : res A) (rs : res (list A)) :
  is_ok (cons_res r rs) = is_ok r && is_ok rs.
Proof. now destruct r, rs. Qed.

Lemma errors_cons_res {A} (r : res A) (rs : res (list A)) :
  errors (cons_res r rs) = errors r ++ errors rs.
Proof. destruct r, rs; simpl; now rewrite ?app_nil_r. Qed.

Lemma is_ok_at_loc {A} (i : loc_item) (r : res A) : is_ok (at_loc i r) = is_ok r.
Proof. now destruct r. Qed.

Lemma errors_at_loc {A} (i : loc_item) (r : res A) :
  errors (at_loc i r) = map (under i) (errors r).
Proof. now destruct r. Qed.

Lemma is_ok_res_map {A B} (f : A -> B) (r : res A) : is_ok (res_map f r) = is_ok r.
Proof. now destruct r. Qed.

Lemma errors_res_map {A B} (f : A -> B) (r : res A) :
  errors (res_map f r) = errors r.
Proof. now destruct r. Qed.

Create Rewrite HintDb res.
#[export] Hint Rewrite @is_ok_cons_res @errors_cons_res @is_ok_at_loc @errors_at_loc
  @is_ok_res_map @errors_res_map : res.

(** ** Scalars read from strings and numbers *)

Section Scalars.

Variable eng : Engine.

Lemma checked_some {A} (ok : A -> bool) (x : option A) (a : A) :
  checked ok x = Some a -> ok a = true.
Proof.
  destruct x as [b |]; cbn [checked]; [| discriminate].
  destruct (ok b) eqn:E; [| discriminate]. now intros [= <-].
Qed.

Lemma str_as_uuid_in_range (s : string) (u : Z) :
  str_as_uuid eng s = Some u -> Uuid.in_range u = true.
Proof.
  unfold str_as_uuid. destruct (Uuid.of_str s) as [u' |] eqn:E; cbn [or_else].
  - intros [= <-]. eapply UuidFacts.of_str_in_range, E.
  - apply checked_some.
Qed.

Lemma str_as_date_ok (s : string) (d : Iso.date) :
  str_as_date eng s = Some d -> Iso.date_ok d = true.
Proof.
  unfold str_as_date. destruct (Iso.date_of_str s) as [d' |] eqn:E; cbn [or_else].
  - intros [= <-]. eapply IsoFacts.date_of_str_ok, E.
  - apply checked_some.
Qed.

Lemma str_as_datetime_ok (s : string) (t : Iso.datetime) :
  str_as_datetime eng s = Some t -> Iso.datetime_ok t = true.
Proof.
  unfold str_as_datetime. destruct (Iso.datetime_of_str s) as [t' |] eqn:E; cbn [or_else].
  - intros [= <-]. eapply IsoFacts.datetime_of_str_ok, E.
  - apply checked_some.
Qed.

Lemma num_as_datetime_ok (m e : Z) (t : Iso.datetime) :
  num_as_datetime eng m e = Some t -> Iso.datetime_ok t = true.
Proof. apply checked_some. Qed.

(** The emitted forms are read back, whatever else the engine reads. *)
Lemma str_as_uuid_written (u : Z) :
  Uuid.in_range u = true -> str_as_uuid eng (Uuid.to_str u) = Some u.
Proof. intros H. unfold str_as_uuid. now rewrite UuidFacts.of_str_to_str. Qed.

Lemma str_as_date_written (d : Iso.date) :
  Iso.date_ok d = true -> str_as_date eng (Iso.date_str d) = Some d.
Proof. intros H. unfold str_as_date. now rewrite IsoFacts.date_of_str_written. Qed.

Lemma str_as_datetime_written (t : Iso.datetime) :
  Iso.datetime_ok t = true -> str_as_datetime eng (Iso.datetime_str t) = Some t.
Proof.
  intros H. unfold str_as_datetime. now rewrite IsoFacts.datetime_of_str_written.
Qed.

Lemma date_of_datetime_ok (t : Iso.datetime) :
  Iso.datetime_ok t = true -> Iso.date_ok (Iso.dt_date t) = true.
Proof.
  unfold Iso.datetime_ok. rewrite !andb_true_iff. now intros [[H _] _].
Qed.

Lemma at_midnight_ok (d : Iso.date) :
  Iso.date_ok d = true -> Iso.datetime_ok (at_midnight d) = true.
Proof.
  intros H. unfold Iso.datetime_ok, at_midnight. cbn [Iso.dt_date]. rewrite H.
  reflexivity.
Qed.

(** A scalar is accepted as a value of its type, or refused with one error
    made on the spot, which is not [missing]. *)
Definition scalar_verdict (ok : value -> bool) (r : res value) : Prop :=
  (exists v, r = Ok v /\ ok v = true)
  \/ (exists t, t <> missing /\ r = fail t).

Lemma validate_uuid_verdict (j : json) :
  scalar_verdict (check eng TUuid) (validate_uuid eng j).
Proof.
  unfold scalar_verdict.
  destruct j as [| b | m e | s | items | kvs]; cbn [validate_uuid];
    try (right; exists uuid_type; split; [discriminate | reflexivity]).
  destruct (str_as_uuid eng s) as [u |] eqn:E.
  - left. exists (VUuid u). split; [reflexivity |]. cbn [check].
    eapply str_as_uuid_in_range, E.
  - right. exists uuid_parsing. split; [discriminate | reflexivity].
Qed.

Lemma date_from_datetime_verdict (t : option Iso.datetime) :
  (forall x, t = Some x -> Iso.datetime_ok x = true) ->
  scalar_verdict (check eng TDate) (date_from_datetime t).
Proof.
  intros H. unfold scalar_verdict. destruct t as [x |]; cbn [date_from_datetime].
  - destruct (midnight x).
    + left. exists (VDate (Iso.dt_date x)). split; [reflexivity |]. cbn [check].
      apply date_of_datetime_ok. now apply H.
    + right. exists date_from_datetime_inexact. split; [discriminate | reflexivity].
  - right. exists date_from_datetime_parsing. split; [discriminate | reflexivity].
Qed.

Lemma validate_date_verdict (j : json) :
  scalar_verdict (check eng TDate) (validate_date eng j).
Proof.
  destruct j as [| b | m e | s | items | kvs]; cbn [validate_date];
    try (right; exists date_type; split; [discriminate | reflexivity]).
  - apply date_from_datetime_verdict. intros x. apply num_as_datetime_ok.
  - destruct (str_as_date eng s) as [d |] eqn:E.
    + left. exists (VDate d). split; [reflexivity |]. cbn [check].
      eapply str_as_date_ok, E.
    + apply date_from_datetime_verdict. intros x. apply str_as_datetime_ok.
Qed.

Lemma validate_datetime_verdict (j : json) :
  scalar_verdict (check eng TDatetime) (validate_datetime eng j).
Proof.
  unfold scalar_verdict.
  destruct j as [| b | m e | s | items | kvs]; cbn [validate_datetime];
    try (right; exists datetime_type; split; [discriminate | reflexivity]).
  - destruct (num_as_datetime eng m e) as [t |] eqn:E.
    + left. exists (VDatetime t). split; [reflexivity |]. cbn [check].
      eapply num_as_datetime_ok, E.
    + right. exists datetime_parsing. split; [discriminate | reflexivity].
  - destruct (str_as_datetime eng s) as [t |] eqn:E.
    + left. exists (VDatetime t). split; [reflexivity |]. cbn [check].
      eapply str_as_datetime_ok, E.
    + destruct (str_as_date eng s) as [d |] eqn:E'; cbn [datetime_from_date].
      * left. exists (VDatetime (at_midnight d)). split; [reflexivity |]. cbn [check].
        eapply at_midnight_ok, str_as_date_ok, E'.
      * right. exists datetime_from_date_parsing. split; [discriminate | reflexivity].
Qed.

Lemma scalar_sound (ok : value -> bool) (r : res value) (v : value) :
  scalar_verdict ok r -> r = Ok v -> ok v = true.
Proof.
  intros [(x & -> & H) | (t & _ & ->)]; [now intros [= <-] | discriminate].
Qed.

Lemma scalar_rejection (ok : value -> bool) (r : res value) :
  scalar_verdict ok r -> is_ok r = false -> errors r <> [].
Proof.
  intros [(x & -> & H) | (t & _ & ->)]; [discriminate | discriminate].
Qed.

Lemma scalar_root_error (ok : value -> bool) (r : res value) (e : error) :
  scalar_verdict ok r -> In e (errors r) -> type e <> missing.
Proof.
  intros [(x & -> & H) | (t & Ht & ->)]; cbn; [intros [] |].
  now intros [<- | []].
Qed.

End Scalars.

(** ** Properties of validation *)

Section Theory.

Variable eng : Engine.

Local Abbreviation V := (validate eng).

Lemma later_refl (w : World) : later w w.
Proof. repeat split; auto. Qed.

Lemma later_trans (w1 w2 w3 : World) : later w1 w2 -> later w2 w3 -> later w1 w3.
Proof.
  intros (E1 & C1 & T1) (E2 & C2 & T2).
  repeat split; [congruence | congruence | lia].
Qed.

Lemma later_advance (w : World) : later w (advance w).
Proof. repeat split; simpl; auto. Qed.

Lemma call_factory_later (f : factory) (w : World) :
  later w (snd (call_factory f w)).
Proof. destruct f; simpl; auto using later_advance, later_refl. Qed.

Lemma validate_items_later (v : validator) :
  (forall j w, later w (snd (v j w))) ->
  forall items i w, later w (snd (validate_items v i items w)).
Proof.
  intros Hv. induction items as [| j items IH]; intros i w; simpl.
  - apply later_refl.
  - specialize (Hv j w). destruct (v j w) as [r w1]. simpl in Hv.
    specialize (IH (S i) w1). destruct (validate_items v (S i) items w1) as [rs w2].
    simpl in *. eapply later_trans; eauto.
Qed.

Lemma validate_later (t : ty) : forall j w, later w (snd (V t j w)).
Proof.
  induction t as [| n | | | | | t IH | t IH | cls fs IH] using ty_induction;
    intros j w; try (simpl; apply later_refl).
  - destruct j; simpl; try apply later_refl; apply IH.
  - destruct j as [| b | mant ex | s | items | kvs]; simpl; try apply later_refl.
    pose proof (validate_items_later (V t) IH items 0%nat w) as H.
    destruct (validate_items (V t) 0 items w); exact H.
  - destruct j as [| b | mant ex | s | items | kvs]; simpl; try apply later_refl.
    assert (H : later w (snd (validate_fields V kvs fs w))).
    { revert w. induction IH as [| [n a d] fs Ha _ IHfs]; intros w; cbn [validate_fields].
      - apply later_refl.
      - assert (H1 : later w (snd (validate_field V kvs (Field n a d) w))).
        { simpl. destruct (lookup n kvs) as [j |].
          - simpl in Ha. specialize (Ha j w). destruct (V a j w); exact Ha.
          - destruct d as [| v | f]; simpl; try apply later_refl.
            pose proof (call_factory_later f w) as Hf. destruct (call_factory f w); exact Hf. }
        destruct (validate_field V kvs (Field n a d) w) as [r w1].
        specialize (IHfs w1). destruct (validate_fields V kvs fs w1) as [rs w2].
        simpl in *. eapply later_trans; eauto. }
    destruct (validate_fields V kvs fs w); exact H.
Qed.


Lemma verdict_eq {A B} (r : res A) (r' : res B) :
  verdict r = verdict r' <-> is_ok r = is_ok r' /\ errors r = errors r'.
Proof.
  unfold verdict. split; [now intros [= -> ->] | now intros [-> ->]].
Qed.

Lemma validate_items_steady (v : validator) :
  steady v ->
  forall items i w1 w2,
    verdict (fst (validate_items v i items w1))
    = verdict (fst (validate_items v i items w2)).
Proof.
  intros Hv. induction items as [| j items IH]; intros i w1 w2; cbn [validate_items].
  - reflexivity.
  - specialize (Hv j w1 w2).
    destruct (v j w1) as [r1 u1], (v j w2) as [r2 u2]. simpl in Hv.
    specialize (IH (S i) u1 u2).
    destruct (validate_items v (S i) items u1) as [rs1 x1],
             (validate_items v (S i) items u2) as [rs2 x2].
    apply verdict_eq in Hv as [Ho He], IH as [Io Ie].
    apply verdict_eq. cbn [fst] in *. autorewrite with res.
    split; congruence.
Qed.

Lemma get_default_steady (n : string) (d : dflt) (w1 w2 : World) :
  verdict (fst (get_default n d w1)) = verdict (fst (get_default n d w2)).
Proof.
  destruct d as [| v | f]; try reflexivity.
  unfold get_default. now destruct (call_factory f w1), (call_factory f w2).
Qed.

Lemma validate_field_steady (v : ty -> validator) (kvs : list (string * json))
  (f : field) :
  steady (v (field_annotation f)) ->
  forall w1 w2, verdict (fst (validate_field v kvs f w1))
                = verdict (fst (validate_field v kvs f w2)).
Proof.
  destruct f as [n a d]. cbn [field_annotation validate_field]. intros Hv w1 w2.
  destruct (lookup n kvs) as [j |]; [| apply get_default_steady].
  specialize (Hv j w1 w2).
  destruct (v a j w1) as [r1 u1], (v a j w2) as [r2 u2].
  apply verdict_eq in Hv as [Ho He]. apply verdict_eq. cbn [fst] in *.
  autorewrite with res. split; congruence.
Qed.

Lemma validate_fields_steady (v : ty -> validator) (kvs : list (string * json))
  (fs : list field) :
  Forall (fun f => steady (v (field_annotation f))) fs ->
  forall w1 w2, verdict (fst (validate_fields v kvs fs w1))
                = verdict (fst (validate_fields v kvs fs w2)).
Proof.
  induction 1 as [| f fs Hf _ IH]; intros w1 w2; cbn [validate_fields].
  - reflexivity.
  - pose proof (validate_field_steady v kvs f Hf w1 w2) as H1.
    destruct (validate_field v kvs f w1) as [r1 u1],
             (validate_field v kvs f w2) as [r2 u2].
    specialize (IH u1 u2).
    destruct (validate_fields v kvs fs u1) as [rs1 x1],
             (validate_fields v kvs fs u2) as [rs2 x2].
    apply verdict_eq in H1 as [Ho He], IH as [Io Ie].
    apply verdict_eq. cbn [fst] in *. autorewrite with res.
    split; congruence.
Qed.

(** Whether a document is accepted, and with which errors it is rejected,
    does not depend on the entropy source or the clock. *)
Lemma validate_steady (t : ty) : steady (V t).
Proof.
  induction t as [| n | | | | | t IH | t IH | cls fs IH] using ty_induction;
    intros j w1 w2; try reflexivity.
  - destruct j; try reflexivity; apply IH.
  - destruct j as [| b | mant ex | s | items | kvs]; try reflexivity.
    cbn [validate].
    pose proof (validate_items_steady (V t) IH items 0%nat w1 w2) as H.
    destruct (validate_items (V t) 0 items w1), (validate_items (V t) 0 items w2).
    apply verdict_eq in H as [Ho He]. apply verdict_eq. cbn [fst] in *.
    autorewrite with res. split; congruence.
  - destruct j as [| b | mant ex | s | items | kvs]; try reflexivity.
    cbn [validate].
    pose proof (validate_fields_steady V kvs fs IH w1 w2) as H.
    destruct (validate_fields V kvs fs w1), (validate_fields V kvs fs w2).
    apply verdict_eq in H as [Ho He]. apply verdict_eq. cbn [fst] in *.
    autorewrite with res. split; congruence.
Qed.


(** *** Constructed values are instances of their annotation *)

Lemma check_strip_optional (a : ty) (v : value) :
  check eng (strip_optional a) v = true -> check eng a v = true.
Proof.
  induction a; cbn [strip_optional]; auto.
  intros H. cbn [check]. destruct v; auto.
Qed.

Lemma call_factory_check (f : factory) (a : ty) (w : World) :
  clock_ok w -> factory_fits f a = true ->
  check eng a (fst (call_factory f w)) = true.
Proof.
  intros Hc Hf. apply check_strip_optional. unfold factory_fits in Hf.
  destruct f, (strip_optional a); try discriminate;
    cbn [call_factory uuid4 os_urandom16 utcnow fst check forallb].
  - apply UuidFacts.uuid4_of_int_in_range. unfold Uuid.in_range.
    pose proof (Z.mod_pos_bound (entropy w (ticks w)) (2 ^ 128) ltac:(lia)).
    apply andb_true_iff. split; [apply Z.leb_le | apply Z.ltb_lt]; lia.
  - specialize (Hc (ticks w)). unfold Iso.datetime_ok in *.
    cbn [Iso.dt_date Iso.hour Iso.minute Iso.second Iso.microsecond Iso.tzinfo
         Iso.tz_ok].
    apply andb_true_iff in Hc as [Hc _]. now rewrite Hc.
  - reflexivity.
Qed.

Lemma later_clock_ok (w w' : World) : later w w' -> clock_ok w -> clock_ok w'.
Proof. intros (_ & C & _) H n. rewrite C. apply H. Qed.

Lemma cons_res_ok {A} (r : res A) (rs : res (list A)) (l : list A) :
  cons_res r rs = Ok l -> exists a l', r = Ok a /\ rs = Ok l' /\ l = a :: l'.
Proof. destruct r, rs; try discriminate. intros [= <-]. eauto. Qed.

Lemma res_map_ok {A B} (f : A -> B) (r : res A) (b : B) :
  res_map f r = Ok b -> exists a, r = Ok a /\ b = f a.
Proof. destruct r; try discriminate. intros [= <-]. eauto. Qed.

Lemma at_loc_ok {A} (i : loc_item) (r : res A) (a : A) :
  at_loc i r = Ok a -> r = Ok a.
Proof. now destruct r. Qed.

Lemma validate_items_sound (t : ty) :
  sound_at eng t ->
  forall items i w l w',
    clock_ok w -> validate_items (V t) i items w = (Ok l, w') ->
    forallb (check eng t) l = true.
Proof.
  intros Ht. induction items as [| j items IH]; intros i w l w' Hc; cbn [validate_items].
  - now intros [= <- _].
  - pose proof (validate_later t j w) as L.
    destruct (V t j w) as [r w1] eqn:E1.
    destruct (validate_items (V t) (S i) items w1) as [rs w2] eqn:E2.
    intros [= H _]. apply cons_res_ok in H as (a & l' & Ha & -> & ->).
    apply at_loc_ok in Ha. subst r.
    cbn [forallb]. rewrite (Ht _ _ _ _ Hc E1). cbn [andb].
    eapply IH; [| exact E2]. eapply later_clock_ok; eauto.
Qed.

Lemma validate_field_sound (kvs : list (string * json)) (f : field) :
  sound_at eng (field_annotation f) ->
  default_ok eng (field_annotation f) (field_default f) = true ->
  forall w k x w',
    clock_ok w -> validate_field V kvs f w = (Ok (k, x), w') ->
    k = field_name f /\ check eng (field_annotation f) x = true.
Proof.
  destruct f as [n a d]. cbn [field_annotation field_default field_name validate_field].
  intros Ha Hd w k x w' Hc.
  destruct (lookup n kvs) as [j |].
  - destruct (V a j w) as [r w1] eqn:E. intros [= H _].
    apply at_loc_ok, res_map_ok in H as (y & -> & [= -> ->]).
    split; [reflexivity | eapply Ha; eauto].
  - destruct d as [| v | fa]; cbn [get_default default_ok] in *.
    + discriminate.
    + now intros [= <- <- _].
    + pose proof (call_factory_check fa a w Hc Hd) as H.
      destruct (call_factory fa w). now intros [= <- <- _].
Qed.

Lemma validate_field_later (kvs : list (string * json)) (f : field) (w : World) :
  later w (snd (validate_field V kvs f w)).
Proof.
  destruct f as [n a d]. cbn [validate_field].
  destruct (lookup n kvs) as [j |].
  - pose proof (validate_later a j w) as L. now destruct (V a j w).
  - destruct d as [| v | f]; cbn [get_default]; try apply later_refl.
    pose proof (call_factory_later f w) as L. now destruct (call_factory f w).
Qed.

Lemma validate_fields_sound (kvs : list (string * json)) (fs : list field) :
  Forall (fun f => sound_at eng (field_annotation f)) fs ->
  forallb (fun f => schema_ok eng (field_annotation f)
                    && default_ok eng (field_annotation f) (field_default f)) fs
    = true ->
  forall w l w',
    clock_ok w -> validate_fields V kvs fs w = (Ok l, w') ->
    check_fields (check eng) fs l = true.
Proof.
  induction 1 as [| f fs Hf _ IH]; cbn [forallb validate_fields]; intros Hs w l w' Hc.
  - now intros [= <- _].
  - apply andb_true_iff in Hs as [Hs1 Hs2]. apply andb_true_iff in Hs1 as [_ Hd].
    pose proof (validate_field_later kvs f w) as L.
    destruct (validate_field V kvs f w) as [r w1] eqn:E1.
    destruct (validate_fields V kvs fs w1) as [rs w2] eqn:E2.
    intros [= H _]. apply cons_res_ok in H as ([k x] & l' & -> & -> & ->).
    destruct (validate_field_sound kvs f Hf Hd _ _ _ _ Hc E1) as [-> Hx].
    cbn [check_fields]. rewrite String.eqb_refl, Hx. cbn [andb].
    eapply (IH Hs2 w1); [| exact E2]. eapply later_clock_ok; eauto.
Qed.

(** Whatever validation constructs is an instance of the annotation. *)
Lemma validate_sound (t : ty) :
  schema_ok eng t = true -> sound_at eng t.
Proof.
  induction t as [| n | | | | | t IH | t IH | cls fs IH] using ty_induction;
    intros Hs j w v w' Hc; cbn [validate].
  - destruct j; try discriminate. now intros [= <- _].
  - destruct j; try discriminate. cbn [validate_str].
    destruct (_ <=? _)%nat eqn:E; try discriminate. now intros [= <- _].
  - destruct j; try discriminate. cbn [validate_str].
    destruct (email_ok eng s) eqn:E; try discriminate. now intros [= <- _].
  - intros [= H _]. exact (scalar_sound _ _ _ (validate_uuid_verdict eng j) H).
  - intros [= H _]. exact (scalar_sound _ _ _ (validate_date_verdict eng j) H).
  - intros [= H _]. exact (scalar_sound _ _ _ (validate_datetime_verdict eng j) H).
  - cbn [schema_ok] in Hs. specialize (IH Hs).
    destruct j; [now intros [= <- _] | | | | |]; intros H;
      apply IH in H; auto; cbn [check]; now destruct v.
  - cbn [schema_ok] in Hs. specialize (IH Hs).
    destruct j as [| b | mant ex | s | items | kvs]; try discriminate.
    destruct (validate_items (V t) 0 items w) as [r w1] eqn:E.
    intros [= H _]. apply res_map_ok in H as (l & -> & ->).
    cbn [check]. eapply validate_items_sound; eauto.
  - cbn [schema_ok] in Hs. apply andb_true_iff in Hs as [_ Hs].
    destruct j as [| b | mant ex | s | items | kvs]; try discriminate.
    destruct (validate_fields V kvs fs w) as [r w1] eqn:E.
    intros [= H _]. apply res_map_ok in H as (l & -> & ->).
    cbn [check]. rewrite String.eqb_refl. cbn [andb].
    eapply validate_fields_sound; eauto.
    rewrite Forall_forall in *. intros f Hf. apply IH; auto.
    rewrite forallb_forall in Hs. specialize (Hs f Hf).
    now apply andb_true_iff in Hs as [Hs _].
Qed.


(** *** Reading back a serialised value *)

Lemma nodupb_NoDup (l : list string) : nodupb l = true -> NoDup l.
Proof.
  induction l as [| x l IH]; cbn [nodupb]; intros H; constructor.
  - apply andb_true_iff in H as [H _]. apply negb_true_iff in H.
    intros Hin. rewrite <- not_true_iff_false in H. apply H.
    apply existsb_exists. exists x. split; [exact Hin | apply String.eqb_refl].
  - apply andb_true_iff in H as [_ H]. auto.
Qed.

Lemma lookup_In {A} (k : string) (x : A) (kvs : list (string * A)) :
  NoDup (map fst kvs) -> In (k, x) kvs -> lookup k kvs = Some x.
Proof.
  induction kvs as [| [k' x'] kvs IH]; cbn [map fst lookup]; intros N Hin.
  - destruct Hin.
  - inversion N as [| ? ? Hn N']; subst.
    destruct Hin as [[= -> ->] | Hin].
    + now rewrite String.eqb_refl.
    + destruct (String.eqb_spec k k') as [-> | _]; [| auto].
      exfalso. apply Hn. apply (in_map fst) in Hin. exact Hin.
Qed.

Lemma check_fields_names (c : ty -> value -> bool) (fs : list field)
  (kvs : list (string * value)) :
  check_fields c fs kvs = true -> map fst kvs = map field_name fs.
Proof.
  revert kvs. induction fs as [| f fs IH]; intros [| [k x] kvs];
    cbn [check_fields map fst]; try discriminate; [reflexivity |].
  rewrite !andb_true_iff. intros [[Hk _] H].
  apply String.eqb_eq in Hk. subst k. f_equal. auto.
Qed.

Lemma lookup_serialized (k : string) (kvs : list (string * value)) :
  lookup k (map serialize_member kvs) = option_map serialize (lookup k kvs).
Proof.
  induction kvs as [| [k' x] kvs IH]; cbn [map lookup serialize_member fst snd];
    [reflexivity |].
  destruct (String.eqb k k'); [reflexivity | exact IH].
Qed.

Lemma validate_items_reads_back (t : ty) :
  reads_back eng t ->
  forall items i w,
    forallb (check eng t) items = true ->
    validate_items (V t) i (map serialize items) w = (Ok items, w).
Proof.
  intros Ht. induction items as [| v items IH]; intros i w; cbn [forallb map validate_items].
  - reflexivity.
  - intros H. apply andb_true_iff in H as [H1 H2].
    rewrite (Ht v w H1), (IH (S i) w H2). reflexivity.
Qed.

Lemma validate_fields_reads_back (doc : list (string * value)) (fs : list field) :
  Forall (fun f => reads_back eng (field_annotation f)) fs ->
  forall kvs w,
    check_fields (check eng) fs kvs = true ->
    (forall k x, In (k, x) kvs -> lookup k doc = Some x) ->
    validate_fields V (map serialize_member doc) fs w = (Ok kvs, w).
Proof.
  induction 1 as [| [n a d] fs Hf _ IH]; intros [| [k x] kvs] w;
    cbn [check_fields]; try discriminate; [reflexivity |].
  cbn [field_name field_annotation] in *.
  rewrite !andb_true_iff. intros [[Hk Hx] Hrest] Hdoc.
  apply String.eqb_eq in Hk. subst k.
  cbn [validate_fields validate_field].
  rewrite lookup_serialized, (Hdoc n x) by now left.
  cbn [option_map]. rewrite (Hf x w Hx). cbn [res_map at_loc].
  rewrite (IH kvs w Hrest) by (intros; apply Hdoc; now right).
  reflexivity.
Qed.

(** Validation reads the serialised form of an instance back as that
    instance, without touching the world. *)
Lemma validate_reads_back (t : ty) :
  schema_ok eng t = true -> reads_back eng t.
Proof.
  induction t as [| n | | | | | t IH | t IH | cls fs IH] using ty_induction;
    intros Hs v w; cbn [check].
  - destruct v; try discriminate. reflexivity.
  - destruct v; try discriminate. intros H. cbn. now rewrite H.
  - destruct v; try discriminate. intros H. cbn. now rewrite H.
  - destruct v; try discriminate. intros H. cbn [serialize validate validate_uuid].
    now rewrite str_as_uuid_written.
  - destruct v; try discriminate. intros H. cbn [serialize validate validate_date].
    now rewrite str_as_date_written.
  - destruct v; try discriminate. intros H. cbn [serialize validate validate_datetime].
    now rewrite str_as_datetime_written.
  - cbn [schema_ok] in Hs. specialize (IH Hs).
    destruct v; [reflexivity | | | | | |]; intros H;
      apply (IH _ w) in H; exact H.
  - cbn [schema_ok] in Hs. specialize (IH Hs).
    destruct v as [| | | | | items |]; try discriminate. intros H.
    cbn [serialize validate]. now rewrite validate_items_reads_back.
  - cbn [schema_ok] in Hs. apply andb_true_iff in Hs as [Hn Hs].
    destruct v as [| | | | | | cls' kvs]; try discriminate.
    rewrite andb_true_iff. intros [Hc H]. apply String.eqb_eq in Hc. subst cls'.
    cbn [serialize validate]. fold serialize_member.
    rewrite (validate_fields_reads_back kvs fs) with (kvs := kvs); auto.
    + rewrite Forall_forall in *. intros f Hf. apply IH; auto.
      rewrite forallb_forall in Hs. specialize (Hs f Hf).
      now apply andb_true_iff in Hs as [Hs _].
    + intros k x Hin. apply lookup_In; auto.
      rewrite (check_fields_names _ _ _ H). now apply nodupb_NoDup.
Qed.


(** *** Documents that leave nothing to generate *)

Lemma validate_items_pure (t : ty) :
  pure_at eng t ->
  forall items i w1 w2,
    forallb (supplied t) items = true ->
    fst (validate_items (V t) i items w1) = fst (validate_items (V t) i items w2)
    /\ snd (validate_items (V t) i items w1) = w1.
Proof.
  intros Ht. induction items as [| j items IH]; intros i w1 w2;
    cbn [forallb validate_items]; [now split |].
  intros H. apply andb_true_iff in H as [H1 H2].
  destruct (Ht j w1 w2 H1) as [E1 E2], (Ht j w2 w2 H1) as [_ E2'].
  destruct (V t j w1) as [r1 u1], (V t j w2) as [r2 u2]. cbn [fst snd] in *. subst.
  destruct (IH (S i) w1 w2 H2) as [E3 E4].
  destruct (validate_items (V t) (S i) items w1) as [rs1 x1],
           (validate_items (V t) (S i) items w2) as [rs2 x2].
  cbn [fst snd] in *. subst. now split.
Qed.

Lemma validate_fields_pure (kvs : list (string * json)) (fs : list field) :
  Forall (fun f => pure_at eng (field_annotation f)) fs ->
  forall w1 w2,
    forallb (fun f => match lookup (field_name f) kvs with
                      | Some j' => supplied (field_annotation f) j'
                      | None => negb (generated (field_default f))
                      end) fs = true ->
    fst (validate_fields V kvs fs w1) = fst (validate_fields V kvs fs w2)
    /\ snd (validate_fields V kvs fs w1) = w1.
Proof.
  induction 1 as [| [n a d] fs Hf _ IH]; intros w1 w2;
    cbn [forallb validate_fields]; [now split |].
  cbn [field_name field_annotation field_default] in *.
  intros H. apply andb_true_iff in H as [H1 H2].
  assert (F : fst (validate_field V kvs (Field n a d) w1)
              = fst (validate_field V kvs (Field n a d) w2)
              /\ forall w, snd (validate_field V kvs (Field n a d) w) = w).
  { cbn [validate_field]. destruct (lookup n kvs) as [j |].
    - split.
      + destruct (Hf j w1 w2 H1) as [E _].
        destruct (V a j w1), (V a j w2). cbn [fst] in *. now subst.
      + intros w. destruct (Hf j w w H1) as [_ E].
        now destruct (V a j w).
    - destruct d as [| v | [| |]]; try discriminate; now split. }
  destruct F as [F1 F2]. pose proof (F2 w1) as F3. specialize (F2 w2).
  destruct (validate_field V kvs (Field n a d) w1) as [r1 u1],
           (validate_field V kvs (Field n a d) w2) as [r2 u2].
  cbn [fst snd] in *. subst.
  destruct (IH w1 w2 H2) as [E3 E4].
  destruct (validate_fields V kvs fs w1) as [rs1 x1],
           (validate_fields V kvs fs w2) as [rs2 x2].
  cbn [fst snd] in *. subst. now split.
Qed.

(** On a document that supplies every generated field, validation reads
    neither the entropy source nor the clock. *)
Lemma validate_pure (t : ty) : pure_at eng t.
Proof.
  induction t as [| n | | | | | t IH | t IH | cls fs IH] using ty_induction;
    intros j w1 w2; try (now split).
  - cbn [supplied validate]. destruct j; try apply IH. now split.
  - cbn [supplied validate]. destruct j as [| b | mant ex | s | items | kvs]; try (now split).
    intros H. destruct (validate_items_pure t IH items 0%nat w1 w2 H) as [E1 E2].
    destruct (validate_items (V t) 0 items w1), (validate_items (V t) 0 items w2).
    cbn [fst snd] in *. subst. now split.
  - cbn [supplied validate]. destruct j as [| b | mant ex | s | items | kvs]; try (now split).
    intros H. destruct (validate_fields_pure kvs fs IH w1 w2 H) as [E1 E2].
    destruct (validate_fields V kvs fs w1), (validate_fields V kvs fs w2).
    cbn [fst snd] in *. subst. now split.
Qed.

(** *** Verdict of a model, field by field *)

Lemma validate_fields_verdict (kvs : list (string * json)) (fs : list field)
  (w w0 : World) :
  verdict (fst (validate_fields V kvs fs w))
  = (forallb (field_ok eng kvs w0) fs, flat_map (field_errors eng kvs w0) fs).
Proof.
  revert w. induction fs as [| f fs IH]; intros w; cbn [validate_fields forallb flat_map].
  - reflexivity.
  - pose proof (validate_field_steady V kvs f
                  (validate_steady _) w w0) as H.
    unfold field_ok, field_errors at 1.
    destruct (validate_field V kvs f w) as [r w1].
    specialize (IH w1).
    destruct (validate_fields V kvs fs w1) as [rs w2].
    apply verdict_eq in H as [Ho He]. unfold verdict in IH. injection IH as I1 I2.
    unfold verdict. cbn [fst] in *. autorewrite with res.
    rewrite Ho, He, I1, I2. reflexivity.
Qed.

Lemma validate_model_ok (cls : string) (fs : list field)
  (kvs : list (string * json)) (w w0 : World) :
  is_ok (fst (V (TModel cls fs) (JObj kvs) w)) = forallb (field_ok eng kvs w0) fs.
Proof.
  pose proof (validate_fields_verdict kvs fs w w0) as H. cbn [validate].
  destruct (validate_fields V kvs fs w). cbn [fst] in *. autorewrite with res.
  unfold verdict in H. congruence.
Qed.

Lemma validate_model_errors (cls : string) (fs : list field)
  (kvs : list (string * json)) (w w0 : World) :
  errors (fst (V (TModel cls fs) (JObj kvs) w)) = flat_map (field_errors eng kvs w0) fs.
Proof.
  pose proof (validate_fields_verdict kvs fs w w0) as H. cbn [validate].
  destruct (validate_fields V kvs fs w). cbn [fst] in *. autorewrite with res.
  unfold verdict in H. congruence.
Qed.

Lemma errors_not_ok {A} (r : res A) (e : error) : In e (errors r) -> is_ok r = false.
Proof. destruct r; [intros [] | reflexivity]. Qed.

(** An omitted required field is reported as missing at its own name. *)
Lemma required_missing (cls : string) (fs : list field) (k : string) (a : ty)
  (kvs : list (string * json)) (w : World) :
  In (Field k a Required) fs -> lookup k kvs = None ->
  In (mkerror [Key k] missing) (errors (fst (V (TModel cls fs) (JObj kvs) w))).
Proof.
  intros Hin Hk.
  rewrite (validate_model_errors cls fs kvs w w).
  apply in_flat_map. exists (Field k a Required). split; [exact Hin |].
  unfold field_errors. cbn [validate_field]. rewrite Hk. now left.
Qed.

(** An error of a supplied field's value is reported below the field. *)
Lemma field_error (cls : string) (fs : list field) (k : string) (a : ty) (d : dflt)
  (kvs : list (string * json)) (j : json) (e : error) (w w0 : World) :
  In (Field k a d) fs -> lookup k kvs = Some j ->
  In e (errors (fst (V a j w0))) ->
  In (under (Key k) e) (errors (fst (V (TModel cls fs) (JObj kvs) w))).
Proof.
  intros Hin Hk He.
  rewrite (validate_model_errors cls fs kvs w w0).
  apply in_flat_map. exists (Field k a d). split; [exact Hin |].
  unfold field_errors. cbn [validate_field]. rewrite Hk.
  destruct (V a j w0) as [r w1]. cbn [fst] in *. autorewrite with res.
  now apply in_map.
Qed.

Lemma optional_error (a : ty) (j : json) (e : error) (w : World) :
  j <> JNull -> In e (errors (fst (V a j w))) ->
  In e (errors (fst (V (TOptional a) j w))).
Proof. intros Hj. cbn [validate]. now destruct j. Qed.

(** *** A model reads its document only at its field names *)

Lemma validate_fields_ext (v : ty -> validator) (kvs1 kvs2 : list (string * json))
  (fs : list field) :
  (forall f w, In f fs -> validate_field v kvs1 f w = validate_field v kvs2 f w) ->
  forall w, validate_fields v kvs1 fs w = validate_fields v kvs2 fs w.
Proof.
  induction fs as [| f fs IH]; intros H w; cbn [validate_fields]; [reflexivity |].
  rewrite (H f w) by now left.
  destruct (validate_field v kvs2 f w) as [r w1].
  rewrite IH by (intros; apply H; now right). reflexivity.
Qed.

Lemma validate_field_lookup (v : ty -> validator) (kvs1 kvs2 : list (string * json))
  (f : field) (w : World) :
  lookup (field_name f) kvs1 = lookup (field_name f) kvs2 ->
  validate_field v kvs1 f w = validate_field v kvs2 f w.
Proof. destruct f as [n a d]. cbn [field_name validate_field]. now intros ->. Qed.

(** Null for an optional field that defaults to [None] is the same as
    leaving the field out. *)
Lemma validate_field_null (v : ty -> validator) (kvs1 kvs2 : list (string * json))
  (n : string) (a : ty) (w : World) :
  (forall w', v (TOptional a) JNull w' = (Ok VNone, w')) ->
  lookup n kvs1 = Some JNull -> lookup n kvs2 = None ->
  validate_field v kvs1 (Field n (TOptional a) (Default VNone)) w
  = validate_field v kvs2 (Field n (TOptional a) (Default VNone)) w.
Proof.
  intros Hv H1 H2. cbn [validate_field]. now rewrite H1, H2, Hv.
Qed.

(** *** The attributes of a constructed instance *)

Lemma validate_field_name (kvs : list (string * json)) (f : field) (w w' : World)
  (k : string) (x : value) :
  validate_field V kvs f w = (Ok (k, x), w') -> k = field_name f.
Proof.
  destruct f as [n a d]. cbn [validate_field field_name].
  destruct (lookup n kvs) as [j |].
  - destruct (V a j w) as [[y |] w1]; cbn; [| discriminate]. now intros [= <- _ _].
  - destruct d as [| y | fa]; cbn [get_default]; try discriminate.
    + now intros [= <- _ _].
    + destruct (call_factory fa w). now intros [= <- _ _].
Qed.

Lemma validate_fields_names (kvs : list (string * json)) (fs : list field) :
  forall w l w',
    validate_fields V kvs fs w = (Ok l, w') -> map fst l = map field_name fs.
Proof.
  induction fs as [| f fs IH]; intros w l w'; cbn [validate_fields].
  - now intros [= <- _].
  - destruct (validate_field V kvs f w) as [r w1] eqn:E1.
    destruct (validate_fields V kvs fs w1) as [rs w2] eqn:E2.
    intros [= H _]. apply cons_res_ok in H as ([k x] & l' & -> & -> & ->).
    cbn [map fst]. f_equal; [eapply validate_field_name; eauto | eapply IH; eauto].
Qed.

(** A constructed instance has exactly the declared fields, in order. *)
Lemma constructed_attrs (cls : string) (fs : list field) (j : json) (w w' : World)
  (v : value) :
  V (TModel cls fs) j w = (Ok v, w') -> attrs v = map field_name fs.
Proof.
  cbn [validate]. destruct j as [| b | mant ex | s | items | kvs]; try discriminate.
  destruct (validate_fields V kvs fs w) as [r w1] eqn:E.
  intros [= H _]. apply res_map_ok in H as (l & -> & ->).
  cbn [attrs]. eapply validate_fields_names, E.
Qed.

(** *** The value of each attribute *)

Lemma validate_fields_later (kvs : list (string * json)) (fs : list field) :
  forall w, later w (snd (validate_fields V kvs fs w)).
Proof.
  induction fs as [| f fs IH]; intros w; cbn [validate_fields].
  - apply later_refl.
  - pose proof (validate_field_later kvs f w) as L.
    destruct (validate_field V kvs f w) as [r w1].
    specialize (IH w1). destruct (validate_fields V kvs fs w1) as [rs w2].
    cbn [snd] in *. eapply later_trans; eauto.
Qed.

Lemma validate_fields_field (kvs : list (string * json)) (fs : list field) :
  forall w l w',
    validate_fields V kvs fs w = (Ok l, w') ->
    NoDup (map field_name fs) ->
    forall f, In f fs ->
    exists x w1 w2,
      later w w1
      /\ validate_field V kvs f w1 = (Ok (field_name f, x), w2)
      /\ lookup (field_name f) l = Some x.
Proof.
  induction fs as [| f0 fs IH]; intros w l w'; cbn [validate_fields map].
  - intros _ _ f [].
  - pose proof (validate_field_later kvs f0 w) as L.
    destruct (validate_field V kvs f0 w) as [r w1] eqn:E1.
    destruct (validate_fields V kvs fs w1) as [rs w2] eqn:E2.
    intros [= H _] N f Hin. apply cons_res_ok in H as ([k x] & l' & -> & -> & ->).
    pose proof (validate_field_name _ _ _ _ _ _ E1) as ->.
    inversion N as [| ? ? Hn N']; subst.
    destruct Hin as [-> | Hin].
    + exists x, w, w1. split; [apply later_refl |]. split; [exact E1 |].
      cbn [lookup]. now rewrite String.eqb_refl.
    + destruct (IH _ _ _ E2 N' f Hin) as (y & u1 & u2 & Lu & Eu & Hl).
      exists y, u1, u2. split; [eapply later_trans; eauto |]. split; [exact Eu |].
      cbn [lookup]. destruct (String.eqb_spec (field_name f) (field_name f0)) as [Heq | _];
        [| exact Hl].
      exfalso. apply Hn. rewrite <- Heq. now apply in_map.
Qed.

(** Every declared field of a constructed instance holds what validating
    that field gave, at the world reached when its turn came. *)
Lemma constructed_field (cls : string) (fs : list field) (kvs : list (string * json))
  (w w' : World) (v : value) (f : field) :
  V (TModel cls fs) (JObj kvs) w = (Ok v, w') ->
  nodupb (map field_name fs) = true ->
  In f fs ->
  exists x w1 w2,
    later w w1
    /\ validate_field V kvs f w1 = (Ok (field_name f, x), w2)
    /\ getattr v (field_name f) = Some x.
Proof.
  cbn [validate].
  destruct (validate_fields V kvs fs w) as [r u] eqn:E.
  intros [= H _] N Hin. apply res_map_ok in H as (l & -> & ->).
  cbn [getattr]. eapply validate_fields_field; eauto using nodupb_NoDup.
Qed.

(** An omitted field with a plain default holds that default. *)
Lemma constructed_default (cls : string) (fs : list field) (kvs : list (string * json))
  (w w' : World) (v : value) (k : string) (a : ty) (x : value) :
  V (TModel cls fs) (JObj kvs) w = (Ok v, w') ->
  nodupb (map field_name fs) = true ->
  In (Field k a (Default x)) fs ->
  lookup k kvs = None ->
  getattr v k = Some x.
Proof.
  intros H N Hin Hk.
  destruct (constructed_field _ _ _ _ _ _ _ H N Hin) as (y & w1 & w2 & _ & E & G).
  cbn [validate_field field_name] in *. rewrite Hk in E. cbn in E.
  injection E as <- _. exact G.
Qed.

(** An omitted field with a default factory holds what the factory makes
    when the field's turn comes. *)
Lemma constructed_factory (cls : string) (fs : list field) (kvs : list (string * json))
  (w w' : World) (v : value) (k : string) (a : ty) (fa : factory) :
  V (TModel cls fs) (JObj kvs) w = (Ok v, w') ->
  nodupb (map field_name fs) = true ->
  In (Field k a (DefaultFactory fa)) fs ->
  lookup k kvs = None ->
  exists w1, later w w1 /\ getattr v k = Some (fst (call_factory fa w1)).
Proof.
  intros H N Hin Hk.
  destruct (constructed_field _ _ _ _ _ _ _ H N Hin) as (y & w1 & w2 & L & E & G).
  cbn [validate_field field_name] in *. rewrite Hk in E. cbn [get_default] in E.
  exists w1. split; [exact L |].
  destruct (call_factory fa w1). injection E as <- _. exact G.
Qed.

(** A supplied field holds the validated form of what was supplied. *)
Lemma constructed_supplied (cls : string) (fs : list field) (kvs : list (string * json))
  (w w' : World) (v : value) (k : string) (a : ty) (d : dflt) (j : json) :
  V (TModel cls fs) (JObj kvs) w = (Ok v, w') ->
  nodupb (map field_name fs) = true ->
  In (Field k a d) fs ->
  lookup k kvs = Some j ->
  exists x w1 w2, V a j w1 = (Ok x, w2) /\ getattr v k = Some x.
Proof.
  intros H N Hin Hk.
  destruct (constructed_field _ _ _ _ _ _ _ H N Hin) as (y & w1 & w2 & L & E & G).
  cbn [validate_field field_name] in *. rewrite Hk in E.
  destruct (V a j w1) as [r u] eqn:Ea. injection E as E <-.
  apply at_loc_ok, res_map_ok in E as (z & -> & [= <-]).
  now exists y, w1, u.
Qed.

(** The first declared field, when omitted and made by a factory, is made
    at the world validation starts in. *)
Lemma first_factory (cls : string) (k : string) (a : ty) (fa : factory)
  (fs : list field) (kvs : list (string * json)) (w w' : World) (v : value) :
  V (TModel cls (Field k a (DefaultFactory fa) :: fs)) (JObj kvs) w = (Ok v, w') ->
  lookup k kvs = None ->
  getattr v k = Some (fst (call_factory fa w))
  /\ later (snd (call_factory fa w)) w'.
Proof.
  cbn [validate validate_fields validate_field]. intros H Hk. rewrite Hk in H.
  cbn [get_default] in H.
  destruct (call_factory fa w) as [x w1].
  pose proof (validate_fields_later kvs fs w1) as L.
  destruct (validate_fields V kvs fs w1) as [[l | es] w2]; [| discriminate].
  cbn [cons_res res_map] in H. injection H as <- <-.
  cbn [getattr lookup fst snd]. rewrite String.eqb_refl. now split.
Qed.

(** *** Null and omission *)

Lemma field_by_name (fs : list field) (f g : field) :
  NoDup (map field_name fs) -> In f fs -> In g fs ->
  field_name f = field_name g -> f = g.
Proof.
  induction fs as [| h fs IH]; cbn [map In]; [intros _ [] |].
  intros N Hf Hg E. inversion N as [| ? ? Hn N']; subst.
  destruct Hf as [-> | Hf], Hg as [-> | Hg]; auto.
  - exfalso. apply Hn. rewrite E. now apply in_map.
  - exfalso. apply Hn. rewrite <- E. now apply in_map.
Qed.

(** For an optional field that defaults to [None], a document giving it as
    null and a document leaving it out, alike elsewhere, construct the same
    instance. *)
Lemma null_same_as_omitted (cls : string) (fs : list field) (k : string) (a : ty)
  (kvs1 kvs2 : list (string * json)) (w : World) :
  nodupb (map field_name fs) = true ->
  In (Field k (TOptional a) (Default VNone)) fs ->
  lookup k kvs1 = Some JNull -> lookup k kvs2 = None ->
  (forall k', k' <> k -> lookup k' kvs1 = lookup k' kvs2) ->
  V (TModel cls fs) (JObj kvs1) w = V (TModel cls fs) (JObj kvs2) w.
Proof.
  intros N Hin H1 H2 Hrest. cbn [validate].
  rewrite (validate_fields_ext V kvs1 kvs2); [reflexivity |].
  intros f w0 Hf.
  destruct (String.eqb_spec (field_name f) k) as [E | E].
  - assert (f = Field k (TOptional a) (Default VNone)) as ->.
    { apply (field_by_name fs); auto using nodupb_NoDup. }
    now apply validate_field_null.
  - apply validate_field_lookup. now apply Hrest.
Qed.

(** *** Where the errors of a model sit *)

Lemma field_errors_loc (kvs : list (string * json)) (w : World) (f : field) (e : error) :
  In e (field_errors eng kvs w f) -> exists p, loc e = Key (field_name f) :: p.
Proof.
  destruct f as [n a d]. unfold field_errors. cbn [validate_field field_name].
  destruct (lookup n kvs) as [j |].
  - destruct (V a j w) as [r w1]. cbn [fst]. autorewrite with res.
    intros H. apply in_map_iff in H as (e' & <- & _). now exists (loc e').
  - destruct d as [| x | fa]; cbn [get_default].
    + intros [<- | []]. now exists [].
    + intros [].
    + destruct (call_factory fa w). intros [].
Qed.

Lemma ok_no_errors {A} (r : res A) : is_ok r = true -> errors r = [].
Proof. now destruct r. Qed.

(** A field that validates leaves no error at or below its name. *)
Lemma no_error_at (cls : string) (fs : list field) (kvs : list (string * json))
  (f : field) (w w0 : World) (e : error) (p : list loc_item) :
  nodupb (map field_name fs) = true ->
  In f fs ->
  field_ok eng kvs w0 f = true ->
  In e (errors (fst (V (TModel cls fs) (JObj kvs) w))) ->
  loc e <> Key (field_name f) :: p.
Proof.
  intros N Hf Hok He Hloc.
  rewrite (validate_model_errors cls fs kvs w w0) in He.
  apply in_flat_map in He as (g & Hg & He).
  destruct (field_errors_loc _ _ _ _ He) as [q Hq].
  assert (g = f) as ->.
  { apply (field_by_name fs); auto using nodupb_NoDup. congruence. }
  unfold field_errors, field_ok in *. rewrite (ok_no_errors _ Hok) in He.
  destruct He.
Qed.

(** *** Acceptance with and without a generated field *)

Lemma accepted_constructs {A} (p : res A * World) :
  is_ok (fst p) = true -> exists a w', p = (Ok a, w').
Proof. destruct p as [[a | es] w']; [eauto | discriminate]. Qed.

(** A document accepted with some value for a field that has a default
    factory is also accepted with that field left out. *)
Lemma accepted_without (cls : string) (fs : list field) (k : string) (a : ty)
  (fa : factory) (kvs : list (string * json)) (j0 : json) (w w0 : World) :
  nodupb (map field_name fs) = true ->
  In (Field k a (DefaultFactory fa)) fs ->
  lookup k kvs = None ->
  is_ok (fst (V (TModel cls fs) (JObj ((k, j0) :: kvs)) w0)) = true ->
  is_ok (fst (V (TModel cls fs) (JObj kvs) w)) = true.
Proof.
  intros N Hin Hk.
  rewrite (validate_model_ok cls fs _ w0 w0),
          (validate_model_ok cls fs _ w w0).
  rewrite !forallb_forall. intros H f Hf. specialize (H f Hf).
  destruct (String.eqb_spec (field_name f) k) as [E | E].
  - assert (f = Field k a (DefaultFactory fa)) as ->.
    { apply (field_by_name fs); auto using nodupb_NoDup. }
    unfold field_ok. cbn [validate_field]. rewrite Hk. cbn [get_default].
    now destruct (call_factory fa w0).
  - unfold field_ok in *.
    rewrite (validate_field_lookup V kvs ((k, j0) :: kvs)); [exact H |].
    cbn [lookup]. apply String.eqb_neq in E. now rewrite E.
Qed.

(** A document accepted without a field is accepted with any value that
    the annotation of the field accepts. *)
Lemma accepted_with (cls : string) (fs : list field) (k : string) (a : ty) (d : dflt)
  (kvs kvs0 : list (string * json)) (j : json) (w w0 : World) :
  nodupb (map field_name fs) = true ->
  In (Field k a d) fs ->
  lookup k kvs = Some j ->
  is_ok (fst (V a j w0)) = true ->
  (forall k', k' <> k -> lookup k' kvs0 = lookup k' kvs) ->
  is_ok (fst (V (TModel cls fs) (JObj kvs0) w0)) = true ->
  is_ok (fst (V (TModel cls fs) (JObj kvs) w)) = true.
Proof.
  intros N Hin Hk Hj Hext.
  rewrite (validate_model_ok cls fs _ w0 w0),
          (validate_model_ok cls fs _ w w0).
  rewrite !forallb_forall. intros H f Hf. specialize (H f Hf).
  destruct (String.eqb_spec (field_name f) k) as [E | E].
  - assert (f = Field k a d) as ->.
    { apply (field_by_name fs); auto using nodupb_NoDup. }
    unfold field_ok. cbn [validate_field]. rewrite Hk.
    destruct (V a j w0) as [r w1]. cbn [fst] in *. now destruct r.
  - unfold field_ok in *.
    rewrite (validate_field_lookup V kvs kvs0); [exact H |].
    symmetry. now apply Hext.
Qed.

(** Acceptance in one world is acceptance in every world. *)
Lemma accepted_anywhere (t : ty) (j : json) (w w0 : World) :
  is_ok (fst (V t j w0)) = true -> exists v w', V t j w = (Ok v, w').
Proof.
  intros H. apply accepted_constructs.
  pose proof (validate_steady t j w w0) as S.
  apply verdict_eq in S as [S _]. congruence.
Qed.

(** *** Attributes of an instance of a class *)

Lemma check_fields_field (fs : list field) :
  forall kvs,
    check_fields (check eng) fs kvs = true ->
    NoDup (map field_name fs) ->
    forall f, In f fs ->
    exists x, lookup (field_name f) kvs = Some x
              /\ check eng (field_annotation f) x = true.
Proof.
  induction fs as [| f0 fs IH]; intros [| [k x] kvs]; cbn [check_fields map];
    try discriminate; [intros _ _ f [] |].
  rewrite !andb_true_iff. intros [[Hk Hx] Hrest] N f Hin.
  apply String.eqb_eq in Hk. subst k. inversion N as [| ? ? Hn N']; subst.
  destruct Hin as [-> | Hin].
  - exists x. cbn [lookup]. now rewrite String.eqb_refl.
  - destruct (IH kvs Hrest N' f Hin) as (y & Hy & Hc).
    exists y. split; [| exact Hc]. cbn [lookup].
    destruct (String.eqb_spec (field_name f) (field_name f0)) as [E | _]; [| exact Hy].
    exfalso. apply Hn. rewrite <- E. now apply in_map.
Qed.

(** An instance of a class has every declared field, holding an instance of
    the field's annotation. *)
Lemma check_field (cls : string) (fs : list field) (v : value) (f : field) :
  check eng (TModel cls fs) v = true ->
  nodupb (map field_name fs) = true ->
  In f fs ->
  exists x, getattr v (field_name f) = Some x
            /\ check eng (field_annotation f) x = true.
Proof.
  cbn [check]. destruct v as [| | | | | | cls' kvs]; try discriminate.
  rewrite andb_true_iff. intros [_ H] N Hin. cbn [getattr].
  eapply check_fields_field; eauto using nodupb_NoDup.
Qed.

End Theory.

(** ** The claims of the specification *)

(** Membership in an explicit list. *)
Ltac in_list := vm_compute; repeat (first [left; reflexivity | right]).

(** A class replaced by its computed field table. *)
Ltac explicit T :=
  let t := eval vm_compute in T in change T with t.

Section Claims.

Local Open Scope string_scope.

Lemma variants_ok (eng : Engine) (T : ty) :
  In T variants -> schema_ok eng T = true.
Proof.
  intros H. cbn [In variants] in H.
  repeat (destruct H as [<- | H]; [reflexivity |]). destruct H.
Qed.

Lemma fresh_uuid_well_formed (w : World) :
  Uuid.in_range (fresh_uuid w) = true
  /\ Uuid.version (fresh_uuid w) = 4
  /\ Uuid.variant_bits (fresh_uuid w) = 2.
Proof.
  unfold fresh_uuid. cbn [uuid4 os_urandom16 fst].
  split; [| split; [apply UuidFacts.uuid4_of_int_version
                   | apply UuidFacts.uuid4_of_int_variant]].
  apply UuidFacts.uuid4_of_int_in_range. unfold Uuid.in_range.
  pose proof (Z.mod_pos_bound (entropy w (ticks w)) (2 ^ 128) ltac:(lia)).
  apply andb_true_iff. split; [apply Z.leb_le | apply Z.ltb_lt]; lia.
Qed.

Lemma member_serialize (v : value) (k : string) :
  member (serialize v) k = option_map serialize (getattr v k).
Proof.
  destruct v; try reflexivity. cbn [serialize member getattr].
  apply (lookup_serialized k fields).
Qed.

Lemma validate_model_step (eng : Engine) (cls : string)
  (fs : list field) (kvs : list (string * json)) (w : World) :
  validate eng (TModel cls fs) (JObj kvs) w
  = let (r, w') := validate_fields (validate eng) kvs fs w in
    (res_map (VModel cls) r, w').
Proof. reflexivity. Qed.

Lemma check_optional (eng : Engine) (a : ty) (x : value) :
  check eng a x = true -> check eng (TOptional a) x = true.
Proof. intros H. cbn [check]. now destruct x. Qed.

Lemma validate_serialize (eng : Engine) (t : ty) (v : value) (w : World) :
  schema_ok eng t = true -> check eng t v = true ->
  validate eng t (serialize v) w = (Ok v, w).
Proof. intros S C. now apply validate_reads_back. Qed.

Lemma malformed_email_error (eng : Engine) (e : json) (w : World) :
  malformed_email eng e ->
  exists t, In (mkerror [] t) (errors (fst (validate eng TEmail e w))).
Proof.
  intros H. destruct e as [| b | mant ex | s | items | kvs]; cbn;
    try (exists string_type; now left).
  rewrite (H s eq_refl). exists value_error. now left.
Qed.

(** *** C1: timestamp fields of the variants *)

(** C1 as stated fails for Coursework: its [Read] variant has no
    [created_at]. *)
Lemma C1_counterexample :
  ~ timestamp_contract CourseworkBase CourseworkCreate CourseworkRead.
Proof. intros (H & _). discriminate H. Qed.

(** C1 (amended).  [AssignmentBase] and [AssignmentCreate] carry
    [created_at] and no [updated_at], and [AssignmentRead] carries both, each
    a datetime defaulting to the current time.  [CourseworkBase] and
    [CourseworkCreate] carry neither timestamp; [CourseworkRead] carries
    [updated_at] but no [created_at].  Every constructed instance of a
    variant has exactly the fields its class declares. *)
Theorem C1_timestamp_fields :
  timestamp_contract AssignmentBase AssignmentCreate AssignmentRead
  /\ find_field AssignmentBase "created_at"
     = Some (Field "created_at" TDatetime (DefaultFactory F_utcnow))
  /\ find_field AssignmentCreate "created_at"
     = Some (Field "created_at" TDatetime (DefaultFactory F_utcnow))
  /\ find_field AssignmentRead "created_at"
     = Some (Field "created_at" TDatetime (DefaultFactory F_utcnow))
  /\ find_field AssignmentRead "updated_at"
     = Some (Field "updated_at" TDatetime (DefaultFactory F_utcnow))
  /\ find_field CourseworkRead "updated_at"
     = Some (Field "updated_at" TDatetime (DefaultFactory F_utcnow))
  /\ carries CourseworkRead "created_at" = false
  /\ carries CourseworkBase "created_at" = false
  /\ carries CourseworkBase "updated_at" = false
  /\ carries CourseworkCreate "created_at" = false
  /\ carries CourseworkCreate "updated_at" = false
  /\ forall eng j w,
       Forall (fun T => match fst (validate eng T j w) with
                        | Ok v => attrs v = field_names T
                        | Err _ => True
                        end) variants.
Proof.
  split; [repeat split; reflexivity |].
  repeat (split; [reflexivity |]).
  intros eng j w.
  repeat (constructor;
          [ match goal with
            | |- match fst ?p with _ => _ end =>
                destruct p as [[v | es] w'] eqn:E; cbn [fst];
                [exact (constructed_attrs eng _ _ _ _ _ _ E) | exact I]
            end |]).
  constructor.
Qed.

(** *** C2: CourseworkUpdate against CourseworkBase *)

(** C2 as stated fails at [id]: CourseworkUpdate declares no such field. *)
Lemma C2_counterexample : ~ mirrors_as_optional CourseworkBase CourseworkUpdate.
Proof.
  intros H.
  specialize (H (Field "id" TUuid (DefaultFactory F_uuid4)) ltac:(in_list)).
  vm_compute in H. discriminate H.
Qed.

(** The patch that mentions the one field [f] of a Coursework, with the
    value [x] that field has in the instance [base]. *)
Ltac patch_with eng base Hb x Hx f :=
  let x' := fresh "x'" in
  let Gx := fresh "Gx" in
  let Cx := fresh "Cx" in
  destruct (check_field eng "CourseworkBase" (model_fields CourseworkBase)
              base f Hb eq_refl) as (x' & Gx & Cx); [in_list |];
  cbn [field_name field_annotation] in Gx, Cx;
  rewrite Hx in Gx; injection Gx as <-;
  apply (check_optional eng) in Cx;
  explicit CourseworkUpdate; rewrite validate_model_step;
  cbn [validate_fields validate_field lookup String.eqb Ascii.eqb Bool.eqb andb
         get_default];
  rewrite (validate_serialize eng _ x) by first [exact Cx | reflexivity];
  do 2 eexists; split; reflexivity.

(** C2 (amended).  Every field declared on [CourseworkBase] other than [id]
    (title, semester, professor, people) appears on [CourseworkUpdate] with
    the same annotation made optional and defaulting to [None].
    [CourseworkUpdate] declares no [id] (its fields are title, semester,
    professor, people and created_at), and an [id] member of a patch document
    is ignored.  For every [CourseworkBase] instance and each of those four
    fields, the patch mentioning only that field with the instance's value
    validates and carries the value; the patch mentioning no field validates,
    with every optional field [None] and [created_at] the current time. *)
Theorem C2_update_mirrors_base_but_id (eng : Engine) (w : World) :
  (forall f, In f (model_fields CourseworkBase) -> field_name f <> "id" ->
             find_field CourseworkUpdate (field_name f) = Some (as_optional f))
  /\ find_field CourseworkUpdate "id" = None
  /\ field_names CourseworkUpdate
     = ["title"; "semester"; "professor"; "people"; "created_at"]
  /\ (forall j0 kvs,
        validate eng CourseworkUpdate (JObj (("id", j0) :: kvs)) w
        = validate eng CourseworkUpdate (JObj kvs) w)
  /\ (forall base k x,
        check eng CourseworkBase base = true ->
        In k ["title"; "semester"; "professor"; "people"] ->
        getattr base k = Some x ->
        exists patch w',
          validate eng CourseworkUpdate (JObj [(k, serialize x)]) w = (Ok patch, w')
          /\ getattr patch k = Some x)
  /\ validate eng CourseworkUpdate (JObj []) w
     = (Ok (VModel "CourseworkUpdate"
              [("title", VNone); ("semester", VNone); ("professor", VNone);
               ("people", VNone); ("created_at", VDatetime (now w))]),
        advance w).
Proof.
  split; [| split; [reflexivity | split; [reflexivity | split; [| split; [| reflexivity]]]]].
  - intros f Hf Hn. vm_compute in Hf.
    repeat (destruct Hf as [<- | Hf]; [try reflexivity; now elim Hn |]).
    destruct Hf.
  - intros j0 kvs. explicit CourseworkUpdate. rewrite !validate_model_step.
    rewrite (validate_fields_ext _ (("id", j0) :: kvs) kvs); [reflexivity |].
    intros f w0 Hf. apply validate_field_lookup. cbn [In] in Hf.
    repeat (destruct Hf as [<- | Hf]; [reflexivity |]). destruct Hf.
  - intros base k x Hb Hk Hx. cbn [In] in Hk.
    destruct Hk as [<- | [<- | [<- | [<- | []]]]].
    + patch_with eng base Hb x Hx (Field "title" TStr Required).
    + patch_with eng base Hb x Hx (Field "semester" TStr Required).
    + patch_with eng base Hb x Hx (Field "professor" PersonBase Required).
    + patch_with eng base Hb x Hx
        (Field "people" (TList PersonBase) (DefaultFactory F_list)).
Qed.

(** C2 at the title of a Coursework instance. *)
Lemma C2_witness :
  find_field CourseworkUpdate "title"
  = Some (Field "title" (TOptional TStr) (Default VNone))
  /\ exists patch w',
       validate engine0 CourseworkUpdate (JObj [("title", JStr "CC")]) world0
       = (Ok patch, w')
       /\ getattr patch "title" = Some (VStr "CC").
Proof.
  destruct (C2_update_mirrors_base_but_id engine0 world0) as (M & _ & _ & _ & P & _).
  split.
  - apply (M (Field "title" TStr Required)); [in_list | discriminate].
  - apply (P (VModel "CourseworkBase"
                [ ("id", VUuid 1); ("title", VStr "CC"); ("semester", VStr "Fall 2025");
                  ("professor",
                   VModel "PersonBase"
                     [ ("uni", VStr "df123"); ("first_name", VStr "Donald");
                       ("last_name", VStr "Ferguson"); ("email", VStr "d@f.edu");
                       ("addresses", VList []) ]);
                  ("people", VList []) ])
             "title" (VStr "CC")); [reflexivity | in_list | reflexivity].
Defined.

(** *** C3: a required field left out *)

(** C3.  For every document that omits title, description or due_date,
    validation as [AssignmentBase] or [AssignmentCreate] is rejected with a
    [missing] error at that field; likewise for title or semester with
    [CourseworkBase] or [CourseworkCreate].  No instance is constructed, so
    no default stands in for the missing field. *)
Theorem C3_required_field_missing (eng : Engine) (T : ty) (k : string)
  (kvs : list (string * json)) (w : World) :
  In T [AssignmentBase; AssignmentCreate] /\ In k ["title"; "description"; "due_date"]
  \/ In T [CourseworkBase; CourseworkCreate] /\ In k ["title"; "semester"] ->
  lookup k kvs = None ->
  is_ok (fst (validate eng T (JObj kvs) w)) = false
  /\ In (mkerror [Key k] missing) (errors (fst (validate eng T (JObj kvs) w)))
  /\ forall v w', validate eng T (JObj kvs) w <> (Ok v, w').
Proof.
  intros HT Hk.
  assert (E : In (mkerror [Key k] missing)
                (errors (fst (validate eng T (JObj kvs) w)))).
  { cbn [In] in HT.
    destruct HT as [[[<- | [<- | []]] [<- | [<- | [<- | []]]]]
                   | [[<- | [<- | []]] [<- | [<- | []]]]];
      eapply required_missing; try exact Hk; cbn; tauto. }
  split; [eapply errors_not_ok, E |]. split; [exact E |].
  intros v w' H. rewrite H in E. destruct E.
Qed.

(** C3 at a document without title. *)
Lemma C3_witness :
  is_ok (fst (validate engine0 AssignmentCreate
                (JObj [("description", JStr "..."); ("due_date", JStr "2025-12-31")])
                world0)) = false
  /\ In (mkerror [Key "title"] missing)
        (errors (fst (validate engine0 AssignmentCreate
                        (JObj [("description", JStr "..."); ("due_date", JStr "2025-12-31")])
                        world0))).
Proof.
  destruct (C3_required_field_missing engine0 AssignmentCreate "title"
              [("description", JStr "..."); ("due_date", JStr "2025-12-31")] world0)
    as (A & B & _).
  - left. split; [right; left; reflexivity | left; reflexivity].
  - reflexivity.
  - split; [exact A | exact B].
Defined.

(** *** C4: the id of a Create payload *)

(** C4.  A Create document without [id] that is accepted once some id is
    supplied is accepted as it stands, and its [id] is the UUID that [uuid4]
    makes at that moment: a 128-bit value of version 4 and RFC 4122 variant,
    drawn from the entropy source, which is advanced.  A document that is
    accepted without its [id] is accepted with any [id] that reads as a
    UUID, in whatever form the engine reads one, and is constructed with
    that UUID; the hyphenated form of every UUID reads as it.  The example
    of section 8 validates as [AssignmentCreate] with a generated [id],
    [created_at] read from the clock, and [coursework.people] empty. *)
Theorem C4_create_id_default (eng : Engine) (w : World) :
  (forall T kvs j0 w0,
     In T [AssignmentCreate; CourseworkCreate] ->
     lookup "id" kvs = None ->
     is_ok (fst (validate eng T (JObj (("id", j0) :: kvs)) w0)) = true ->
     exists v w',
       validate eng T (JObj kvs) w = (Ok v, w')
       /\ getattr v "id" = Some (VUuid (fresh_uuid w))
       /\ Uuid.in_range (fresh_uuid w) = true
       /\ Uuid.version (fresh_uuid w) = 4
       /\ Uuid.variant_bits (fresh_uuid w) = 2
       /\ later (advance w) w')
  /\ (forall T kvs kvs0 s u w0,
        In T [AssignmentCreate; CourseworkCreate] ->
        lookup "id" kvs = Some (JStr s) ->
        str_as_uuid eng s = Some u ->
        lookup "id" kvs0 = None ->
        (forall k, k <> "id" -> lookup k kvs0 = lookup k kvs) ->
        is_ok (fst (validate eng T (JObj kvs0) w0)) = true ->
        exists v w',
          validate eng T (JObj kvs) w = (Ok v, w')
          /\ getattr v "id" = Some (VUuid u))
  /\ (forall u, Uuid.in_range u = true -> str_as_uuid eng (Uuid.to_str u) = Some u)
  /\ (email_ok eng "d@f.edu" = true ->
      validate eng AssignmentCreate example_8 w
      = (Ok (VModel "AssignmentCreate"
               [ ("id", VUuid (fresh_uuid w));
                 ("title", VStr "HW1");
                 ("description", VStr "...");
                 ("due_date", VDate (Iso.mkdate 2025 12 31));
                 ("coursework",
                  VModel "CourseworkBase"
                    [ ("id", VUuid (fresh_uuid (advance w)));
                      ("title", VStr "CC");
                      ("semester", VStr "Fall 2025");
                      ("professor",
                       VModel "PersonBase"
                         [ ("uni", VStr "df123");
                           ("first_name", VStr "Donald");
                           ("last_name", VStr "Ferguson");
                           ("email", VStr "d@f.edu");
                           ("addresses", VList []) ]);
                      ("people", VList []) ]);
                 ("created_at", VDatetime (now (advance (advance w)))) ]),
         advance (advance (advance w)))).
Proof.
  split; [| split; [| split]].
  - intros T kvs j0 w0 HT Hid Hok.
    destruct (fresh_uuid_well_formed w) as (R & Ver & Var).
    assert (A : is_ok (fst (validate eng T (JObj kvs) w)) = true).
    { cbn [In] in HT. destruct HT as [<- | [<- | []]].
      + eapply (accepted_without eng "AssignmentCreate"
                  (model_fields AssignmentCreate) "id" TUuid F_uuid4 kvs j0 w w0);
          try exact Hok; try exact Hid; try reflexivity; in_list.
      + eapply (accepted_without eng "CourseworkCreate"
                  (model_fields CourseworkCreate) "id" TUuid F_uuid4 kvs j0 w w0);
          try exact Hok; try exact Hid; try reflexivity; in_list. }
    apply accepted_constructs in A as (v & w' & Hv).
    exists v, w'. split; [exact Hv |].
    assert (F : getattr v "id" = Some (fst (call_factory F_uuid4 w))
                /\ later (snd (call_factory F_uuid4 w)) w').
    { cbn [In] in HT. destruct HT as [<- | [<- | []]].
      + exact (first_factory eng "AssignmentCreate" "id" TUuid F_uuid4
                 (tl (model_fields AssignmentCreate)) kvs w w' v Hv Hid).
      + exact (first_factory eng "CourseworkCreate" "id" TUuid F_uuid4
                 (tl (model_fields CourseworkCreate)) kvs w w' v Hv Hid). }
    destruct F as [G L]. repeat (split; [assumption |]). exact L.
  - intros T kvs kvs0 s u w0 HT Hid Hu _ Hext Hok0.
    assert (Hj : is_ok (fst (validate eng TUuid (JStr s) w0)) = true)
      by (cbn [validate validate_uuid fst]; now rewrite Hu).
    assert (Hok : is_ok (fst (validate eng T (JObj kvs) w)) = true).
    { cbn [In] in HT. destruct HT as [<- | [<- | []]].
      + apply (accepted_with eng "AssignmentCreate" (model_fields AssignmentCreate)
                 "id" TUuid (DefaultFactory F_uuid4) kvs kvs0 (JStr s) w w0);
          [reflexivity | in_list | exact Hid | exact Hj | exact Hext | exact Hok0].
      + apply (accepted_with eng "CourseworkCreate" (model_fields CourseworkCreate)
                 "id" TUuid (DefaultFactory F_uuid4) kvs kvs0 (JStr s) w w0);
          [reflexivity | in_list | exact Hid | exact Hj | exact Hext | exact Hok0]. }
    apply accepted_constructs in Hok as (v & w' & Hv).
    exists v, w'. split; [exact Hv |].
    assert (S : exists x w1 w2,
               validate eng TUuid (JStr s) w1 = (Ok x, w2)
               /\ getattr v "id" = Some x).
    { cbn [In] in HT. destruct HT as [<- | [<- | []]].
      + eapply (constructed_supplied eng "AssignmentCreate"
                  (model_fields AssignmentCreate) kvs w w' v "id" TUuid
                  (DefaultFactory F_uuid4));
          try exact Hv; try exact Hid; try reflexivity; in_list.
      + eapply (constructed_supplied eng "CourseworkCreate"
                  (model_fields CourseworkCreate) kvs w w' v "id" TUuid
                  (DefaultFactory F_uuid4));
          try exact Hv; try exact Hid; try reflexivity; in_list. }
    destruct S as (x & w1 & w2 & Hx & G). cbn [validate validate_uuid] in Hx.
    rewrite Hu in Hx. injection Hx as <- _. exact G.
  - apply str_as_uuid_written.
  - intros H.
    assert (D : str_as_date eng "2025-12-31" = Some (Iso.mkdate 2025 12 31))
      by reflexivity.
    cbn -[Uuid.uuid4_of_int Z.pow Z.modulo str_as_date].
    rewrite H. cbn -[Uuid.uuid4_of_int Z.pow Z.modulo str_as_date].
    rewrite D. reflexivity.
Qed.

(** C4 at a Coursework document without id, the same document with an id
    in the hyphenated form and, for an engine that reads it, in the compact
    form, and the example of section 8. *)
Lemma C4_witness :
  (exists v w',
     validate engine0 CourseworkCreate
       (JObj [ ("title", JStr "CC"); ("semester", JStr "Fall 2025");
               ("professor",
                JObj [ ("uni", JStr "df123"); ("first_name", JStr "Donald");
                       ("last_name", JStr "Ferguson"); ("email", JStr "d@f.edu") ]) ])
       world0 = (Ok v, w')
     /\ getattr v "id" = Some (VUuid (fresh_uuid world0))
     /\ Uuid.in_range (fresh_uuid world0) = true
     /\ Uuid.version (fresh_uuid world0) = 4
     /\ Uuid.variant_bits (fresh_uuid world0) = 2
     /\ later (advance world0) w')
  /\ (exists v w',
        validate engine0 CourseworkCreate
          (JObj [ ("id", JStr "550e8400-e29b-41d4-a716-446655440000");
                  ("title", JStr "CC"); ("semester", JStr "Fall 2025");
                  ("professor",
                   JObj [ ("uni", JStr "df123"); ("first_name", JStr "Donald");
                          ("last_name", JStr "Ferguson"); ("email", JStr "d@f.edu") ]) ])
          world0 = (Ok v, w')
        /\ getattr v "id" = Some (VUuid 113059749145936325402354257176981405696))
  /\ (exists v w',
        validate engine1 CourseworkCreate
          (JObj [ ("id", JStr "550e8400e29b41d4a716446655440000");
                  ("title", JStr "CC"); ("semester", JStr "Fall 2025");
                  ("professor",
                   JObj [ ("uni", JStr "df123"); ("first_name", JStr "Donald");
                          ("last_name", JStr "Ferguson"); ("email", JStr "d@f.edu") ]) ])
          world0 = (Ok v, w')
        /\ getattr v "id" = Some (VUuid 113059749145936325402354257176981405696))
  /\ fst (validate engine0 AssignmentCreate example_8 world0) = Ok example_8_object.
Proof.
  destruct (C4_create_id_default engine0 world0) as (A & B & _ & C).
  destruct (C4_create_id_default engine1 world0) as (_ & B1 & _ & _).
  split; [| split; [| split]]; [| | | rewrite C by reflexivity; reflexivity].
  - apply (A CourseworkCreate _ (JStr "550e8400-e29b-41d4-a716-446655440000") world0);
      [in_list | reflexivity | reflexivity].
  - apply (B CourseworkCreate _
             [ ("title", JStr "CC"); ("semester", JStr "Fall 2025");
               ("professor",
                JObj [ ("uni", JStr "df123"); ("first_name", JStr "Donald");
                       ("last_name", JStr "Ferguson"); ("email", JStr "d@f.edu") ]) ]
             "550e8400-e29b-41d4-a716-446655440000" _ world0);
      [in_list | reflexivity | reflexivity | reflexivity | | reflexivity].
    intros k Hk. cbn [lookup].
    destruct (String.eqb_spec k "id"); [contradiction | reflexivity].
  - apply (B1 CourseworkCreate _
             [ ("title", JStr "CC"); ("semester", JStr "Fall 2025");
               ("professor",
                JObj [ ("uni", JStr "df123"); ("first_name", JStr "Donald");
                       ("last_name", JStr "Ferguson"); ("email", JStr "d@f.edu") ]) ]
             "550e8400e29b41d4a716446655440000" _ world0);
      [in_list | reflexivity | reflexivity | reflexivity | | reflexivity].
    intros k Hk. cbn [lookup].
    destruct (String.eqb_spec k "id"); [contradiction | reflexivity].
Defined.

(** *** C5: validate, serialise, validate again *)

(** C5.  For every document accepted as [AssignmentCreate] (the clock
    showing a real time), validating the serialised form of the constructed
    instance constructs that same instance again, in any world and without
    reading the entropy source or the clock.  The instance holds the title
    and description the document gave, and the date and the UUID that its
    [due_date] and [id] were read as, in whatever form they were given.
    Whether or not the document gave them, it has an [id] that is a 128-bit
    UUID and a [created_at] that is a real datetime, generated when absent,
    and both are serialised in a form that reads back as the same value. *)
Theorem C5_create_round_trip (eng : Engine) (j : json) (w w' : World)
  (v : value) :
  clock_ok w ->
  validate eng AssignmentCreate j w = (Ok v, w') ->
  (forall w2, validate eng AssignmentCreate (serialize v) w2 = (Ok v, w2))
  /\ (forall k s, In k ["title"; "description"] ->
                  member j k = Some (JStr s) -> getattr v k = Some (VStr s))
  /\ (forall x, member j "due_date" = Some x ->
                exists d, validate_date eng x = Ok (VDate d)
                          /\ getattr v "due_date" = Some (VDate d))
  /\ (forall x, member j "id" = Some x ->
                exists u, validate_uuid eng x = Ok (VUuid u)
                          /\ getattr v "id" = Some (VUuid u))
  /\ (member j "id" = None -> getattr v "id" = Some (VUuid (fresh_uuid w)))
  /\ (member j "created_at" = None ->
        exists w1, later w w1 /\ getattr v "created_at" = Some (VDatetime (now w1)))
  /\ exists u t,
       getattr v "id" = Some (VUuid u)
       /\ Uuid.in_range u = true
       /\ member (serialize v) "id" = Some (JStr (Uuid.to_str u))
       /\ str_as_uuid eng (Uuid.to_str u) = Some u
       /\ getattr v "created_at" = Some (VDatetime t)
       /\ Iso.datetime_ok t = true
       /\ member (serialize v) "created_at" = Some (JStr (Iso.datetime_str t))
       /\ str_as_datetime eng (Iso.datetime_str t) = Some t.
Proof.
  intros Hc Hv.
  assert (S : schema_ok eng AssignmentCreate = true) by reflexivity.
  pose proof (validate_sound eng _ S _ _ _ _ Hc Hv) as T.
  split; [intros w2; now apply validate_reads_back |].
  destruct j as [| b | mant ex | s0 | items | kvs];
    [vm_compute in Hv; discriminate Hv .. |].
  cbn [member].
  assert (F : forall k a d x,
             In (Field k a d) (model_fields AssignmentCreate) ->
             lookup k kvs = Some x ->
             exists y w1 w2, validate eng a x w1 = (Ok y, w2) /\ getattr v k = Some y).
  { intros k a d x Hin Hk.
    apply (constructed_supplied eng "AssignmentCreate" (model_fields AssignmentCreate)
             kvs w w' v k a d x Hv eq_refl Hin Hk). }
  split; [| split; [| split; [| split; [| split]]]].
  - intros k s Hk Hs. cbn [In] in Hk.
    destruct Hk as [<- | [<- | []]].
    + destruct (F "title" TStr Required _ ltac:(in_list) Hs) as (y & w1 & w2 & Hy & G).
      cbn in Hy. injection Hy as <- _. exact G.
    + destruct (F "description" TStr Required _ ltac:(in_list) Hs)
        as (y & w1 & w2 & Hy & G).
      cbn in Hy. injection Hy as <- _. exact G.
  - intros x Hs.
    destruct (F "due_date" TDate Required _ ltac:(in_list) Hs) as (y & w1 & w2 & Hy & G).
    cbn [validate] in Hy. injection Hy as Hy _.
    pose proof (scalar_sound _ _ _ (validate_date_verdict eng x) Hy) as Cy.
    destruct y as [| | | d | | |]; try discriminate Cy. now exists d.
  - intros x Hs.
    destruct (F "id" TUuid (DefaultFactory F_uuid4) _ ltac:(in_list) Hs)
      as (y & w1 & w2 & Hy & G).
    cbn [validate] in Hy. injection Hy as Hy _.
    pose proof (scalar_sound _ _ _ (validate_uuid_verdict eng x) Hy) as Cy.
    destruct y as [| | u | | | |]; try discriminate Cy. now exists u.
  - intros Hn.
    apply (first_factory eng "AssignmentCreate" "id" TUuid F_uuid4
             (tl (model_fields AssignmentCreate)) kvs w w' v Hv Hn).
  - intros Hn.
    destruct (constructed_factory eng "AssignmentCreate" (model_fields AssignmentCreate)
                kvs w w' v "created_at" TDatetime F_utcnow Hv eq_refl
                ltac:(in_list) Hn) as (w1 & L & G).
    exists w1. split; [exact L | exact G].
  - destruct (check_field eng "AssignmentCreate" (model_fields AssignmentCreate) v
                (Field "id" TUuid (DefaultFactory F_uuid4)) T eq_refl)
      as (x & Gx & Cx); [in_list |].
    destruct (check_field eng "AssignmentCreate" (model_fields AssignmentCreate) v
                (Field "created_at" TDatetime (DefaultFactory F_utcnow)) T eq_refl)
      as (y & Gy & Cy); [in_list |].
    cbn [field_name field_annotation check] in *.
    destruct x as [| | u | | | |]; try discriminate.
    destruct y as [| | | | t | |]; try discriminate.
    exists u, t. rewrite !member_serialize, Gx, Gy. cbn [option_map serialize].
    repeat split; auto using str_as_uuid_written, str_as_datetime_written.
Qed.

(** C5 at the example of section 8. *)
Lemma C5_witness :
  validate engine0 AssignmentCreate (serialize example_8_object) world0
  = (Ok example_8_object, world0).
Proof.
  destruct (C5_create_round_trip engine0 example_8 world0
              (advance (advance (advance world0))) example_8_object) as [H _].
  - intros n. reflexivity.
  - reflexivity.
  - apply H.
Defined.

(** *** C6: a malformed e-mail two levels down *)

(** C6.  For every Assignment document whose
    [coursework.professor.email] is not a well-formed e-mail string,
    validation as any Assignment variant is rejected, and the error list has
    an entry located at [coursework.professor.email]. *)
Theorem C6_nested_email_error (eng : Engine) (T : ty)
  (kvs ckvs pkvs : list (string * json)) (e : json) (w : World) :
  In T [AssignmentBase; AssignmentCreate; AssignmentRead; AssignmentUpdate] ->
  lookup "coursework" kvs = Some (JObj ckvs) ->
  lookup "professor" ckvs = Some (JObj pkvs) ->
  lookup "email" pkvs = Some e ->
  malformed_email eng e ->
  is_ok (fst (validate eng T (JObj kvs) w)) = false
  /\ exists err,
       In err (errors (fst (validate eng T (JObj kvs) w)))
       /\ loc err = [Key "coursework"; Key "professor"; Key "email"]
       /\ dotted (loc err) = "coursework.professor.email".
Proof.
  intros HT Hc Hp He Hm.
  destruct (malformed_email_error eng e w Hm) as [t Ht].
  assert (P : In (mkerror [Key "email"] t)
                (errors (fst (validate eng PersonBase (JObj pkvs) w)))).
  { eapply (field_error eng _ _ "email") in Ht; [exact Ht | | exact He].
    cbn. tauto. }
  assert (C : In (mkerror [Key "professor"; Key "email"] t)
                (errors (fst (validate eng CourseworkBase (JObj ckvs) w)))).
  { eapply (field_error eng _ _ "professor") in P; [exact P | | exact Hp].
    cbn. tauto. }
  assert (A : In (mkerror [Key "coursework"; Key "professor"; Key "email"] t)
                (errors (fst (validate eng T (JObj kvs) w)))).
  { cbn [In] in HT. destruct HT as [<- | [<- | [<- | [<- | []]]]].
    1-3: eapply (field_error eng _ _ "coursework") in C;
      [exact C | cbn; tauto | exact Hc].
    apply (optional_error eng) in C; [| discriminate].
    eapply (field_error eng _ _ "coursework") in C;
      [exact C | cbn; tauto | exact Hc]. }
  split; [eapply errors_not_ok, A |].
  eexists. split; [exact A |]. split; reflexivity.
Qed.

(** C6 at a document whose professor's e-mail has no at sign. *)
Lemma C6_witness :
  is_ok (fst (validate engine0 AssignmentCreate
    (JObj [("coursework", JObj [("professor", JObj [("email", JStr "nobody")])])])
    world0)) = false
  /\ exists err,
       In err (errors (fst (validate engine0 AssignmentCreate
         (JObj [("coursework", JObj [("professor", JObj [("email", JStr "nobody")])])])
         world0)))
       /\ loc err = [Key "coursework"; Key "professor"; Key "email"]
       /\ dotted (loc err) = "coursework.professor.email".
Proof.
  apply (C6_nested_email_error engine0 AssignmentCreate _
           [("professor", JObj [("email", JStr "nobody")])]
           [("email", JStr "nobody")] (JStr "nobody")).
  - right; left; reflexivity.
  - reflexivity.
  - reflexivity.
  - reflexivity.
  - intros s [= <-]. reflexivity.
Defined.

(** *** C8: the id of an AssignmentUpdate *)

(** C8.  Every [AssignmentUpdate] constructed from a patch document without
    [id] carries as [id] the UUID that [uuid4] makes at that moment, a
    well-formed version-4 UUID and not [None], while every other field the
    document omits is [None]; the entropy source is advanced.  The empty
    patch document constructs a patch whose only non-null field is that
    generated [id]. *)
Theorem C8_update_id_generated (eng : Engine) (w : World) :
  (forall kvs v w',
     lookup "id" kvs = None ->
     validate eng AssignmentUpdate (JObj kvs) w = (Ok v, w') ->
     getattr v "id" = Some (VUuid (fresh_uuid w))
     /\ getattr v "id" <> Some VNone
     /\ Uuid.in_range (fresh_uuid w) = true
     /\ Uuid.version (fresh_uuid w) = 4
     /\ later (advance w) w'
     /\ forall k,
          In k ["title"; "description"; "due_date"; "coursework"; "created_at"] ->
          lookup k kvs = None -> getattr v k = Some VNone)
  /\ validate eng AssignmentUpdate (JObj []) w
     = (Ok (VModel "AssignmentUpdate"
              [("id", VUuid (fresh_uuid w)); ("title", VNone); ("description", VNone);
               ("due_date", VNone); ("coursework", VNone); ("created_at", VNone)]),
        advance w).
Proof.
  split; [| reflexivity].
  intros kvs v w' Hid Hv.
  destruct (first_factory eng "AssignmentUpdate" "id" (TOptional TUuid) F_uuid4
              _ kvs w w' v Hv Hid) as [G L].
  destruct (fresh_uuid_well_formed w) as (R & Ver & _).
  change (fst (call_factory F_uuid4 w)) with (VUuid (fresh_uuid w)) in G.
  split; [exact G |]. split; [rewrite G; discriminate |].
  split; [exact R |]. split; [exact Ver |]. split; [exact L |].
  intros k Hk Hnone. cbn [In] in Hk.
  destruct Hk as [<- | [<- | [<- | [<- | [<- | []]]]]];
    eapply (constructed_default eng "AssignmentUpdate"
              (model_fields AssignmentUpdate) kvs w w' v);
    try exact Hv; try exact Hnone; try reflexivity; in_list.
Qed.

(** C8 at a patch that changes the title only. *)
Lemma C8_witness :
  getattr (VModel "AssignmentUpdate"
             [("id", VUuid (fresh_uuid world0)); ("title", VStr "HW2");
              ("description", VNone); ("due_date", VNone); ("coursework", VNone);
              ("created_at", VNone)]) "id"
  = Some (VUuid (fresh_uuid world0))
  /\ getattr (VModel "AssignmentUpdate"
                [("id", VUuid (fresh_uuid world0)); ("title", VStr "HW2");
                 ("description", VNone); ("due_date", VNone); ("coursework", VNone);
                 ("created_at", VNone)]) "due_date"
     = Some VNone.
Proof.
  destruct (C8_update_id_generated engine0 world0) as [H _].
  destruct (H [("title", JStr "HW2")]
              (VModel "AssignmentUpdate"
                 [("id", VUuid (fresh_uuid world0)); ("title", VStr "HW2");
                  ("description", VNone); ("due_date", VNone); ("coursework", VNone);
                  ("created_at", VNone)])
              (advance world0) eq_refl eq_refl) as (G & _ & _ & _ & _ & N).
  split; [exact G |].
  apply N; [in_list | reflexivity].
Defined.

(** *** C9: created_at of a CourseworkUpdate *)

(** C9.  In [CourseworkUpdate], a patch document giving [created_at] as
    null is rejected with a datetime type error at [created_at].  Null for
    title, semester, professor or people raises no error at that field.
    When [created_at] is omitted no error sits at it, and a constructed patch
    carries the time [utcnow] reads when the field's turn comes; for the
    empty patch document that is the time validation starts at. *)
Theorem C9_created_at_not_nullable (eng : Engine)
  (kvs : list (string * json)) (w : World) :
  (lookup "created_at" kvs = Some JNull ->
     is_ok (fst (validate eng CourseworkUpdate (JObj kvs) w)) = false
     /\ In (mkerror [Key "created_at"] datetime_type)
           (errors (fst (validate eng CourseworkUpdate (JObj kvs) w))))
  /\ (forall k e p,
        In k ["title"; "semester"; "professor"; "people"] ->
        lookup k kvs = Some JNull ->
        In e (errors (fst (validate eng CourseworkUpdate (JObj kvs) w))) ->
        loc e <> Key k :: p)
  /\ (lookup "created_at" kvs = None ->
        (forall e p,
           In e (errors (fst (validate eng CourseworkUpdate (JObj kvs) w))) ->
           loc e <> Key "created_at" :: p)
        /\ (forall v w',
              validate eng CourseworkUpdate (JObj kvs) w = (Ok v, w') ->
              exists w1, later w w1
                         /\ getattr v "created_at" = Some (VDatetime (now w1))))
  /\ validate eng CourseworkUpdate (JObj []) w
     = (Ok (VModel "CourseworkUpdate"
              [("title", VNone); ("semester", VNone); ("professor", VNone);
               ("people", VNone); ("created_at", VDatetime (now w))]),
        advance w).
Proof.
  split; [| split; [| split]].
  - intros H.
    assert (E : In (mkerror [Key "created_at"] datetime_type)
                  (errors (fst (validate eng CourseworkUpdate (JObj kvs) w)))).
    { apply (field_error eng "CourseworkUpdate" _ "created_at" TDatetime
               (DefaultFactory F_utcnow) kvs JNull (mkerror [] datetime_type) w w);
        [in_list | exact H | now left]. }
    split; [eapply errors_not_ok, E | exact E].
  - intros k e p Hk Hnull He.
    cbn [In] in Hk. destruct Hk as [<- | [<- | [<- | [<- | []]]]].
    + eapply (no_error_at eng "CourseworkUpdate" (model_fields CourseworkUpdate) kvs
                (Field "title" (TOptional TStr) (Default VNone)) w w);
        [reflexivity | in_list | | exact He].
      unfold field_ok. cbn [validate_field]. now rewrite Hnull.
    + eapply (no_error_at eng "CourseworkUpdate" (model_fields CourseworkUpdate) kvs
                (Field "semester" (TOptional TStr) (Default VNone)) w w);
        [reflexivity | in_list | | exact He].
      unfold field_ok. cbn [validate_field]. now rewrite Hnull.
    + eapply (no_error_at eng "CourseworkUpdate" (model_fields CourseworkUpdate) kvs
                (Field "professor" (TOptional PersonBase) (Default VNone)) w w);
        [reflexivity | in_list | | exact He].
      unfold field_ok. cbn [validate_field]. now rewrite Hnull.
    + eapply (no_error_at eng "CourseworkUpdate" (model_fields CourseworkUpdate) kvs
                (Field "people" (TOptional (TList PersonBase)) (Default VNone)) w w);
        [reflexivity | in_list | | exact He].
      unfold field_ok. cbn [validate_field]. now rewrite Hnull.
  - intros H. split.
    + intros e p He.
      eapply (no_error_at eng "CourseworkUpdate" (model_fields CourseworkUpdate) kvs
                (Field "created_at" TDatetime (DefaultFactory F_utcnow)) w w);
        [reflexivity | in_list | | exact He].
      unfold field_ok. cbn [validate_field]. now rewrite H.
    + intros v w' Hv.
      destruct (constructed_factory eng "CourseworkUpdate" _ kvs w w' v
                  "created_at" TDatetime F_utcnow Hv) as (w1 & L & G);
        [reflexivity | in_list | exact H |].
      exists w1. split; [exact L |]. rewrite G. reflexivity.
  - reflexivity.
Qed.

(** C9 at a patch with a null created_at and at a patch without one. *)
Lemma C9_witness :
  (is_ok (fst (validate engine0 CourseworkUpdate (JObj [("created_at", JNull)]) world0))
     = false
   /\ In (mkerror [Key "created_at"] datetime_type)
         (errors (fst (validate engine0 CourseworkUpdate
                         (JObj [("created_at", JNull)]) world0))))
  /\ exists w1,
       later world0 w1
       /\ getattr (VModel "CourseworkUpdate"
                     [("title", VNone); ("semester", VStr "Spring 2026");
                      ("professor", VNone); ("people", VNone);
                      ("created_at", VDatetime (now world0))]) "created_at"
          = Some (VDatetime (now w1)).
Proof.
  split.
  - apply (C9_created_at_not_nullable engine0 [("created_at", JNull)] world0).
    reflexivity.
  - destruct (C9_created_at_not_nullable engine0 [("semester", JStr "Spring 2026")] world0)
      as (_ & _ & O & _).
    destruct (O eq_refl) as [_ G].
    apply (G _ (advance world0)). reflexivity.
Defined.

(** *** C10: null against omission in a patch *)

(** C10 as stated fails: the patch built from a null title and the patch
    built from the empty document have the same attributes, but the first
    records [title] as set and the second does not. *)
Lemma C10_counterexample :
  ~ (forall eng T k kvs1 kvs2 w,
       T = AssignmentUpdate
         /\ In k ["title"; "description"; "due_date"; "coursework"; "created_at"]
       \/ T = CourseworkUpdate /\ In k ["title"; "semester"; "professor"; "people"] ->
       lookup k kvs1 = Some JNull ->
       lookup k kvs2 = None ->
       (forall k', k' <> k -> lookup k' kvs1 = lookup k' kvs2) ->
       model_validate eng T (JObj kvs1) w = model_validate eng T (JObj kvs2) w).
Proof.
  intros H.
  specialize (H engine0 AssignmentUpdate "title" [("title", JNull)] [] world0).
  assert (E : model_validate engine0 AssignmentUpdate (JObj [("title", JNull)]) world0
              = model_validate engine0 AssignmentUpdate (JObj []) world0).
  { apply H.
    - left. split; [reflexivity | left; reflexivity].
    - reflexivity.
    - reflexivity.
    - intros k' Hk. cbn [lookup].
      destruct (String.eqb_spec k' "title"); [contradiction | reflexivity]. }
  vm_compute in E. discriminate E.
Qed.

(** C10 (amended).  For title, description, due_date, coursework and
    created_at of [AssignmentUpdate], and title, semester, professor and
    people of [CourseworkUpdate]: a patch document giving the field as null
    and a patch document leaving it out, alike in every other member, are
    validated to the same attributes, the field being [None] either way, and
    draw the same from the entropy source and the clock.  The two patches
    differ in their fields set: the field is in it when given as null and
    not in it when left out, every other field being in both or in neither.
    So the attributes of a patch cannot tell "clear this field" from "leave
    it unchanged", and its fields set can. *)
Theorem C10_null_against_omitted (eng : Engine) (T : ty) (k : string)
  (kvs1 kvs2 : list (string * json)) (w : World) :
  T = AssignmentUpdate
    /\ In k ["title"; "description"; "due_date"; "coursework"; "created_at"]
  \/ T = CourseworkUpdate /\ In k ["title"; "semester"; "professor"; "people"] ->
  lookup k kvs1 = Some JNull ->
  lookup k kvs2 = None ->
  (forall k', k' <> k -> lookup k' kvs1 = lookup k' kvs2) ->
  validate eng T (JObj kvs1) w = validate eng T (JObj kvs2) w
  /\ (forall v w',
        validate eng T (JObj kvs1) w = (Ok v, w') -> getattr v k = Some VNone)
  /\ (forall v w',
        validate eng T (JObj kvs2) w = (Ok v, w') -> getattr v k = Some VNone)
  /\ (forall i1 i2 w1 w2,
        model_validate eng T (JObj kvs1) w = (Ok i1, w1) ->
        model_validate eng T (JObj kvs2) w = (Ok i2, w2) ->
        attributes i1 = attributes i2
        /\ w1 = w2
        /\ In k (fields_set i1)
        /\ ~ In k (fields_set i2)
        /\ forall k', k' <> k -> (In k' (fields_set i1) <-> In k' (fields_set i2))).
Proof.
  intros HT H1 H2 Hrest.
  assert (F : exists cls fs a,
             T = TModel cls fs /\ nodupb (map field_name fs) = true
             /\ In (Field k (TOptional a) (Default VNone)) fs).
  { cbn [In] in HT.
    destruct HT as [[-> [<- | [<- | [<- | [<- | [<- | []]]]]]]
                   | [-> [<- | [<- | [<- | [<- | []]]]]]];
      do 3 eexists; (split; [reflexivity |]); (split; [reflexivity |]);
      cbn; tauto. }
  destruct F as (cls & fs & a & -> & N & Hin).
  assert (E : validate eng (TModel cls fs) (JObj kvs1) w
              = validate eng (TModel cls fs) (JObj kvs2) w)
    by (eapply null_same_as_omitted; eauto).
  split; [exact E |].
  assert (G : forall v w',
             validate eng (TModel cls fs) (JObj kvs2) w = (Ok v, w') ->
             getattr v k = Some VNone)
    by (intros v w' H; eapply constructed_default; eauto).
  split; [intros v w' H; rewrite E in H; eauto |].
  split; [exact G |].
  intros i1 i2 w1 w2. unfold model_validate. rewrite E.
  destruct (validate eng (TModel cls fs) (JObj kvs2) w) as [[v | es] w'];
    cbn [res_map]; [| discriminate].
  intros [= <- <-] [= <- <-]. cbn [attributes fields_set].
  unfold given, field_names. cbn [model_fields].
  split; [reflexivity |]. split; [reflexivity |].
  split; [| split].
  - apply filter_In. split.
    + exact (in_map field_name _ _ Hin).
    + cbn [has_member]. now rewrite H1.
  - intros Hk. apply filter_In in Hk as [_ Hk]. cbn [has_member] in Hk.
    rewrite H2 in Hk. discriminate Hk.
  - intros k' Hk'. rewrite !filter_In. cbn [has_member].
    now rewrite (Hrest k' Hk').
Qed.

(** C10 at a null title against the empty patch. *)
Lemma C10_witness :
  attributes (mkinstance sample_empty_patch ["title"])
  = attributes (mkinstance sample_empty_patch [])
  /\ advance world0 = advance world0
  /\ In "title" (fields_set (mkinstance sample_empty_patch ["title"]))
  /\ ~ In "title" (fields_set (mkinstance sample_empty_patch [])).
Proof.
  destruct (C10_null_against_omitted engine0 AssignmentUpdate "title"
              [("title", JNull)] [] world0) as (_ & _ & _ & D).
  - left. split; [reflexivity | left; reflexivity].
  - reflexivity.
  - reflexivity.
  - intros k' Hk. simpl. destruct (String.eqb_spec k' "title"); [contradiction | reflexivity].
  - destruct (D (mkinstance sample_empty_patch ["title"])
                (mkinstance sample_empty_patch []) (advance world0) (advance world0)
                eq_refl eq_refl) as (A & B & C & N & _).
    repeat split; assumption.
Defined.

End Claims.

(** * Further results

    Properties of the same classes beyond the specification: how the
    variants of an entity relate, what a document must and may contain, where
    errors are located, and what is drawn from the entropy source and the
    clock. *)

(** ** More on validation *)

(** An error made on the spot is not a missing field. *)
Ltac root_error :=
  cbn; first [ intros [<- | []]; discriminate | intros [] ].

(** *** Member lists *)

Lemma lookup_app {A} (k : string) (l1 l2 : list (string * A)) :
  lookup k (l1 ++ l2)
  = match lookup k l1 with Some x => Some x | None => lookup k l2 end.
Proof.
  induction l1 as [| [k' x] l1 IH]; cbn [app lookup]; [reflexivity |].
  now destruct (String.eqb k k').
Qed.

Lemma lookup_absent {A} (k : string) (l : list (string * A)) :
  ~ In k (map fst l) -> lookup k l = None.
Proof.
  induction l as [| [k' x] l IH]; cbn [map fst lookup In]; [reflexivity |].
  intros H. destruct (String.eqb_spec k k') as [-> | _]; [| apply IH]; tauto.
Qed.

Lemma lookup_found {A} (k : string) (x : A) (l : list (string * A)) :
  lookup k l = Some x -> In (k, x) l.
Proof.
  induction l as [| [k' y] l IH]; cbn [lookup]; [discriminate |].
  destruct (String.eqb_spec k k') as [-> | _]; [intros [= ->]; now left |].
  intros H. right. auto.
Qed.

(** A document is read the same way however its members are ordered. *)
Lemma lookup_permutation {A} (k : string) (l1 l2 : list (string * A)) :
  NoDup (map fst l1) -> Permutation l1 l2 -> lookup k l1 = lookup k l2.
Proof.
  intros N P.
  assert (N2 : NoDup (map fst l2))
    by (eapply Permutation_NoDup; [apply Permutation_map, P | exact N]).
  destruct (lookup k l1) as [x |] eqn:E1.
  - symmetry. apply lookup_In; [exact N2 |].
    eapply Permutation_in; [exact P | now apply lookup_found].
  - destruct (lookup k l2) as [y |] eqn:E2; [| reflexivity].
    apply lookup_found in E2. apply Permutation_sym in P.
    apply (Permutation_in _ P) in E2. apply (lookup_In _ _ _ N) in E2. congruence.
Qed.

Section MoreTheory.

Variable eng : Engine.

Local Abbreviation V := (validate eng).

Lemma validate_fields_app (kvs : list (string * json)) (fs1 fs2 : list field) :
  forall w,
    validate_fields V kvs (fs1 ++ fs2) w
    = (let (r1, w1) := validate_fields V kvs fs1 w in
       let (r2, w2) := validate_fields V kvs fs2 w1 in
       (app_res r1 r2, w2)).
Proof.
  induction fs1 as [| f fs1 IH]; intros w; cbn [app validate_fields].
  - destruct (validate_fields V kvs fs2 w) as [[l | es] w2]; reflexivity.
  - destruct (validate_field V kvs f w) as [r w1]. rewrite IH.
    destruct (validate_fields V kvs fs1 w1) as [r1 u1].
    destruct (validate_fields V kvs fs2 u1) as [r2 u2].
    destruct r as [a | es], r1 as [l1 | es1], r2 as [l2 | es2]; cbn;
      rewrite ?app_assoc; reflexivity.
Qed.

(** *** Lists *)

Lemma steady_errors (t : ty) (j : json) (e : error) (w w0 : World) :
  In e (errors (fst (V t j w0))) -> In e (errors (fst (V t j w))).
Proof.
  pose proof (validate_steady eng t j w w0) as S.
  apply verdict_eq in S as [_ S]. now rewrite S.
Qed.

Lemma validate_items_error (t : ty) (items : list json) :
  forall i n j e w w0,
    nth_error items n = Some j ->
    In e (errors (fst (V t j w0))) ->
    In (under (Index (i + n)) e) (errors (fst (validate_items (V t) i items w))).
Proof.
  induction items as [| j0 items IH]; intros i n j e w w0 Hn He.
  - destruct n; discriminate Hn.
  - cbn [validate_items].
    pose proof (steady_errors t j e w w0 He) as He'.
    destruct (V t j0 w) as [r w1] eqn:E1.
    specialize (IH (S i)).
    destruct n as [| n].
    + injection Hn as ->. rewrite E1 in He'. cbn [fst] in He'.
      destruct (validate_items (V t) (S i) items w1) as [rs w2].
      cbn [fst]. autorewrite with res. apply in_or_app. left.
      rewrite Nat.add_0_r. now apply in_map.
    + specialize (IH n j e w1 w0 Hn He).
      destruct (validate_items (V t) (S i) items w1) as [rs w2].
      cbn [fst] in *. autorewrite with res. apply in_or_app. right.
      now replace (i + S n)%nat with (S i + n)%nat by lia.
Qed.

Lemma validate_items_constructed (t : ty) (items : list json) :
  forall i w l w',
    validate_items (V t) i items w = (Ok l, w') ->
    Forall2 (fun j x => exists w1 w2, later w w1 /\ V t j w1 = (Ok x, w2)) items l.
Proof.
  induction items as [| j items IH]; intros i w l w'; cbn [validate_items].
  - intros [= <- _]. constructor.
  - pose proof (validate_later eng t j w) as L.
    destruct (V t j w) as [r w1] eqn:E1.
    destruct (validate_items (V t) (S i) items w1) as [rs w2] eqn:E2.
    intros [= H _]. apply cons_res_ok in H as (x & l' & Hx & -> & ->).
    apply at_loc_ok in Hx. subst r. constructor.
    + exists w, w1. split; [apply later_refl | exact E1].
    + specialize (IH _ _ _ _ E2). cbn [snd] in L.
      eapply Forall2_impl; [| exact IH].
      intros j' x' (u1 & u2 & Lu & Eu). exists u1, u2.
      split; [eapply later_trans; eauto | exact Eu].
Qed.

(** *** Rejections *)

Lemma validate_items_rejection (t : ty) :
  (forall j w, is_ok (fst (V t j w)) = false -> errors (fst (V t j w)) <> []) ->
  forall items i w,
    is_ok (fst (validate_items (V t) i items w)) = false ->
    errors (fst (validate_items (V t) i items w)) <> [].
Proof.
  intros Ht. induction items as [| j items IH]; intros i w; cbn [validate_items].
  - discriminate.
  - specialize (Ht j w). destruct (V t j w) as [r w1].
    specialize (IH (S i) w1).
    destruct (validate_items (V t) (S i) items w1) as [rs w2].
    cbn [fst] in *. autorewrite with res.
    intros H. apply andb_false_iff in H as [H | H].
    + specialize (Ht H). destruct (errors r); [congruence | discriminate].
    + specialize (IH H). intros E. apply app_eq_nil in E as [_ E]. auto.
Qed.

Lemma validate_field_rejection (kvs : list (string * json)) (f : field) (w : World) :
  (forall j w, is_ok (fst (V (field_annotation f) j w)) = false ->
               errors (fst (V (field_annotation f) j w)) <> []) ->
  is_ok (fst (validate_field V kvs f w)) = false ->
  errors (fst (validate_field V kvs f w)) <> [].
Proof.
  destruct f as [n a d]. cbn [field_annotation validate_field]. intros Ha.
  destruct (lookup n kvs) as [j |].
  - specialize (Ha j w). destruct (V a j w) as [r w1]. cbn [fst] in *.
    autorewrite with res. intros H. specialize (Ha H).
    destruct (errors r); [congruence | discriminate].
  - destruct d as [| x | fa]; cbn [get_default]; try discriminate.
    destruct (call_factory fa w). discriminate.
Qed.

(** A rejection always carries at least one error. *)
Lemma rejection_has_error (t : ty) :
  forall j w, is_ok (fst (V t j w)) = false -> errors (fst (V t j w)) <> [].
Proof.
  induction t as [| n | | | | | t IH | t IH | cls fs IH] using ty_induction;
    intros j w.
  - destruct j; cbn; discriminate.
  - destruct j; cbn; try discriminate. destruct (_ <=? _)%nat; discriminate.
  - destruct j; cbn; try discriminate. destruct (email_ok eng s); discriminate.
  - exact (scalar_rejection _ _ (validate_uuid_verdict eng j)).
  - exact (scalar_rejection _ _ (validate_date_verdict eng j)).
  - exact (scalar_rejection _ _ (validate_datetime_verdict eng j)).
  - destruct j; cbn [validate]; try apply IH. discriminate.
  - destruct j as [| b | mant ex | s | items | kvs]; cbn [validate]; try discriminate.
    pose proof (validate_items_rejection t IH items 0%nat w) as H.
    destruct (validate_items (V t) 0 items w). cbn [fst] in *.
    now autorewrite with res.
  - destruct j as [| b | mant ex | s | items | kvs]; cbn [validate]; try discriminate.
    rewrite <- validate_model_step.
    rewrite (validate_model_ok eng cls fs kvs w w),
            (validate_model_errors eng cls fs kvs w w).
    intros H E.
    assert (F : forall f, In f fs -> field_ok eng kvs w f = true).
    { intros f Hf. destruct (field_ok eng kvs w f) eqn:Ef; [reflexivity |].
      exfalso. rewrite Forall_forall in IH.
      apply (validate_field_rejection kvs f w (IH f Hf) Ef).
      destruct (field_errors eng kvs w f) as [| e l] eqn:El; [exact El |].
      assert (In e (flat_map (field_errors eng kvs w) fs))
        by (apply in_flat_map; exists f; split; [exact Hf | rewrite El; now left]).
      rewrite E in H0. destruct H0. }
    apply forallb_forall in F. congruence.
Qed.

(** An error sitting at the place validated itself is a type or format
    error, never a missing field. *)
Lemma root_error_not_missing (t : ty) :
  forall j w e, In e (errors (fst (V t j w))) -> loc e = [] -> type e <> missing.
Proof.
  induction t as [| n | | | | | t IH | t IH | cls fs IH] using ty_induction;
    intros j w e.
  - destruct j; root_error.
  - destruct j; try root_error. cbn. destruct (_ <=? _)%nat; root_error.
  - destruct j; try root_error. cbn. destruct (email_ok eng s); root_error.
  - intros He _. exact (scalar_root_error _ _ _ (validate_uuid_verdict eng j) He).
  - intros He _. exact (scalar_root_error _ _ _ (validate_date_verdict eng j) He).
  - intros He _. exact (scalar_root_error _ _ _ (validate_datetime_verdict eng j) He).
  - destruct j; cbn [validate]; try apply IH. intros [].
  - destruct j as [| b | mant ex | s | items | kvs]; cbn [validate];
      try root_error.
    intros He Hl. exfalso.
    assert (G : forall items i w, In e (errors (fst (validate_items (V t) i items w))) ->
                                  loc e <> []).
    { clear. induction items as [| j items IHi]; intros i w; cbn [validate_items].
      - intros [].
      - destruct (V t j w) as [r w1].
        specialize (IHi (S i) w1).
        destruct (validate_items (V t) (S i) items w1) as [rs w2].
        cbn [fst] in *. autorewrite with res. intros H.
        apply in_app_or in H as [H | H]; [| auto].
        apply in_map_iff in H as (e' & <- & _). discriminate. }
    destruct (validate_items (V t) 0 items w) as [r w1] eqn:E.
    cbn [fst] in He. autorewrite with res in He.
    apply (G items 0%nat w); [rewrite E; exact He | exact Hl].
  - destruct j as [| b | mant ex | s | items | kvs]; cbn [validate];
      try root_error.
    rewrite <- validate_model_step, (validate_model_errors eng cls fs kvs w w).
    intros He Hl. apply in_flat_map in He as (f & _ & He).
    apply field_errors_loc in He as [p Hp]. congruence.
Qed.

(** Where an error of a model comes from: a supplied member that does not
    validate, or a required field left out. *)
Lemma model_error_origin (cls : string) (fs : list field) (kvs : list (string * json))
  (w : World) (e : error) :
  In e (errors (fst (V (TModel cls fs) (JObj kvs) w))) ->
  exists f p,
    In f fs /\ loc e = Key (field_name f) :: p
    /\ ((exists j, lookup (field_name f) kvs = Some j
                   /\ In (mkerror p (type e)) (errors (fst (V (field_annotation f) j w))))
        \/ (lookup (field_name f) kvs = None /\ field_default f = Required
            /\ p = [] /\ type e = missing)).
Proof.
  rewrite (validate_model_errors eng cls fs kvs w w).
  intros He. apply in_flat_map in He as (f & Hf & He).
  destruct f as [n a d]. unfold field_errors in He. cbn [validate_field] in He.
  cbn [field_name field_annotation field_default].
  destruct (lookup n kvs) as [j |] eqn:El.
  - destruct (V a j w) as [r w1] eqn:Ev. cbn [fst] in He. autorewrite with res in He.
    apply in_map_iff in He as (e' & <- & He').
    exists (Field n a d), (loc e'). split; [exact Hf |]. split; [reflexivity |].
    left. exists j. cbn [field_name field_annotation type under].
    split; [exact El |]. rewrite Ev. now destruct e'.
  - destruct d as [| x | fa]; cbn [get_default] in He.
    + destruct He as [<- | []]. exists (Field n a Required), [].
      split; [exact Hf |]. split; [reflexivity |]. right. auto.
    + destruct He.
    + destruct (call_factory fa w). destruct He.
Qed.

(** The class name plays no part in validation. *)
Lemma validate_class_name (c1 c2 : string) (fs : list field) (j : json) (w : World) :
  V (TModel c1 fs) j w
  = (res_map (with_class c1) (fst (V (TModel c2 fs) j w)), snd (V (TModel c2 fs) j w)).
Proof.
  destruct j as [| b | mant ex | s | items | kvs]; try reflexivity.
  cbn [validate]. now destruct (validate_fields V kvs fs w) as [[l | es] w'].
Qed.


(** *** The field after a run of fields *)

Lemma ok_app_res {A} (r1 r2 : res (list A)) (l : list A) :
  app_res r1 r2 = Ok l -> exists l1 l2, r1 = Ok l1 /\ r2 = Ok l2 /\ l = l1 ++ l2.
Proof. destruct r1, r2; try discriminate. intros [= <-]. eauto. Qed.

(** A field is validated in the world the fields declared before it leave,
    and the instance holds what that gave. *)
Lemma field_after_prefix (cls : string) (pre post : list field) (f : field)
  (kvs : list (string * json)) (w w' : World) (v : value) :
  V (TModel cls (pre ++ f :: post)) (JObj kvs) w = (Ok v, w') ->
  nodupb (map field_name (pre ++ f :: post)) = true ->
  exists x w2,
    validate_field V kvs f (snd (validate_fields V kvs pre w)) = (Ok (field_name f, x), w2)
    /\ getattr v (field_name f) = Some x
    /\ later w2 w'.
Proof.
  rewrite validate_model_step, validate_fields_app. intros Hv N.
  destruct (validate_fields V kvs pre w) as [r1 w1] eqn:E1.
  cbn [validate_fields snd] in *.
  destruct (validate_field V kvs f w1) as [r w2] eqn:Ef.
  pose proof (validate_fields_later eng kvs post w2) as L.
  destruct (validate_fields V kvs post w2) as [rs w3] eqn:E2.
  injection Hv as Hv <-. apply res_map_ok in Hv as (l & Hl & ->).
  apply ok_app_res in Hl as (l1 & l2 & -> & Hl2 & ->).
  apply cons_res_ok in Hl2 as ([k x] & l' & -> & -> & ->).
  pose proof (validate_field_name eng _ _ _ _ _ _ Ef) as ->.
  exists x, w2. split; [reflexivity |]. split; [| exact L].
  cbn [getattr]. rewrite lookup_app, lookup_absent.
  - cbn [lookup]. now rewrite String.eqb_refl.
  - rewrite (validate_fields_names eng _ _ _ _ _ E1).
    apply nodupb_NoDup in N. rewrite map_app in N. cbn [map] in N.
    apply NoDup_remove_2 in N. intros H. apply N. apply in_or_app. now left.
Qed.

(** A model whose last field is generated: the fields before it, then the
    factory. *)
Lemma validate_last_factory (cls : string) (fs : list field) (k : string) (a : ty)
  (fa : factory) (kvs : list (string * json)) (w : World) :
  lookup k kvs = None ->
  V (TModel cls (fs ++ [Field k a (DefaultFactory fa)])) (JObj kvs) w
  = (let (r, w1) := validate_fields V kvs fs w in
     let (x, w2) := call_factory fa w1 in
     (res_map (fun l => VModel cls (l ++ [(k, x)])) r, w2)).
Proof.
  intros Hk. rewrite validate_model_step, validate_fields_app.
  destruct (validate_fields V kvs fs w) as [r w1].
  cbn [validate_fields validate_field]. rewrite Hk. cbn [get_default].
  destruct (call_factory fa w1) as [x w2]. now destruct r.
Qed.

(** *** Optional counterparts *)

Lemma check_fields_optional (fs gs : list field) :
  Forall2 (fun f g => field_name g = field_name f
                      /\ field_annotation g = TOptional (field_annotation f)) fs gs ->
  forall kvs,
    check_fields (check eng) fs kvs = true -> check_fields (check eng) gs kvs = true.
Proof.
  induction 1 as [| f g fs gs [Hn Ha] _ IH]; intros [| [k x] kvs];
    cbn [check_fields]; try discriminate; [reflexivity |].
  rewrite !andb_true_iff. intros [[Hk Hx] Hr].
  rewrite Hn, Ha. repeat split; auto. cbn [check]. now destruct x.
Qed.

(** *** Fields that leave the world alone *)

Lemma validate_field_quiet (kvs : list (string * json)) (f : field) (w : World) :
  (forall j, supplied (field_annotation f) j = true) ->
  generated (field_default f) = false ->
  snd (validate_field V kvs f w) = w.
Proof.
  destruct f as [n a d]. cbn [field_annotation field_default validate_field].
  intros Ha Hd. destruct (lookup n kvs) as [j |].
  - destruct (validate_pure eng a j w w (Ha j)) as [_ E].
    now destruct (V a j w).
  - destruct d as [| x | [| |]]; try discriminate; reflexivity.
Qed.

End MoreTheory.

(** ** The results *)

Lemma fields_read_back (eng : Engine) (cls : string) (fs : list field) :
  schema_ok eng (TModel cls fs) = true ->
  Forall (fun f => reads_back eng (field_annotation f)) fs.
Proof.
  cbn [schema_ok]. rewrite andb_true_iff, forallb_forall. intros [_ H].
  apply Forall_forall. intros f Hf. apply validate_reads_back.
  specialize (H f Hf). now apply andb_true_iff in H as [H _].
Qed.

Lemma serialize_model (cls : string) (kvs : list (string * value)) :
  serialize (VModel cls kvs) = JObj (map serialize_member kvs).
Proof. reflexivity. Qed.

Section Further.
Local Open Scope string_scope.

(** A class as its name and field table. *)
Lemma class_eta (T : ty) (cls : string) (fs : list field) :
  T = TModel cls fs -> class_name T = cls /\ model_fields T = fs.
Proof. now intros ->. Qed.

(** The dump of an instance of [B], validated at [fs ++ [updated_at]]. *)
Lemma read_of_dump (eng : Engine) (cB cR : string) (fs : list field) (v : value)
  (w : World) :
  schema_ok eng (TModel cB fs) = true ->
  ~ In "updated_at" (map field_name fs) ->
  check eng (TModel cB fs) v = true ->
  validate eng (TModel cR (fs ++ [Field "updated_at" TDatetime (DefaultFactory F_utcnow)]))
    (serialize v) w
  = (Ok (stamp cR (now w) v), advance w).
Proof.
  intros S Hn Hc. pose proof (fields_read_back eng cB fs S) as R.
  cbn [check] in Hc. destruct v as [| | | | | | c kvs]; try discriminate.
  apply andb_true_iff in Hc as [_ Hc].
  cbn [schema_ok] in S. apply andb_true_iff in S as [N _].
  rewrite serialize_model, validate_last_factory.
  - rewrite (validate_fields_reads_back eng kvs fs R kvs w Hc).
    + reflexivity.
    + intros k x Hin. apply lookup_In; [| exact Hin].
      rewrite (check_fields_names _ _ _ Hc). now apply nodupb_NoDup.
  - rewrite lookup_serialized, lookup_absent; [reflexivity |].
    now rewrite (check_fields_names _ _ _ Hc).
Qed.

(** *** C7: what an operation depends on *)

(** C7 as stated fails: validating the example of section 8 twice in a row
    gives two instances with different ids. *)
Lemma C7_counterexample :
  ~ (forall eng T, In T variants -> invocation_independent (validate eng T)).
Proof.
  intros H.
  specialize (H engine0 AssignmentCreate ltac:(in_list) example_8 world0
                (snd (validate engine0 AssignmentCreate example_8 world0))).
  vm_compute in H. discriminate H.
Qed.

(** C7 (amended).  Every operation of the layer is a function of its input
    together with the entropy source and the clock, and changes nothing but
    how far those two have been read.  Two invocations on the same input
    agree on acceptance and on the errors.  They yield equal results, and
    read neither source, whenever the input supplies every field whose
    default is generated ([uuid4] or [utcnow]), as the dump of an instance
    of the variant does.  Reshaping a stored record, the dump of a Base or
    Create instance, into the Read class keeps every stored attribute and
    sets [updated_at] from the clock, which is read once: two invocations
    agree on everything but [updated_at], each having there its own
    reading. *)
Theorem C7_deterministic_up_to_generated (eng : Engine) (T : ty)
  (j : json) (w1 w2 : World) :
  is_ok (fst (validate eng T j w1)) = is_ok (fst (validate eng T j w2))
  /\ errors (fst (validate eng T j w1)) = errors (fst (validate eng T j w2))
  /\ later w1 (snd (validate eng T j w1))
  /\ (supplied T j = true ->
        fst (validate eng T j w1) = fst (validate eng T j w2)
        /\ snd (validate eng T j w1) = w1)
  /\ (forall v,
        In T variants -> check eng T v = true ->
        validate eng T (serialize v) w1 = (Ok v, w1)
        /\ validate eng T (serialize v) w2 = (Ok v, w2))
  /\ (forall B v,
        In (B, T) read_of -> check eng B v = true ->
        validate eng T (serialize v) w1
        = (Ok (stamp (class_name T) (now w1) v), advance w1)
        /\ validate eng T (serialize v) w2
           = (Ok (stamp (class_name T) (now w2) v), advance w2)).
Proof.
  pose proof (validate_steady eng T j w1 w2) as S.
  apply verdict_eq in S as [So Se].
  split; [exact So |]. split; [exact Se |].
  split; [apply validate_later |].
  split; [apply validate_pure |].
  split.
  - intros v HT Hv. pose proof (variants_ok eng T HT) as HS.
    split; now apply validate_reads_back.
  - intros B v H Hc. cbn [In read_of] in H.
    destruct H as [[= <- <-] | [[= <- <-] | [[= <- <-] | [[= <- <-] | []]]]];
      split; eapply read_of_dump; try exact Hc; try reflexivity;
      vm_compute; intuition discriminate.
Qed.

(** C7 at the serialised instance of the example of section 8, validated
    again as [AssignmentCreate] and reshaped into [AssignmentRead]. *)
Lemma C7_witness :
  (fst (validate engine0 AssignmentCreate (serialize example_8_object) world0)
   = fst (validate engine0 AssignmentCreate (serialize example_8_object) (advance world0))
   /\ snd (validate engine0 AssignmentCreate (serialize example_8_object) world0) = world0)
  /\ (validate engine0 AssignmentCreate (serialize example_8_object) world0
      = (Ok example_8_object, world0)
      /\ validate engine0 AssignmentCreate (serialize example_8_object) (advance world0)
         = (Ok example_8_object, advance world0))
  /\ (validate engine0 AssignmentRead (serialize example_8_object) world0
      = (Ok (stamp (class_name AssignmentRead) (now world0) example_8_object),
         advance world0)
      /\ validate engine0 AssignmentRead (serialize example_8_object) (advance world0)
         = (Ok (stamp (class_name AssignmentRead) (now (advance world0)) example_8_object),
            advance (advance world0))).
Proof.
  destruct (C7_deterministic_up_to_generated engine0 AssignmentCreate
              (serialize example_8_object) world0 (advance world0))
    as (_ & _ & _ & P & R & _).
  destruct (C7_deterministic_up_to_generated engine0 AssignmentRead
              (serialize example_8_object) world0 (advance world0))
    as (_ & _ & _ & _ & _ & D).
  split; [| split].
  - apply P. reflexivity.
  - apply R; [in_list | reflexivity].
  - apply (D AssignmentCreate); [in_list | reflexivity].
Defined.

(** X3.  The dump of a Base or Create instance is accepted as the Read class
    of the same entity: every attribute, the [id] and for an assignment the
    [created_at] included, is kept as stored, and [updated_at] is the one
    reading of the clock that is made. *)
Theorem X3_stored_record_to_read (eng : Engine) (B R : ty) (v : value) (w : World) :
  In (B, R) read_of ->
  check eng B v = true ->
  validate eng R (serialize v) w = (Ok (stamp (class_name R) (now w) v), advance w).
Proof.
  intros H Hc. cbn [In read_of] in H.
  destruct H as [[= <- <-] | [[= <- <-] | [[= <- <-] | [[= <- <-] | []]]]];
    eapply read_of_dump; try exact Hc; try reflexivity;
    vm_compute; intuition discriminate.
Qed.

Lemma X3_witness :
  validate engine0 AssignmentRead (serialize example_8_object) world0
  = (Ok (stamp (class_name AssignmentRead) (now world0) example_8_object),
     advance world0).
Proof.
  apply (X3_stored_record_to_read engine0 AssignmentCreate AssignmentRead
           example_8_object world0).
  - in_list.
  - reflexivity.
Defined.


Lemma read_then_stamp (eng : Engine) (cB cR : string) (fs : list field)
  (kvs : list (string * json)) (w : World) :
  lookup "updated_at" kvs = None ->
  validate eng (TModel cR (fs ++ [Field "updated_at" TDatetime (DefaultFactory F_utcnow)]))
    (JObj kvs) w
  = (res_map (stamp cR (now (snd (validate eng (TModel cB fs) (JObj kvs) w))))
       (fst (validate eng (TModel cB fs) (JObj kvs) w)),
     advance (snd (validate eng (TModel cB fs) (JObj kvs) w))).
Proof.
  intros Hk. rewrite validate_last_factory by exact Hk. rewrite validate_model_step.
  now destruct (validate_fields (validate eng) kvs fs w) as [[l | es] w1].
Qed.

(** X2.  On a document without [updated_at], validation as the Read class of
    an entity is validation as its Base (or Create) class followed by one
    reading of the clock: the verdict and every error are those of the Base
    class, and an accepted instance has the Base attributes followed by
    [updated_at], the time read after all other fields were built. *)
Theorem X2_read_is_base_then_stamp (eng : Engine) (B R : ty)
  (kvs : list (string * json)) (w : World) :
  In (B, R) read_of ->
  lookup "updated_at" kvs = None ->
  validate eng R (JObj kvs) w
  = (res_map (stamp (class_name R) (now (snd (validate eng B (JObj kvs) w))))
       (fst (validate eng B (JObj kvs) w)),
     advance (snd (validate eng B (JObj kvs) w))).
Proof.
  intros H Hk. cbn [In read_of] in H.
  destruct H as [[= <- <-] | [[= <- <-] | [[= <- <-] | [[= <- <-] | []]]]].
  - exact (read_then_stamp eng "AssignmentBase" "AssignmentRead"
             (model_fields AssignmentBase) kvs w Hk).
  - exact (read_then_stamp eng "AssignmentCreate" "AssignmentRead"
             (model_fields AssignmentCreate) kvs w Hk).
  - exact (read_then_stamp eng "CourseworkBase" "CourseworkRead"
             (model_fields CourseworkBase) kvs w Hk).
  - exact (read_then_stamp eng "CourseworkCreate" "CourseworkRead"
             (model_fields CourseworkCreate) kvs w Hk).
Qed.

Lemma X2_witness :
  validate engine0 CourseworkRead (JObj sample_course) world0
  = (res_map (stamp (class_name CourseworkRead)
                (now (snd (validate engine0 CourseworkCreate (JObj sample_course) world0))))
       (fst (validate engine0 CourseworkCreate (JObj sample_course) world0)),
     advance (snd (validate engine0 CourseworkCreate (JObj sample_course) world0))).
Proof.
  apply (X2_read_is_base_then_stamp engine0 CourseworkCreate CourseworkRead
           sample_course world0).
  - in_list.
  - reflexivity.
Defined.

(** X4.  [AssignmentRead] declares [created_at] and [updated_at] with the
    same factory, and each is a reading of its own: on a document with
    neither, [created_at] is read first and [updated_at] at the next tick of
    the clock, after which validation is over.  The two are not one
    timestamp taken once. *)
Theorem X4_read_timestamps (eng : Engine) (kvs : list (string * json)) (w w' : World)
  (v : value) :
  lookup "created_at" kvs = None ->
  lookup "updated_at" kvs = None ->
  validate eng AssignmentRead (JObj kvs) w = (Ok v, w') ->
  exists w1,
    later w w1
    /\ getattr v "created_at" = Some (VDatetime (now w1))
    /\ getattr v "updated_at" = Some (VDatetime (now (advance w1)))
    /\ w' = advance (advance w1).
Proof.
  intros Hc Hu Hv.
  remember (firstn 5 (model_fields AssignmentRead)) as pre eqn:Ep.
  assert (E : AssignmentRead
              = TModel "AssignmentRead"
                  ((pre ++ [Field "created_at" TDatetime (DefaultFactory F_utcnow)])
                     ++ [Field "updated_at" TDatetime (DefaultFactory F_utcnow)]))
    by (subst pre; reflexivity).
  rewrite E in Hv. rewrite validate_last_factory in Hv by exact Hu.
  rewrite validate_fields_app in Hv.
  pose proof (validate_fields_later eng kvs pre w) as L.
  destruct (validate_fields (validate eng) kvs pre w) as [r1 w1] eqn:E1.
  cbn [validate_fields validate_field] in Hv. rewrite Hc in Hv.
  cbn [get_default call_factory utcnow] in Hv.
  destruct r1 as [l1 | es]; [| discriminate Hv].
  cbn [app_res cons_res res_map] in Hv. injection Hv as <- <-.
  exists w1. split; [exact L |].
  assert (Nc : lookup "created_at" l1 = None /\ lookup "updated_at" l1 = None).
  { split; apply lookup_absent; rewrite (validate_fields_names eng _ _ _ _ _ E1);
      subst pre; vm_compute; intuition discriminate. }
  destruct Nc as [Nc Nu].
  cbn [getattr]. rewrite !lookup_app, Nc, Nu. cbn [lookup app].
  repeat split; reflexivity.
Qed.

Lemma X4_witness :
  exists w1,
    later world0 w1
    /\ getattr sample_assignment_read "created_at" = Some (VDatetime (now w1))
    /\ getattr sample_assignment_read "updated_at"
       = Some (VDatetime (now (advance w1)))
    /\ advance (advance (advance (advance world0))) = advance (advance w1).
Proof.
  apply (X4_read_timestamps engine0 (members example_8) world0
           (advance (advance (advance (advance world0)))) sample_assignment_read).
  - reflexivity.
  - reflexivity.
  - reflexivity.
Defined.

(** X1.  [AssignmentCreate] and [CourseworkCreate] declare no field of their
    own: a document is validated as the Create class exactly as it is as the
    Base class, with the same errors, the same draws from the entropy source
    and the clock and the same attributes; only the class of the instance
    differs. *)
Theorem X1_create_is_base (eng : Engine) (j : json) (w : World) :
  validate eng AssignmentCreate j w
  = (res_map (with_class "AssignmentCreate") (fst (validate eng AssignmentBase j w)),
     snd (validate eng AssignmentBase j w))
  /\ validate eng CourseworkCreate j w
     = (res_map (with_class "CourseworkCreate") (fst (validate eng CourseworkBase j w)),
        snd (validate eng CourseworkBase j w)).
Proof.
  split.
  - exact (validate_class_name eng "AssignmentCreate" "AssignmentBase"
             (model_fields AssignmentBase) j w).
  - exact (validate_class_name eng "CourseworkCreate" "CourseworkBase"
             (model_fields CourseworkBase) j w).
Qed.

Lemma variant_eta (T : ty) :
  In T variants -> T = TModel (class_name T) (model_fields T).
Proof.
  intros HT. cbn [variants In] in HT.
  repeat (destruct HT as [<- | HT]; [reflexivity |]). destruct HT.
Qed.

(** X5.  Whatever a variant accepts is an instance of it: every attribute
    has the declared type, the attributes are the declared fields in
    declaration order (inherited ones first), and the dump of the instance is
    read back as the same instance without drawing anything. *)
Theorem X5_accepted_is_instance (eng : Engine) (T : ty) (j : json) (w w' : World)
  (v : value) :
  In T variants -> clock_ok w ->
  validate eng T j w = (Ok v, w') ->
  check eng T v = true
  /\ attrs v = field_names T
  /\ forall w2, validate eng T (serialize v) w2 = (Ok v, w2).
Proof.
  intros HT Hc Hv. pose proof (variants_ok eng T HT) as S.
  assert (C : check eng T v = true) by (eapply validate_sound; eauto).
  repeat split; [exact C | | intros w2; now apply validate_serialize].
  rewrite (variant_eta T HT) in Hv.
  apply constructed_attrs in Hv. exact Hv.
Qed.

Lemma X5_witness :
  check engine0 AssignmentCreate example_8_object = true
  /\ attrs example_8_object = field_names AssignmentCreate
  /\ forall w2,
       validate engine0 AssignmentCreate (serialize example_8_object) w2
       = (Ok example_8_object, w2).
Proof.
  apply (X5_accepted_is_instance engine0 AssignmentCreate example_8 world0
           (advance (advance (advance world0))) example_8_object).
  - in_list.
  - intros n. reflexivity.
  - reflexivity.
Defined.

(** X6.  The dump loses nothing: two instances of a variant with the same
    dump are the same instance. *)
Theorem X6_dump_injective (eng : Engine) (T : ty) (v1 v2 : value) :
  In T variants ->
  check eng T v1 = true -> check eng T v2 = true ->
  serialize v1 = serialize v2 -> v1 = v2.
Proof.
  intros HT H1 H2 E. pose proof (variants_ok eng T HT) as S.
  pose proof (validate_serialize eng T v1 world0 S H1) as R1.
  pose proof (validate_serialize eng T v2 world0 S H2) as R2.
  rewrite E in R1. congruence.
Qed.

Lemma X6_witness :
  with_class "CourseworkCreate" sample_course_object = sample_course_object.
Proof.
  apply (X6_dump_injective engine0 CourseworkCreate
           (with_class "CourseworkCreate" sample_course_object) sample_course_object).
  - in_list.
  - reflexivity.
  - reflexivity.
  - reflexivity.
Defined.

(** X7.  A document is accepted exactly when validation reports no error:
    a rejection always names at least one error, at every annotation and
    every depth of nesting. *)
Theorem X7_accepted_iff_no_errors (eng : Engine) (T : ty) (j : json) (w : World) :
  is_ok (fst (validate eng T j w)) = true <-> errors (fst (validate eng T j w)) = [].
Proof.
  split.
  - apply ok_no_errors.
  - intros E. destruct (is_ok (fst (validate eng T j w))) eqn:H; [reflexivity |].
    now apply rejection_has_error in H.
Qed.

Lemma model_instance (eng : Engine) (cls : string) (fs : list field) (v : value) :
  check eng (TModel cls fs) v = true ->
  exists kvs, v = VModel cls kvs /\ check_fields (check eng) fs kvs = true.
Proof.
  destruct v as [| | | | | | c kvs]; try discriminate.
  cbn [check]. rewrite andb_true_iff. intros [Hc Hf].
  apply String.eqb_eq in Hc. subst c. now exists kvs.
Qed.

Lemma instance_of (eng : Engine) (B : ty) (bases : list ty) (fs : list field) (v : value) :
  In B bases ->
  Forall (fun T => model_fields T = fs /\ T = TModel (class_name T) fs) bases ->
  check eng B v = true ->
  exists c kvs, v = VModel c kvs /\ check_fields (check eng) fs kvs = true.
Proof.
  intros HB HF Hc. rewrite Forall_forall in HF. destruct (HF B HB) as [_ E].
  rewrite E in Hc. apply model_instance in Hc as (kvs & -> & Hk). eauto.
Qed.

(** X12.  [AssignmentUpdate] has every field of [AssignmentBase] as an
    optional one, so the dump of an [AssignmentBase] or [AssignmentCreate]
    instance is a complete patch: it is accepted as [AssignmentUpdate] with
    the very same attributes, and nothing is drawn. *)
Theorem X12_assignment_dump_as_patch (eng : Engine) (B : ty) (v : value) (w : World) :
  In B [AssignmentBase; AssignmentCreate] ->
  check eng B v = true ->
  validate eng AssignmentUpdate (serialize v) w
  = (Ok (with_class "AssignmentUpdate" v), w).
Proof.
  intros HB Hc.
  destruct (instance_of eng B _ (model_fields AssignmentBase) v HB) as (c & kvs & -> & F);
    [repeat constructor | exact Hc |].
  cbn [with_class instance_fields].
  rewrite serialize_model, <- (serialize_model "AssignmentUpdate").
  apply validate_serialize; [reflexivity |].
  change AssignmentUpdate with (TModel "AssignmentUpdate" (model_fields AssignmentUpdate)).
  cbn [check]. rewrite String.eqb_refl. cbn [andb].
  revert F. apply check_fields_optional. repeat constructor.
Qed.

Lemma X12_witness :
  validate engine0 AssignmentUpdate (serialize example_8_object) world0
  = (Ok (with_class "AssignmentUpdate" example_8_object), world0).
Proof.
  apply (X12_assignment_dump_as_patch engine0 AssignmentCreate example_8_object world0).
  - in_list.
  - reflexivity.
Defined.

(** X13.  [CourseworkUpdate] declares no [id] and does declare [created_at]:
    the dump of a [CourseworkBase] or [CourseworkCreate] instance is accepted
    as [CourseworkUpdate], but the instance built has lost the [id] and has
    gained a [created_at] read from the clock at that moment. *)
Theorem X13_coursework_dump_as_patch (eng : Engine) (B : ty) (v : value) (w : World) :
  In B [CourseworkBase; CourseworkCreate] ->
  check eng B v = true ->
  validate eng CourseworkUpdate (serialize v) w
  = (Ok (VModel "CourseworkUpdate"
           (tl (instance_fields v) ++ [("created_at", VDatetime (now w))])),
     advance w).
Proof.
  intros HB Hc.
  destruct (instance_of eng B _ (model_fields CourseworkBase) v HB) as (c & kvs & -> & F);
    [repeat constructor | exact Hc |].
  cbn [instance_fields].
  pose proof (check_fields_names _ _ _ F) as Hn.
  destruct kvs as [| [k0 x0] kvs]; [discriminate Hn |].
  cbn [tl]. rewrite serialize_model.
  change CourseworkUpdate with
    (TModel "CourseworkUpdate"
       (firstn 4 (model_fields CourseworkUpdate)
          ++ [Field "created_at" TDatetime (DefaultFactory F_utcnow)])).
  rewrite validate_last_factory.
  - rewrite (validate_fields_reads_back eng ((k0, x0) :: kvs)
               (firstn 4 (model_fields CourseworkUpdate)) ) with (kvs := kvs).
    + reflexivity.
    + apply (fields_read_back eng "CourseworkUpdate"). reflexivity.
    + change (model_fields CourseworkBase) with
        (Field "id" TUuid (DefaultFactory F_uuid4) :: tl (model_fields CourseworkBase)) in F.
      cbn [check_fields] in F. apply andb_true_iff in F as [_ F].
      revert F. apply check_fields_optional. repeat constructor.
    + intros k x Hin. apply lookup_In; [| now right].
      rewrite Hn. apply nodupb_NoDup. reflexivity.
  - rewrite lookup_serialized, lookup_absent; [reflexivity |].
    rewrite Hn. vm_compute. intuition discriminate.
Qed.

Lemma X13_witness :
  validate engine0 CourseworkUpdate (serialize sample_course_object) world0
  = (Ok (VModel "CourseworkUpdate"
           (tl (instance_fields sample_course_object)
              ++ [("created_at", VDatetime (now world0))])),
     advance world0).
Proof.
  apply (X13_coursework_dump_as_patch engine0 CourseworkCreate sample_course_object world0).
  - in_list.
  - reflexivity.
Defined.

(** *** Which members a document must have *)

Lemma missing_iff_required (eng : Engine) (cls : string) (fs : list field) (k : string)
  (kvs : list (string * json)) (w : World) :
  In (mkerror [Key k] missing)
     (errors (fst (validate eng (TModel cls fs) (JObj kvs) w)))
  <-> In k (required_names (TModel cls fs)) /\ lookup k kvs = None.
Proof.
  unfold required_names. cbn [model_fields]. split.
  - intros He. destruct (model_error_origin eng cls fs kvs w _ He)
      as (f & p & Hf & Hl & [(j & Hj & Hin) | (Hn & Hd & _ & _)]);
      cbn [loc type] in *; injection Hl as -> <-.
    + exfalso. now apply (root_error_not_missing eng _ _ _ _ Hin).
    + split; [| exact Hn]. apply in_map, filter_In. split; [exact Hf |].
      now rewrite Hd.
  - intros [Hk Hn]. apply in_map_iff in Hk as ([n a d] & <- & Hf).
    apply filter_In in Hf as [Hf Hd]. cbn [field_default field_name] in *.
    destruct d; try discriminate Hd. now apply required_missing with (a := a).
Qed.

(** X8.  For every variant, a [missing] error is reported at the top-level
    member [k] exactly when [k] is a field declared with [Field(...)] and the
    document does not have it.  So every omitted required field is reported,
    all of them at once, and no field with a default or a default factory
    ever is. *)
Theorem X8_missing_iff_required (eng : Engine) (T : ty) (k : string)
  (kvs : list (string * json)) (w : World) :
  In T variants ->
  (In (mkerror [Key k] missing) (errors (fst (validate eng T (JObj kvs) w)))
   <-> In k (required_names T) /\ lookup k kvs = None).
Proof.
  intros HT. cbn [variants In] in HT.
  repeat (destruct HT as [<- | HT];
          [exact (missing_iff_required eng _ _ k kvs w) |]).
  destruct HT.
Qed.

Lemma X8_witness :
  In (mkerror [Key "coursework"] missing)
     (errors (fst (validate engine0 AssignmentRead (JObj [("title", JStr "HW1")]) world0)))
  <-> In "coursework" (required_names AssignmentRead)
      /\ lookup "coursework" [("title", JStr "HW1")] = None.
Proof.
  apply (X8_missing_iff_required engine0 AssignmentRead "coursework"
           [("title", JStr "HW1")] world0).
  in_list.
Defined.

Lemma errors_at_supplied (eng : Engine) (cls : string) (fs : list field)
  (kvs : list (string * json)) (w : World) :
  forallb (fun f => negb (is_required (field_default f))) fs = true ->
  forall e,
    In e (errors (fst (validate eng (TModel cls fs) (JObj kvs) w))) ->
    exists k p j, loc e = Key k :: p /\ In k (map field_name fs)
                  /\ lookup k kvs = Some j.
Proof.
  intros Hfs e He. rewrite forallb_forall in Hfs.
  destruct (model_error_origin eng cls fs kvs w _ He)
    as (f & p & Hf & Hl & [(j & Hj & Hin) | (Hn & Hd & _ & _)]).
  - exists (field_name f), p, j. repeat split; auto using in_map.
  - specialize (Hfs f Hf). rewrite Hd in Hfs. discriminate Hfs.
Qed.

(** X9.  A patch is never rejected for what it leaves out: every error of an
    Update document lies at or below a declared member that the document
    has, and a document with none of the declared members is accepted. *)
Theorem X9_patch_errors_at_supplied (eng : Engine) (T : ty)
  (kvs : list (string * json)) (w : World) :
  In T [CourseworkUpdate; AssignmentUpdate] ->
  (forall e,
     In e (errors (fst (validate eng T (JObj kvs) w))) ->
     exists k p j, loc e = Key k :: p /\ In k (field_names T) /\ lookup k kvs = Some j)
  /\ ((forall k, In k (field_names T) -> lookup k kvs = None) ->
      is_ok (fst (validate eng T (JObj kvs) w)) = true).
Proof.
  intros HT.
  assert (A : forall e,
             In e (errors (fst (validate eng T (JObj kvs) w))) ->
             exists k p j, loc e = Key k :: p /\ In k (field_names T)
                           /\ lookup k kvs = Some j).
  { cbn [In] in HT. destruct HT as [<- | [<- | []]];
      apply (errors_at_supplied eng _ _ kvs w); reflexivity. }
  split; [exact A |].
  intros Hn. destruct (is_ok (fst (validate eng T (JObj kvs) w))) eqn:Hok; [reflexivity |].
  apply rejection_has_error in Hok.
  destruct (errors (fst (validate eng T (JObj kvs) w))) as [| e es]; [now destruct Hok |].
  destruct (A e (or_introl eq_refl)) as (k & p & j & _ & Hk & Hj).
  rewrite (Hn k Hk) in Hj. discriminate Hj.
Qed.

Lemma X9_witness :
  is_ok (fst (validate engine0 CourseworkUpdate (JObj [("note", JStr "x")]) world0))
  = true.
Proof.
  destruct (X9_patch_errors_at_supplied engine0 CourseworkUpdate
              [("note", JStr "x")] world0) as [_ H].
  - in_list.
  - apply H. intros k Hk. vm_compute in Hk.
    repeat (destruct Hk as [<- | Hk]; [reflexivity |]). destruct Hk.
Defined.

(** *** What of the document validation looks at *)

Lemma validate_declared (eng : Engine) (cls : string) (fs : list field)
  (kvs1 kvs2 : list (string * json)) (w : World) :
  (forall k, In k (map field_name fs) -> lookup k kvs1 = lookup k kvs2) ->
  validate eng (TModel cls fs) (JObj kvs1) w = validate eng (TModel cls fs) (JObj kvs2) w.
Proof.
  intros H. rewrite !validate_model_step.
  rewrite (validate_fields_ext (validate eng) kvs1 kvs2 fs); [reflexivity |].
  intros [n a d] w0 Hf. cbn [validate_field].
  now rewrite (H n (in_map field_name _ _ Hf)).
Qed.

(** X10.  No variant sets [extra] in its [model_config]: a member the class
    does not declare is ignored wherever it stands in the document, and the
    result is that of the document without it. *)
Theorem X10_unknown_members_ignored (eng : Engine) (T : ty) (k : string) (j : json)
  (kvs1 kvs2 : list (string * json)) (w : World) :
  In T variants -> ~ In k (field_names T) ->
  validate eng T (JObj (kvs1 ++ (k, j) :: kvs2)) w
  = validate eng T (JObj (kvs1 ++ kvs2)) w.
Proof.
  intros HT Hk. rewrite (variant_eta T HT). apply validate_declared.
  intros k' Hk'. rewrite !lookup_app. destruct (lookup k' kvs1); [reflexivity |].
  cbn [lookup]. destruct (String.eqb_spec k' k) as [-> | _]; [| reflexivity].
  contradiction.
Qed.

Lemma X10_witness :
  validate engine0 AssignmentCreate
    (JObj ([("title", JStr "HW1")] ++ ("grade", JStr "A") :: [("description", JStr "...")]))
    world0
  = validate engine0 AssignmentCreate
      (JObj ([("title", JStr "HW1")] ++ [("description", JStr "...")])) world0.
Proof.
  apply (X10_unknown_members_ignored engine0 AssignmentCreate "grade" (JStr "A")
           [("title", JStr "HW1")] [("description", JStr "...")] world0).
  - in_list.
  - intros Hk. vm_compute in Hk.
    repeat (destruct Hk as [Hk | Hk]; [discriminate Hk |]). destruct Hk.
Defined.

(** X11.  Fields are built in declaration order, whatever the order of the
    members in the document: two documents with the same members in another
    order get the same verdict, the same instance and the same draws. *)
Theorem X11_member_order_irrelevant (eng : Engine) (T : ty)
  (kvs1 kvs2 : list (string * json)) (w : World) :
  In T variants -> NoDup (map fst kvs1) -> Permutation kvs1 kvs2 ->
  validate eng T (JObj kvs1) w = validate eng T (JObj kvs2) w.
Proof.
  intros HT Hn Hp. rewrite (variant_eta T HT). apply validate_declared.
  intros k _. now apply lookup_permutation.
Qed.

Lemma X11_witness :
  validate engine0 CourseworkUpdate
    (JObj [("semester", JStr "Spring 2026"); ("title", JStr "Advanced Cloud Computing")])
    world0
  = validate engine0 CourseworkUpdate
      (JObj [("title", JStr "Advanced Cloud Computing"); ("semester", JStr "Spring 2026")])
      world0.
Proof.
  apply (X11_member_order_irrelevant engine0 CourseworkUpdate
           [("semester", JStr "Spring 2026"); ("title", JStr "Advanced Cloud Computing")]
           [("title", JStr "Advanced Cloud Computing"); ("semester", JStr "Spring 2026")]
           world0).
  - in_list.
  - apply NoDup_cons; [| apply NoDup_cons; [intros [] | apply NoDup_nil]].
    intros Hk. vm_compute in Hk. destruct Hk as [Hk | []]. discriminate Hk.
  - apply perm_swap.
Defined.

(** *** The id of an assignment patch *)

Lemma optional_scalar_quiet (eng : Engine) (kvs : list (string * json)) (k : string)
  (a : ty) (w : World) :
  In a [TStr; TDate; TDatetime; TUuid] ->
  snd (validate_field (validate eng) kvs (Field k (TOptional a) (Default VNone)) w) = w.
Proof.
  intros Ha. apply validate_field_quiet; [| reflexivity].
  intros j. cbn [In] in Ha. cbn [field_annotation].
  destruct Ha as [<- | [<- | [<- | [<- | []]]]]; now destruct j.
Qed.

Lemma fields_quiet (eng : Engine) (kvs : list (string * json)) (fs : list field) :
  Forall (fun f => forall w, snd (validate_field (validate eng) kvs f w) = w) fs ->
  forall w, snd (validate_fields (validate eng) kvs fs w) = w.
Proof.
  induction 1 as [| f fs Hf _ IH]; intros w; cbn [validate_fields]; [reflexivity |].
  specialize (Hf w). destruct (validate_field (validate eng) kvs f w) as [r w1].
  cbn [snd] in Hf. subst w1. specialize (IH w).
  destruct (validate_fields (validate eng) kvs fs w) as [rs w2]. exact IH.
Qed.

(** X14.  The [id] of [AssignmentUpdate] is [Optional[UUID]] with a default
    factory: an explicit null is accepted and the instance then has no id at
    all ([None]), where leaving [id] out would have generated one.  With a
    null [id] and no [coursework], nothing is drawn from the entropy source
    or the clock. *)
Theorem X14_patch_null_id (eng : Engine) (kvs : list (string * json)) (w w' : World)
  (v : value) :
  lookup "id" kvs = Some JNull ->
  validate eng AssignmentUpdate (JObj kvs) w = (Ok v, w') ->
  getattr v "id" = Some VNone
  /\ (lookup "coursework" kvs = None \/ lookup "coursework" kvs = Some JNull -> w' = w).
Proof.
  intros Hid Hv. split.
  - destruct (constructed_supplied eng "AssignmentUpdate" (model_fields AssignmentUpdate)
                kvs w w' v "id" (TOptional TUuid) (DefaultFactory F_uuid4) JNull Hv)
      as (x & w1 & w2 & Hx & Hg); [reflexivity | now left | exact Hid |].
    cbn [validate] in Hx. now injection Hx as <- _.
  - intros Hc. apply (f_equal snd) in Hv. cbn [snd] in Hv. rewrite <- Hv.
    change AssignmentUpdate with (TModel "AssignmentUpdate" (model_fields AssignmentUpdate)).
    rewrite validate_model_step.
    assert (Q : Forall (fun f => forall w0,
                          snd (validate_field (validate eng) kvs f w0) = w0)
                  (model_fields AssignmentUpdate)).
    { repeat constructor; intros w0;
        try (apply optional_scalar_quiet; solve [in_list]).
      - cbn [validate_field]. now rewrite Hid.
      - cbn [validate_field]. now destruct Hc as [-> | ->]. }
    pose proof (fields_quiet eng kvs _ Q w) as Q'.
    now destruct (validate_fields (validate eng) kvs (model_fields AssignmentUpdate) w).
Qed.

Lemma X14_witness :
  getattr sample_null_id_patch "id" = Some VNone
  /\ (lookup "coursework" [("id", JNull)] = None
      \/ lookup "coursework" [("id", JNull)] = Some JNull -> world0 = world0).
Proof.
  apply (X14_patch_null_id engine0 [("id", JNull)] world0 world0 sample_null_id_patch).
  - reflexivity.
  - reflexivity.
Defined.

(** *** Identifiers drawn in turn *)

Lemma ids_in_turn (eng : Engine) (cls : string) (aid a : ty) (d : dflt)
  (mid post : list field) (kvs ckvs : list (string * json)) (w w' : World) (v : value) :
  Forall (fun f => forall w0, snd (validate_field (validate eng) kvs f w0) = w0) mid ->
  In a [CourseworkBase; TOptional CourseworkBase] ->
  nodupb (map field_name
            ((Field "id" aid (DefaultFactory F_uuid4) :: mid)
               ++ Field "coursework" a d :: post)) = true ->
  lookup "id" kvs = None ->
  lookup "coursework" kvs = Some (JObj ckvs) ->
  lookup "id" ckvs = None ->
  validate eng (TModel cls ((Field "id" aid (DefaultFactory F_uuid4) :: mid)
                              ++ Field "coursework" a d :: post)) (JObj kvs) w
  = (Ok v, w') ->
  getattr v "id" = Some (VUuid (fresh_uuid w))
  /\ exists c, getattr v "coursework" = Some c
               /\ getattr c "id" = Some (VUuid (fresh_uuid (advance w))).
Proof.
  intros Hq Ha Hn Hid Hc Hcid Hv. split.
  - now destruct (first_factory eng cls "id" aid F_uuid4 _ kvs w w' v Hv Hid).
  - destruct (field_after_prefix eng cls _ post _ kvs w w' v Hv Hn)
      as (x & w2 & Hf & Hg & _).
    cbn [field_name] in *. exists x. split; [exact Hg |].
    assert (Ew : snd (validate_fields (validate eng) kvs
                        (Field "id" aid (DefaultFactory F_uuid4) :: mid) w) = advance w).
    { cbn [validate_fields validate_field]. rewrite Hid. cbn [get_default call_factory].
      pose proof (fields_quiet eng kvs mid Hq (advance w)) as Q.
      unfold uuid4, os_urandom16.
      now destruct (validate_fields (validate eng) kvs mid (advance w)). }
    rewrite Ew in Hf. cbn [validate_field] in Hf. rewrite Hc in Hf.
    assert (E : validate eng a (JObj ckvs) (advance w)
                = validate eng CourseworkBase (JObj ckvs) (advance w)).
    { cbn [In] in Ha. destruct Ha as [<- | [<- | []]]; reflexivity. }
    rewrite E in Hf.
    destruct (validate eng CourseworkBase (JObj ckvs) (advance w)) as [[c | es] w3] eqn:Ec;
      [| discriminate Hf].
    cbn [res_map at_loc] in Hf. injection Hf as <- _.
    exact (proj1 (first_factory eng "CourseworkBase" "id" TUuid F_uuid4
                    (tl (model_fields CourseworkBase)) ckvs (advance w) w3 c Ec Hcid)).
Qed.

Ltac quiet_fields :=
  repeat constructor; intros ?;
  first [ apply optional_scalar_quiet; solve [in_list]
        | apply validate_field_quiet;
          [ let j := fresh "j" in intros j; destruct j; reflexivity | reflexivity ] ].

(** X15.  When an Assignment document gives an id neither to the assignment
    nor to its coursework, both are generated, the assignment's first and
    the coursework's from the very next draw of the entropy source: the
    fields in between ([title], [description], [due_date]) draw nothing. *)
Theorem X15_successive_ids (eng : Engine) (T : ty) (kvs ckvs : list (string * json))
  (w w' : World) (v : value) :
  In T [AssignmentBase; AssignmentCreate; AssignmentUpdate; AssignmentRead] ->
  lookup "id" kvs = None ->
  lookup "coursework" kvs = Some (JObj ckvs) ->
  lookup "id" ckvs = None ->
  validate eng T (JObj kvs) w = (Ok v, w') ->
  getattr v "id" = Some (VUuid (fresh_uuid w))
  /\ exists c, getattr v "coursework" = Some c
               /\ getattr c "id" = Some (VUuid (fresh_uuid (advance w))).
Proof.
  intros HT Hid Hc Hcid Hv. cbn [In] in HT.
  destruct HT as [<- | [<- | [<- | [<- | []]]]].
  - apply (ids_in_turn eng "AssignmentBase" TUuid CourseworkBase Required
             [ Field "title" TStr Required; Field "description" TStr Required;
               Field "due_date" TDate Required ]
             [ Field "created_at" TDatetime (DefaultFactory F_utcnow) ]
             kvs ckvs w w' v);
      [quiet_fields | in_list | reflexivity | exact Hid | exact Hc | exact Hcid | exact Hv].
  - apply (ids_in_turn eng "AssignmentCreate" TUuid CourseworkBase Required
             [ Field "title" TStr Required; Field "description" TStr Required;
               Field "due_date" TDate Required ]
             [ Field "created_at" TDatetime (DefaultFactory F_utcnow) ]
             kvs ckvs w w' v);
      [quiet_fields | in_list | reflexivity | exact Hid | exact Hc | exact Hcid | exact Hv].
  - apply (ids_in_turn eng "AssignmentUpdate" (TOptional TUuid) (TOptional CourseworkBase)
             (Default VNone)
             [ Field "title" (TOptional TStr) (Default VNone);
               Field "description" (TOptional TStr) (Default VNone);
               Field "due_date" (TOptional TDate) (Default VNone) ]
             [ Field "created_at" (TOptional TDatetime) (Default VNone) ]
             kvs ckvs w w' v);
      [quiet_fields | in_list | reflexivity | exact Hid | exact Hc | exact Hcid | exact Hv].
  - apply (ids_in_turn eng "AssignmentRead" TUuid CourseworkBase Required
             [ Field "title" TStr Required; Field "description" TStr Required;
               Field "due_date" TDate Required ]
             [ Field "created_at" TDatetime (DefaultFactory F_utcnow);
               Field "updated_at" TDatetime (DefaultFactory F_utcnow) ]
             kvs ckvs w w' v);
      [quiet_fields | in_list | reflexivity | exact Hid | exact Hc | exact Hcid | exact Hv].
Qed.

Lemma X15_witness :
  getattr example_8_object "id" = Some (VUuid (fresh_uuid world0))
  /\ exists c,
       getattr example_8_object "coursework" = Some c
       /\ getattr c "id" = Some (VUuid (fresh_uuid (advance world0))).
Proof.
  apply (X15_successive_ids engine0 AssignmentCreate (members example_8)
           [ ("title", JStr "CC"); ("semester", JStr "Fall 2025");
             ("professor",
              JObj [ ("uni", JStr "df123"); ("first_name", JStr "Donald");
                     ("last_name", JStr "Ferguson"); ("email", JStr "d@f.edu") ]) ]
           world0 (advance (advance (advance world0))) example_8_object).
  - in_list.
  - reflexivity.
  - reflexivity.
  - reflexivity.
  - reflexivity.
Defined.

(** X16.  The [coursework] of an assignment is a whole [CourseworkBase] in
    every variant, [AssignmentUpdate] included: a coursework object without
    [title], [semester] or [professor] is rejected with a [missing] error at
    [coursework.<field>], so a patch cannot change part of the coursework. *)
Theorem X16_nested_coursework_complete (eng : Engine) (T : ty) (k : string)
  (kvs ckvs : list (string * json)) (w : World) :
  In T [AssignmentBase; AssignmentCreate; AssignmentUpdate; AssignmentRead] ->
  lookup "coursework" kvs = Some (JObj ckvs) ->
  In k ["title"; "semester"; "professor"] ->
  lookup k ckvs = None ->
  In (mkerror [Key "coursework"; Key k] missing)
     (errors (fst (validate eng T (JObj kvs) w))).
Proof.
  intros HT Hc Hk Hn.
  assert (M : In (mkerror [Key k] missing)
                 (errors (fst (validate eng CourseworkBase (JObj ckvs) w)))).
  { apply missing_iff_required. split; [| exact Hn].
    cbn [In] in Hk. destruct Hk as [<- | [<- | [<- | []]]]; in_list. }
  change (mkerror [Key "coursework"; Key k] missing)
    with (under (Key "coursework") (mkerror [Key k] missing)).
  cbn [In] in HT. destruct HT as [<- | [<- | [<- | [<- | []]]]].
  - eapply (field_error eng "AssignmentBase" (model_fields AssignmentBase)
              "coursework" CourseworkBase Required kvs); [in_list | exact Hc | exact M].
  - eapply (field_error eng "AssignmentCreate" (model_fields AssignmentCreate)
              "coursework" CourseworkBase Required kvs); [in_list | exact Hc | exact M].
  - eapply (field_error eng "AssignmentUpdate" (model_fields AssignmentUpdate)
              "coursework" (TOptional CourseworkBase) (Default VNone) kvs);
      [in_list | exact Hc | exact M].
  - eapply (field_error eng "AssignmentRead" (model_fields AssignmentRead)
              "coursework" CourseworkBase Required kvs); [in_list | exact Hc | exact M].
Qed.

Lemma X16_witness :
  In (mkerror [Key "coursework"; Key "semester"] missing)
     (errors (fst (validate engine0 AssignmentUpdate
                     (JObj [("coursework", JObj [("title", JStr "CC")])]) world0))).
Proof.
  apply (X16_nested_coursework_complete engine0 AssignmentUpdate "semester"
           [("coursework", JObj [("title", JStr "CC")])] [("title", JStr "CC")] world0).
  - in_list.
  - reflexivity.
  - in_list.
  - reflexivity.
Defined.

(** *** The list of people *)

Lemma list_errors (eng : Engine) (a t : ty) (items : list json) (n : nat) (j : json)
  (e : error) (w w0 : World) :
  In a [TList t; TOptional (TList t)] ->
  nth_error items n = Some j ->
  In e (errors (fst (validate eng t j w0))) ->
  In (under (Index n) e) (errors (fst (validate eng a (JArr items) w))).
Proof.
  intros Ha Hn He.
  assert (E : validate eng a (JArr items) w = validate eng (TList t) (JArr items) w)
    by (cbn [In] in Ha; destruct Ha as [<- | [<- | []]]; reflexivity).
  rewrite E. cbn [validate].
  pose proof (validate_items_error eng t items 0 n j e w w0 Hn He) as H.
  destruct (validate_items (validate eng t) 0 items w) as [r w1].
  cbn [fst] in *. now destruct r.
Qed.

(** X17.  Every error that an entry of [people] has as a person is reported
    by each Coursework variant, located at [people], the position of the
    entry in the list, and then the place within the entry.  One bad entry
    rejects the document, and no entry is skipped. *)
Theorem X17_people_errors_indexed (eng : Engine) (T : ty) (kvs : list (string * json))
  (items : list json) (n : nat) (j : json) (e : error) (w w0 : World) :
  In T [CourseworkBase; CourseworkCreate; CourseworkUpdate; CourseworkRead] ->
  lookup "people" kvs = Some (JArr items) ->
  nth_error items n = Some j ->
  In e (errors (fst (validate eng PersonBase j w0))) ->
  In (mkerror (Key "people" :: Index n :: loc e) (type e))
     (errors (fst (validate eng T (JObj kvs) w))).
Proof.
  intros HT Hp Hn He.
  change (mkerror (Key "people" :: Index n :: loc e) (type e))
    with (under (Key "people") (under (Index n) e)).
  cbn [In] in HT. destruct HT as [<- | [<- | [<- | [<- | []]]]].
  - apply (field_error eng "CourseworkBase" (model_fields CourseworkBase)
             "people" (TList PersonBase) (DefaultFactory F_list) kvs (JArr items) _ w w);
      [in_list | exact Hp |].
    apply (list_errors eng _ PersonBase items n j e w w0); [in_list | exact Hn | exact He].
  - apply (field_error eng "CourseworkCreate" (model_fields CourseworkCreate)
             "people" (TList PersonBase) (DefaultFactory F_list) kvs (JArr items) _ w w);
      [in_list | exact Hp |].
    apply (list_errors eng _ PersonBase items n j e w w0); [in_list | exact Hn | exact He].
  - apply (field_error eng "CourseworkUpdate" (model_fields CourseworkUpdate)
             "people" (TOptional (TList PersonBase)) (Default VNone) kvs (JArr items) _ w w);
      [in_list | exact Hp |].
    apply (list_errors eng _ PersonBase items n j e w w0); [in_list | exact Hn | exact He].
  - apply (field_error eng "CourseworkRead" (model_fields CourseworkRead)
             "people" (TList PersonBase) (DefaultFactory F_list) kvs (JArr items) _ w w);
      [in_list | exact Hp |].
    apply (list_errors eng _ PersonBase items n j e w w0); [in_list | exact Hn | exact He].
Qed.

Lemma X17_witness :
  In (mkerror [Key "people"; Index 1] model_type)
     (errors (fst (validate engine0 CourseworkUpdate
                     (JObj [("people", JArr [JObj []; JNull])]) world0))).
Proof.
  apply (X17_people_errors_indexed engine0 CourseworkUpdate
           [("people", JArr [JObj []; JNull])] [JObj []; JNull] 1 JNull
           (mkerror [] model_type) world0 world0).
  - in_list.
  - reflexivity.
  - reflexivity.
  - left. reflexivity.
Defined.

Lemma list_constructed (eng : Engine) (cls : string) (fs : list field) (a t : ty) (d : dflt)
  (kvs : list (string * json)) (items : list json) (w w' : World) (v : value) :
  In a [TList t; TOptional (TList t)] ->
  nodupb (map field_name fs) = true ->
  In (Field "people" a d) fs ->
  lookup "people" kvs = Some (JArr items) ->
  validate eng (TModel cls fs) (JObj kvs) w = (Ok v, w') ->
  exists l,
    getattr v "people" = Some (VList l)
    /\ Forall2 (fun j x => exists w1 w2,
                  later w w1 /\ validate eng t j w1 = (Ok x, w2)) items l.
Proof.
  intros Ha Hn Hf Hp Hv.
  destruct (constructed_field eng cls fs kvs w w' v _ Hv Hn Hf)
    as (x & w1 & w2 & Hl & Hx & Hg).
  cbn [field_name validate_field] in *. rewrite Hp in Hx.
  assert (E : validate eng a (JArr items) w1 = validate eng (TList t) (JArr items) w1)
    by (cbn [In] in Ha; destruct Ha as [<- | [<- | []]]; reflexivity).
  rewrite E in Hx. cbn [validate] in Hx.
  destruct (validate_items (validate eng t) 0 items w1) as [[l | es] w3] eqn:Ei;
    [| discriminate Hx].
  cbn [res_map at_loc] in Hx. injection Hx as <- _.
  exists l. split; [exact Hg |].
  apply validate_items_constructed in Ei.
  eapply Forall2_impl; [| exact Ei].
  intros j y (wa & wb & Hl' & Hy). exists wa, wb. split; [| exact Hy].
  eapply later_trans; eauto.
Qed.

(** X18.  An accepted [people] array becomes a list with one person per
    entry, in the order of the document and with repetitions kept (it is a
    list, not a set keyed by [uni]): each person is what validating that
    entry as [PersonBase] gives. *)
Theorem X18_people_entrywise (eng : Engine) (T : ty) (kvs : list (string * json))
  (items : list json) (w w' : World) (v : value) :
  In T [CourseworkBase; CourseworkCreate; CourseworkUpdate; CourseworkRead] ->
  lookup "people" kvs = Some (JArr items) ->
  validate eng T (JObj kvs) w = (Ok v, w') ->
  exists l,
    getattr v "people" = Some (VList l)
    /\ List.length l = List.length items
    /\ Forall2 (fun j x => exists w1 w2,
                  later w w1 /\ validate eng PersonBase j w1 = (Ok x, w2)) items l.
Proof.
  intros HT Hp Hv.
  assert (H : exists l,
             getattr v "people" = Some (VList l)
             /\ Forall2 (fun j x => exists w1 w2,
                           later w w1 /\ validate eng PersonBase j w1 = (Ok x, w2))
                  items l).
  { cbn [In] in HT. destruct HT as [<- | [<- | [<- | [<- | []]]]].
    - apply (list_constructed eng "CourseworkBase" (model_fields CourseworkBase)
               (TList PersonBase) PersonBase (DefaultFactory F_list) kvs items w w' v);
        [in_list | reflexivity | in_list | exact Hp | exact Hv].
    - apply (list_constructed eng "CourseworkCreate" (model_fields CourseworkCreate)
               (TList PersonBase) PersonBase (DefaultFactory F_list) kvs items w w' v);
        [in_list | reflexivity | in_list | exact Hp | exact Hv].
    - apply (list_constructed eng "CourseworkUpdate" (model_fields CourseworkUpdate)
               (TOptional (TList PersonBase)) PersonBase (Default VNone) kvs items w w' v);
        [in_list | reflexivity | in_list | exact Hp | exact Hv].
    - apply (list_constructed eng "CourseworkRead" (model_fields CourseworkRead)
               (TList PersonBase) PersonBase (DefaultFactory F_list) kvs items w w' v);
        [in_list | reflexivity | in_list | exact Hp | exact Hv]. }
  destruct H as (l & Hg & Hf). exists l. repeat split; auto.
  symmetry. eapply Forall2_length; eauto.
Qed.

Lemma X18_witness :
  exists l,
    getattr sample_course_object "people" = Some (VList l)
    /\ List.length l = 1%nat.
Proof.
  destruct (X18_people_entrywise engine0 CourseworkCreate sample_course
              (match lookup "people" sample_course with
               | Some (JArr items) => items
               | _ => []
               end)
              world0 (advance world0) sample_course_object) as (l & Hg & Hl & _).
  - in_list.
  - reflexivity.
  - reflexivity.
  - exists l. split; [exact Hg | exact Hl].
Defined.

(** X19.  A Coursework (Base, Create or Read) accepted from a document
    without [people] has the empty list there, not [None]: the field is
    never absent from an instance or from its dump. *)
Theorem X19_people_default (eng : Engine) (T : ty) (kvs : list (string * json))
  (w w' : World) (v : value) :
  In T [CourseworkBase; CourseworkCreate; CourseworkRead] ->
  lookup "people" kvs = None ->
  validate eng T (JObj kvs) w = (Ok v, w') ->
  getattr v "people" = Some (VList []).
Proof.
  intros HT Hp Hv. cbn [In] in HT. destruct HT as [<- | [<- | [<- | []]]].
  - destruct (constructed_factory eng "CourseworkBase" (model_fields CourseworkBase)
                kvs w w' v "people" (TList PersonBase) F_list Hv)
      as (w1 & _ & Hg); [reflexivity | in_list | exact Hp | exact Hg].
  - destruct (constructed_factory eng "CourseworkCreate" (model_fields CourseworkCreate)
                kvs w w' v "people" (TList PersonBase) F_list Hv)
      as (w1 & _ & Hg); [reflexivity | in_list | exact Hp | exact Hg].
  - destruct (constructed_factory eng "CourseworkRead" (model_fields CourseworkRead)
                kvs w w' v "people" (TList PersonBase) F_list Hv)
      as (w1 & _ & Hg); [reflexivity | in_list | exact Hp | exact Hg].
Qed.

Lemma X19_witness :
  getattr sample_embedded_course "people" = Some (VList []).
Proof.
  apply (X19_people_default engine0 CourseworkBase
           [ ("title", JStr "CC"); ("semester", JStr "Fall 2025");
             ("professor",
              JObj [ ("uni", JStr "df123"); ("first_name", JStr "Donald");
                     ("last_name", JStr "Ferguson"); ("email", JStr "d@f.edu") ]) ]
           (advance world0) (advance (advance world0)) sample_embedded_course).
  - in_list.
  - reflexivity.
  - reflexivity.
Defined.

End Further.
